(** * Scoring and ranking engine of the DAO AI service

    A shallow embedding of the scoring core of
    [dao/ai-service/app/agents/bounty_matching_agent.py] and
    [dao/ai-service/app/agents/quality_assessment_agent.py], together with the
    part of [dao/ai-service/app/models/schemas.py] that constrains their
    results.

    Conventions of the embedding.
    - A Python [float] is the rational ([Q]) it denotes, and equality of
      scores is [Qeq].  Where the result of an operation decides a discrete
      outcome (a confidence level, the days of [int()]), the operation is
      rounded to binary64 by [Float64]; the scores themselves are computed
      exactly, that is up to the rounding of the last place.  A conversion
      of an [int] to a [float] raises when the [int] is too large, also
      where the value is kept exact.  NaN does not arise in the functions
      modelled.
    - A Python [int] is a [Z].
    - A Python [str] is a [string] whose characters are the code points
      below 256.
    - A Python exception that leaves a function is the result [None] of an
      [option]; [ZeroDivisionError] is made explicit by [py_div]. *)

From Stdlib Require Import ZArith QArith Qminmax List String Ascii Bool Lia Lqa.
From Stdlib Require Import Permutation Sorted DecimalString.
From Stdlib Require Import Qround Qabs Qpower.
Import ListNotations.

Local Open Scope Q_scope.

(** ** Python numbers *)

Module PyNum.

Definition Qltb (a b : Q) : bool := negb (Qle_bool b a).
Definition Qgeb (a b : Q) : bool := Qle_bool b a.

(** [max(a, b)] keeps its first argument unless the second is strictly
    greater; [min(a, b)] unless the second is strictly smaller. *)
Definition py_max (a b : Q) : Q := if Qltb a b then b else a.
Definition py_min (a b : Q) : Q := if Qltb b a then b else a.

(** True division; [None] is [ZeroDivisionError]. *)
Definition py_div (a b : Q) : option Q :=
  if Qeq_bool b 0 then None else Some (a / b).

(** [int(x)] on a float truncates towards zero. *)
Definition py_int (x : Q) : Z := Z.quot (Qnum x) (Z.pos (Qden x)).

(** A small error monad for the exception-raising paths. *)
Definition bind {A B : Type} (m : option A) (k : A -> option B) : option B :=
  match m with
  | Some a => k a
  | None => None
  end.

End PyNum.

Notation "x <- m ;; k" := (PyNum.bind m (fun x => k))
  (at level 61, m at next level, right associativity).

(** ** Binary64 arithmetic *)

Module Float64.
Import PyNum.

(** The integer part of the binary logarithm of a positive rational. *)
Definition ilog2 (x : Q) : Z :=
  let k := (Z.log2 (Qnum x) - Z.log2 (Z.pos (Qden x)))%Z in
  if Qle_bool (2 ^ k) x then k else (k - 1)%Z.

(** The nearest integer, a tie going to the even one. *)
Definition rne (x : Q) : Z :=
  let f := Qfloor x in
  match Qcompare (x - inject_Z f) (1 # 2) with
  | Lt => f
  | Gt => (f + 1)%Z
  | Eq => if Z.even f then f else (f + 1)%Z
  end.

(** The exponent of the unit in the last place: 53 significant bits, and
    no exponent below that of the subnormal numbers. *)
Definition exponent (x : Q) : Z := Z.max (ilog2 x - 52) (-1074).

Definition round_pos (x : Q) : Q :=
  inject_Z (rne (x / 2 ^ exponent x)) * 2 ^ exponent x.

(** The binary64 number nearest to [x], ties to even, with no bound on the
    exponent from above: a result of magnitude [2 ^ 1024] or more stands
    for an infinity. *)
Definition round (x : Q) : Q :=
  match Qnum (Qred x) with
  | Z0 => 0
  | Zpos _ => round_pos (Qred x)
  | Zneg _ => - round_pos (- Qred x)
  end.

Definition is_finite (x : Q) : bool := Qltb (Qabs x) (2 ^ 1024).

(** Whether the nearest binary64 number is finite. *)
Definition fits (x : Q) : bool := is_finite (round x).

(** A value that is a binary64 number. *)
Definition representable (x : Q) : Prop := round x == x.

Definition add (x y : Q) : Q := round (x + y).
Definition mul (x y : Q) : Q := round (x * y).
Definition div (x y : Q) : Q := round (x / y).

(** [x / y] on floats; [None] is [ZeroDivisionError]. *)
Definition py_div (x y : Q) : option Q :=
  if Qeq_bool y 0 then None else Some (div x y).

(** [float(z)], also where an [int] meets a [float] in an operation;
    [None] is the [OverflowError] of an [int] too large for a [float]. *)
Definition of_int (z : Z) : option Q :=
  if fits (inject_Z z) then Some (round (inject_Z z)) else None.

(** [int(x)]; [None] is the [OverflowError] of an infinity. *)
Definition to_int (x : Q) : option Z :=
  if is_finite x then Some (py_int x) else None.

End Float64.

(** ** Python strings *)

Module PyStr.

Local Open Scope string_scope.

Definition code (c : ascii) : nat := nat_of_ascii c.

(** [str.isspace] on the code points below 256. *)
Definition is_space (c : ascii) : bool :=
  let n := code c in
  ((9 <=? n) && (n <=? 13) || (28 <=? n) && (n <=? 32)
   || (n =? 133) || (n =? 160))%nat.

(** [str.lower] on the code points below 256: A-Z and the upper-case
    letters of Latin-1 (all of 192-222 but the multiplication sign).  On
    these texts it maps character by character; beyond them it does not
    (the lower-cased form of U+0130 has two code points), and nothing
    below is stated of such texts. *)
Definition lower_char (c : ascii) : ascii :=
  let n := code c in
  if ((65 <=? n) && (n <=? 90)
      || (192 <=? n) && (n <=? 222) && negb (n =? 215))%nat
  then ascii_of_nat (n + 32) else c.

Fixpoint lower (s : string) : string :=
  match s with
  | EmptyString => EmptyString
  | String c r => String (lower_char c) (lower r)
  end.

Fixpoint lstrip (s : string) : string :=
  match s with
  | EmptyString => EmptyString
  | String c r => if is_space c then lstrip r else s
  end.

Fixpoint rstrip (s : string) : string :=
  match s with
  | EmptyString => EmptyString
  | String c r =>
      match rstrip r with
      | EmptyString => if is_space c then EmptyString else String c EmptyString
      | r' => String c r'
      end
  end.

Definition strip (s : string) : string := rstrip (lstrip s).

(** [s.split(sep)] for a one-character separator. *)
Fixpoint split (sep : ascii) (s : string) : list string :=
  match s with
  | EmptyString => [EmptyString]
  | String c r =>
      if Ascii.eqb c sep then EmptyString :: split sep r
      else match split sep r with
           | [] => [String c EmptyString]
           | w :: ws => String c w :: ws
           end
  end.

Definition startswith (s p : string) : bool := String.prefix p s.

(** [sub in s]. *)
Fixpoint contains (sub s : string) : bool :=
  String.prefix sub s ||
  match s with
  | EmptyString => false
  | String _ r => contains sub r
  end.

(** [s.count(c)] for a one-character argument. *)
Fixpoint count (c : ascii) (s : string) : nat :=
  match s with
  | EmptyString => 0
  | String d r => (if Ascii.eqb c d then 1 else 0) + count c r
  end.

(** [sep.join(parts)]. *)
Fixpoint join (sep : string) (parts : list string) : string :=
  match parts with
  | [] => EmptyString
  | [p] => p
  | p :: rest => p ++ sep ++ join sep rest
  end.

Definition newline : ascii := ascii_of_nat 10.

End PyStr.

(** ** Regular expressions, as far as [re.search] is used for a yes/no answer *)

Module Re.

Inductive regex : Type :=
| Void
| Eps
| Sym (p : ascii -> bool)
| Cat (r s : regex)
| Alt (r s : regex)
| Star (r : regex).

Fixpoint nullable (r : regex) : bool :=
  match r with
  | Void => false
  | Eps => true
  | Sym _ => false
  | Cat r s => nullable r && nullable s
  | Alt r s => nullable r || nullable s
  | Star _ => true
  end.

Definition cat (r s : regex) : regex :=
  match r, s with
  | Void, _ => Void
  | _, Void => Void
  | Eps, _ => s
  | _, Eps => r
  | _, _ => Cat r s
  end.

Definition alt (r s : regex) : regex :=
  match r, s with
  | Void, _ => s
  | _, Void => r
  | _, _ => Alt r s
  end.

(** Brzozowski derivative. *)
Fixpoint deriv (c : ascii) (r : regex) : regex :=
  match r with
  | Void => Void
  | Eps => Void
  | Sym p => if p c then Eps else Void
  | Cat r s =>
      if nullable r then alt (cat (deriv c r) s) (deriv c s)
      else cat (deriv c r) s
  | Alt r s => alt (deriv c r) (deriv c s)
  | Star r => cat (deriv c r) (Star r)
  end.

Fixpoint fullmatch (r : regex) (s : string) : bool :=
  match s with
  | EmptyString => nullable r
  | String c s' => fullmatch (deriv c r) s'
  end.

Definition any : regex := Sym (fun _ => true).

(** [re.search(r, s)] is truthy when some substring of [s] matches. *)
Definition search (r : regex) (s : string) : bool :=
  fullmatch (Cat (Star any) (Cat r (Star any))) s.

(** Pattern atoms. *)
Definition chr (c : ascii) : regex := Sym (Ascii.eqb c).
Definition chr_i (c : ascii) : regex :=
  Sym (fun d => Ascii.eqb (PyStr.lower_char d) (PyStr.lower_char c)).
Definition dot : regex := Sym (fun c => negb (Ascii.eqb c PyStr.newline)).
Definition space : regex := Sym PyStr.is_space.
Definition is_quote (c : ascii) : bool :=
  Ascii.eqb c (ascii_of_nat 34) || Ascii.eqb c (ascii_of_nat 39).
Definition quote : regex := Sym is_quote.
Definition not_quote : regex := Sym (fun c => negb (is_quote c)).
Definition plus (r : regex) : regex := Cat r (Star r).

Fixpoint lit (s : string) : regex :=
  match s with
  | EmptyString => Eps
  | String c s' => Cat (chr c) (lit s')
  end.

Fixpoint lit_i (s : string) : regex :=
  match s with
  | EmptyString => Eps
  | String c s' => Cat (chr_i c) (lit_i s')
  end.

End Re.

(** ** [app/models/schemas.py] *)

Module Schemas.

Inductive ConfidenceLevel : Type := LOW | MEDIUM | HIGH | VERY_HIGH.

(** The place of a level in the order low, medium, high, very_high. *)
Definition rank (c : ConfidenceLevel) : nat :=
  match c with
  | LOW => 0
  | MEDIUM => 1
  | HIGH => 2
  | VERY_HIGH => 3
  end.

(** [Field(ge=lo, le=hi)] on a float field. *)
Definition in_range (lo hi x : Q) : bool := Qle_bool lo x && Qle_bool x hi.

Module DeveloperProfile.
Record t : Type := Build {
  address : string;
  skills : list string;
  experience_level : string;
  reputation_score : Q;
  completed_bounties : Z;
  success_rate : Q;
  preferred_categories : list string;
  availability_hours : option Z
}.
End DeveloperProfile.

Module BountyRequirements.
(** [deadline] is kept as the text [deadline.isoformat()] gives, the only
    form in which the scoring code reads it. *)
Record t : Type := Build {
  id : Z;
  title : string;
  description : string;
  category : string;
  required_skills : list string;
  difficulty_level : string;
  estimated_hours : option Z;
  reward_amount : Q;
  deadline : string
}.
End BountyRequirements.

Module BountyMatch.
Record t : Type := Build {
  developer_address : string;
  bounty_id : Z;
  compatibility_score : Q;
  confidence_level : ConfidenceLevel;
  skill_match_score : Q;
  experience_match_score : Q;
  availability_match_score : Q;
  success_probability : Q;
  explanation : string;
  recommended_timeline : option Z
}.

(** The constructor call [BountyMatch(...)]: the five score fields are
    declared [Field(ge=0.0, le=1.0)], and a value outside raises
    [ValidationError]. *)
Definition new (developer_address : string) (bounty_id : Z)
    (compatibility_score : Q) (confidence_level : ConfidenceLevel)
    (skill_match_score experience_match_score availability_match_score
       success_probability : Q)
    (explanation : string) (recommended_timeline : option Z) : option t :=
  if in_range 0 1 compatibility_score
     && in_range 0 1 skill_match_score
     && in_range 0 1 experience_match_score
     && in_range 0 1 availability_match_score
     && in_range 0 1 success_probability
  then Some (Build developer_address bounty_id compatibility_score
               confidence_level skill_match_score experience_match_score
               availability_match_score success_probability explanation
               recommended_timeline)
  else None.
End BountyMatch.

Module BountyMatchRequest.
Record t : Type := Build {
  bounty_id : option Z;
  developer_address : option string;
  limit : Z;
  min_compatibility_score : Q
}.

Definition default_limit : Z := 10.
Definition default_min_compatibility_score : Q := 0.5.

(** Construction from the caller's fields; an absent [limit] or
    [min_compatibility_score] takes its default, and
    [limit: Field(ge=1, le=50)],
    [min_compatibility_score: Field(ge=0.0, le=1.0)] reject the rest. *)
Definition new (bounty_id : option Z) (developer_address : option string)
    (limit : option Z) (min_compatibility_score : option Q) : option t :=
  let l := match limit with Some l => l | None => default_limit end in
  let m := match min_compatibility_score with
           | Some m => m
           | None => default_min_compatibility_score
           end in
  if ((1 <=? l)%Z && (l <=? 50)%Z) && in_range 0 1 m
  then Some (Build bounty_id developer_address l m)
  else None.
End BountyMatchRequest.

Module CodeQualityMetrics.
Record t : Type := Build {
  overall_score : Q;
  security_score : Q;
  performance_score : Q;
  maintainability_score : Q;
  documentation_score : Q;
  test_coverage_score : Q
}.

(** Every field is [Field(ge=0.0, le=100.0)]. *)
Definition new (overall_score security_score performance_score
    maintainability_score documentation_score test_coverage_score : Q)
    : option t :=
  if in_range 0 100 overall_score
     && in_range 0 100 security_score
     && in_range 0 100 performance_score
     && in_range 0 100 maintainability_score
     && in_range 0 100 documentation_score
     && in_range 0 100 test_coverage_score
  then Some (Build overall_score security_score performance_score
               maintainability_score documentation_score
               test_coverage_score)
  else None.
End CodeQualityMetrics.

End Schemas.

(** ** [app/models/schemas.py], the quality assessment part *)

Module QualityIssue.
Record t : Type := Build {
  type : string;
  severity : string;
  description : string;
  file_path : option string;
  line_number : option Z;
  suggestion : option string
}.
End QualityIssue.

Module QualityAssessmentRequest.
(** The fields of [request.dict()]: every key is present, and a field
    the caller left out holds [None]. *)
Record t : Type := Build {
  solution_id : option Z;
  repository_url : option string;
  code_content : option string;
  language : option string;
  include_suggestions : bool
}.
End QualityAssessmentRequest.

(** ** Result dictionaries *)

Module PyDict.
Import Schemas.

Inductive value : Type :=
| VNone
| VInt (z : Z)
| VFloat (q : Q)
| VStr (s : string)
| VConfidence (c : ConfidenceLevel)
| VMetrics (m : CodeQualityMetrics.t)
| VIssues (l : list QualityIssue.t)
| VStrings (l : list string)
| VMatches (l : list BountyMatch.t).

(** A [dict] as the list of its items in insertion order. *)
Definition t : Type := list (string * value).

(** [d.get(key)]. *)
Fixpoint get (d : t) (key : string) : option value :=
  match d with
  | [] => None
  | (k, v) :: d' => if String.eqb k key then Some v else get d' key
  end.

(** [d[key] = v]: the value of a key that is present is replaced where it
    stands, a new key goes to the end. *)
Fixpoint set (d : t) (key : string) (v : value) : t :=
  match d with
  | [] => [(key, v)]
  | (k, x) :: d' =>
      if String.eqb k key then (k, v) :: d' else (k, x) :: set d' key v
  end.

(** [d.update(other)]. *)
Definition update (d other : t) : t :=
  fold_left (fun d kv => set d (fst kv) (snd kv)) other d.

End PyDict.

(** ** [app/agents/base_agent.py] *)

Module AgentMetrics.
Import PyNum.

Record t : Type := Build {
  total_requests : Z;
  successful_requests : Z;
  failed_requests : Z;
  total_processing_time : Q;
  average_processing_time : Q;
  last_request_time : option string
}.

(** [__init__]. *)
Definition init : t := Build 0 0 0 0 0 None.

(** [now] is the text of [datetime.utcnow()] at the call. *)
Definition record_request (self : t) (processing_time : Q) (success : bool)
    (now : string) : option t :=
  let total_requests := (total_requests self + 1)%Z in
  let total_processing_time := total_processing_time self + processing_time in
  average_processing_time <-
    py_div total_processing_time (inject_Z total_requests) ;;
  let last_request_time := Some now in
  if success then
    Some (Build total_requests (successful_requests self + 1)%Z
            (failed_requests self) total_processing_time
            average_processing_time last_request_time)
  else
    Some (Build total_requests (successful_requests self)
            (failed_requests self + 1)%Z total_processing_time
            average_processing_time last_request_time).

Definition success_rate (self : t) : option Q :=
  if (total_requests self =? 0)%Z then Some 0
  else py_div (inject_Z (successful_requests self))
              (inject_Z (total_requests self)).

Definition to_dict (self : t) : option PyDict.t :=
  rate <- success_rate self ;;
  Some [("total_requests"%string, PyDict.VInt (total_requests self));
        ("successful_requests"%string, PyDict.VInt (successful_requests self));
        ("failed_requests"%string, PyDict.VInt (failed_requests self));
        ("success_rate"%string, PyDict.VFloat rate);
        ("average_processing_time"%string,
         PyDict.VFloat (average_processing_time self));
        ("last_request_time"%string,
         match last_request_time self with
         | Some text => PyDict.VStr text
         | None => PyDict.VNone
         end)].

End AgentMetrics.

Module BaseAgent.
Import PyNum Schemas.
Local Open Scope string_scope.

(** The two attributes of an agent that a request reads and writes. *)
Record state : Type := State {
  is_initialized : bool;
  metrics : AgentMetrics.t
}.

Section WithAgent.

(** The agent: its name, the request handler its class defines, and
    whether [_setup_tools] and [_setup_executor] of its class return: they
    load a model and build a client, and raise when that fails. *)
Variable Request : Type.
Variable name : string.
Variable _process_request_internal : Request -> option PyDict.t.
Variable setup : bool.

(** [initialize]: nothing to do for an initialized agent; otherwise the two
    set-up methods run and the flag is set, or their exception is logged
    and raised again, the flag left as it was. *)
Definition initialize (self : state) : option state :=
  if is_initialized self then Some self
  else if setup then Some (State true (metrics self))
  else None.

(** Neither agent class overrides this method. *)
Definition _calculate_confidence (result : PyDict.t) : ConfidenceLevel :=
  MEDIUM.

(** One call, from the agent before it to the outcome and the agent after
    it.  [elapsed_result] and [elapsed_total] are the two readings of
    [time.time() - start_time], [timestamp] and [now] the two readings of
    the clock.  The outcome is the result dictionary, or [None] for an
    exception that leaves the call: the one of [initialize], raised before
    the [try] and so before anything is recorded, or the one of the
    handler, raised again after the [finally] block has recorded the call.
    The outer [None] is an exception of the [finally] block itself. *)
Definition process_request (self : state) (request : Request)
    (elapsed_result elapsed_total : Q) (timestamp now : string)
    : option (option PyDict.t * state) :=
  match (if negb (is_initialized self) then initialize self
         else Some self) with
  | None => Some (None, self)
  | Some self =>
      let outcome :=
        match _process_request_internal request with
        | Some result =>
            Some (PyDict.update result
                    [("agent", PyDict.VStr name);
                     ("processing_time", PyDict.VFloat elapsed_result);
                     ("timestamp", PyDict.VStr timestamp);
                     ("confidence_level",
                      PyDict.VConfidence (_calculate_confidence result))])
        | None => None
        end in
      let success := match outcome with Some _ => true | None => false end in
      metrics' <- AgentMetrics.record_request (metrics self) elapsed_total
                    success now ;;
      Some (outcome, State (is_initialized self) metrics')
  end.

End WithAgent.
End BaseAgent.

(** ** [app/agents/bounty_matching_agent.py] *)

Module SkillMatchingTool.
Import PyNum.

Section WithEmbeddingModel.

(** The embedding model is handed to the tool by its creator.
    [similarity d r] stands for the entry of
    [cosine_similarity(encode(developer_skills), encode(required_skills))]
    at the row of [d] and the column of [r]. *)
Variable similarity : string -> string -> Q.

Definition similarity_matrix (developer_skills required_skills : list string)
    : list (list Q) :=
  map (fun d => map (fun r => similarity d r) required_skills)
      developer_skills.

(** Element-wise maximum of two rows. *)
Fixpoint maximum (a b : list Q) : list Q :=
  match a, b with
  | x :: a', y :: b' => py_max x y :: maximum a' b'
  | _, _ => []
  end.

(** [np.max(m, axis=0)]: the maximum of each column; the matrix has at
    least one row where the tool calls it. *)
Definition np_max_axis0 (m : list (list Q)) : list Q :=
  match m with
  | [] => []
  | row :: rows => fold_left maximum rows row
  end.

Definition np_sum (v : list Q) : Q := fold_left Qplus v 0.

(** [np.mean(v)] of a vector that is not empty. *)
Definition np_mean (v : list Q) : Q :=
  np_sum v / inject_Z (Z.of_nat (List.length v)).

Definition is_empty {A : Type} (l : list A) : bool :=
  match l with [] => true | _ => false end.

Definition _run (developer_skills required_skills : list string) : Q :=
  if is_empty developer_skills || is_empty required_skills then 0
  else
    let best_matches :=
      np_max_axis0 (similarity_matrix developer_skills required_skills) in
    np_mean best_matches.

End WithEmbeddingModel.
End SkillMatchingTool.

Module ExperienceMatchingTool.
Import PyNum.
Local Open Scope string_scope.

Definition experience_levels : list (string * Z) :=
  [("junior", 1%Z); ("mid", 2%Z); ("senior", 3%Z); ("expert", 4%Z)].

Definition difficulty_levels : list (string * Z) :=
  [("easy", 1%Z); ("medium", 2%Z); ("hard", 3%Z); ("expert", 4%Z)].

(** [d.get(key, default)]. *)
Fixpoint get (d : list (string * Z)) (key : string) (default : Z) : Z :=
  match d with
  | [] => default
  | (k, v) :: d' => if String.eqb k key then v else get d' key default
  end.

Definition base_score_of (level_diff : Z) : Q :=
  py_max 0 (1 - inject_Z level_diff * 0.25).

Definition adjust (base_score reputation_score : Q) : Q :=
  let reputation_factor := py_min 1 (reputation_score / 10) in
  base_score * (0.7 + 0.3 * reputation_factor).

Definition dev_level_of (developer_experience : string) : Z :=
  get experience_levels (PyStr.lower developer_experience) 2.

Definition bounty_level_of (bounty_difficulty : string) : Z :=
  get difficulty_levels (PyStr.lower bounty_difficulty) 2.

Definition level_diff_of (developer_experience bounty_difficulty : string) : Z :=
  Z.abs (dev_level_of developer_experience - bounty_level_of bounty_difficulty).

Definition _run (developer_experience bounty_difficulty : string)
    (reputation_score : Q) : Q :=
  let level_diff := level_diff_of developer_experience bounty_difficulty in
  let base_score := base_score_of level_diff in
  adjust base_score reputation_score.

End ExperienceMatchingTool.

Module AvailabilityMatchingTool.
Import PyNum.

(** [not x] for an [Optional[int]]: true for [None] and for 0. *)
Definition falsy (x : option Z) : bool :=
  match x with
  | None => true
  | Some z => (z =? 0)%Z
  end.

(** An [int] where it meets a [float]: [None] is the [OverflowError] of an
    [int] too large to convert; the value of the score is kept exact. *)
Definition to_float (z : Z) : option Q :=
  if Float64.fits (inject_Z z) then Some (inject_Z z) else None.

Section WithClock.

(** The outcome of the [try] block on the deadline text:
    [Some d] when [fromisoformat] and the subtraction of [utcnow()]
    succeed and the difference has [d] days, [None] when either raises.
    The days of a [timedelta] are far within the range of a [float]. *)
Variable days_until : string -> option Z.

Definition days_until_deadline (deadline : string) : Z :=
  match days_until deadline with
  | Some d => d
  | None => 30%Z
  end.

Definition _run (developer_hours estimated_hours : option Z)
    (deadline : string) (active_bounties : Z) : option Q :=
  match developer_hours, estimated_hours with
  | Some dh, Some eh =>
      if falsy developer_hours || falsy estimated_hours then Some 0.5
      else
        let weeks_available :=
          py_max 1 (inject_Z (days_until_deadline deadline) / 7) in
        estimated <- to_float eh ;;
        required_hours_per_week <- py_div estimated weeks_available ;;
        active <- to_float active_bounties ;;
        let workload_factor := py_max 0.1 (1 - active * 0.2) in
        hours <- to_float dh ;;
        let available_hours_per_week := hours * workload_factor in
        if Qle_bool required_hours_per_week available_hours_per_week then
          q <- py_div available_hours_per_week required_hours_per_week ;;
          Some (py_min 1 q)
        else
          q <- py_div available_hours_per_week required_hours_per_week ;;
          Some (py_max 0 q)
  | _, _ => Some 0.5
  end.

End WithClock.
End AvailabilityMatchingTool.


Module BountyMatchingAgent.
Import PyNum Schemas.
Local Open Scope string_scope.

(** The dictionary every ranking operation returns. *)
Record MatchList : Type := Build_MatchList {
  matches : list BountyMatch.t;
  total_matches : Z
}.

Definition _calculate_success_probability (developer : DeveloperProfile.t)
    (bounty : BountyRequirements.t) (compatibility_score : Q) : Q :=
  let base_prob := compatibility_score in
  let success_factor := DeveloperProfile.success_rate developer in
  let reputation_factor :=
    py_min 1 (DeveloperProfile.reputation_score developer / 10) in
  let success_probability :=
    base_prob * (0.5 + 0.3 * success_factor + 0.2 * reputation_factor) in
  py_min 1 success_probability.

Definition _determine_confidence_level (compatibility_score success_probability : Q)
    : ConfidenceLevel :=
  let avg_score :=
    Float64.div (Float64.add compatibility_score success_probability) 2 in
  if Qgeb avg_score (Float64.round 0.8) then VERY_HIGH
  else if Qgeb avg_score (Float64.round 0.65) then HIGH
  else if Qgeb avg_score (Float64.round 0.5) then MEDIUM
  else LOW.

Definition skill_analysis (skill_score : Q) : string :=
  if Qgeb skill_score 0.8 then
    "Excellent skill match with strong expertise in required technologies."
  else if Qgeb skill_score 0.6 then
    "Good skill alignment with most required technologies covered."
  else
    "Partial skill match - may require additional learning or collaboration.".

Definition experience_analysis (experience_score : Q) : string :=
  if Qgeb experience_score 0.8 then
    "Experience level perfectly matches bounty difficulty."
  else if Qgeb experience_score 0.6 then
    "Suitable experience level for this bounty complexity."
  else
    "Experience level may not fully align with bounty requirements.".

Definition availability_analysis (availability_score : Q) : string :=
  if Qgeb availability_score 0.8 then
    "Excellent availability to meet project timeline."
  else if Qgeb availability_score 0.6 then
    "Adequate availability with manageable timeline."
  else
    "Limited availability may require timeline adjustments.".

Definition overall_assessment (compatibility_score : Q) : string :=
  if Qgeb compatibility_score 0.8 then
    "Highly recommended match with strong success potential."
  else if Qgeb compatibility_score 0.6 then
    "Good match with reasonable success probability."
  else
    "Consider alternative matches or provide additional support.".

(** [explanation_parts] starts empty and receives one fragment per block of
    the function, each by [append]. *)
Definition _generate_explanation (developer : DeveloperProfile.t)
    (bounty : BountyRequirements.t)
    (skill_score experience_score availability_score compatibility_score : Q)
    : string :=
  let explanation_parts := @nil string in
  let explanation_parts :=
    (explanation_parts ++ [skill_analysis skill_score])%list in
  let explanation_parts :=
    (explanation_parts ++ [experience_analysis experience_score])%list in
  let explanation_parts :=
    (explanation_parts ++ [availability_analysis availability_score])%list in
  let explanation_parts :=
    (explanation_parts ++ [overall_assessment compatibility_score])%list in
  PyStr.join " " explanation_parts.

(** [int(days_needed * factor)]. *)
Definition with_buffer (days_needed : Z) (factor : Q) : option Z :=
  days <- Float64.of_int days_needed ;;
  Float64.to_int (Float64.mul days (Float64.round factor)).

(** The result is [None] (Python's) or a number of days.  The outer
    [None] is an exception: the [OverflowError] of hours too large for a
    [float] or of [int()] on an infinity; the division is kept partial as
    in [AvailabilityMatchingTool]. *)
Definition _estimate_timeline (bounty : BountyRequirements.t)
    (developer : DeveloperProfile.t) : option (option Z) :=
  match BountyRequirements.estimated_hours bounty,
        DeveloperProfile.availability_hours developer with
  | Some eh, Some ah =>
      if (eh =? 0)%Z || (ah =? 0)%Z then Some None
      else
        availability <- Float64.of_int ah ;;
        let weekly_hours := Float64.mul availability (Float64.round 0.8) in
        estimated <- Float64.of_int eh ;;
        weeks_needed <- Float64.py_div estimated weekly_hours ;;
        days_needed <- Float64.to_int (Float64.mul weeks_needed 7) ;;
        days_needed <-
          (if String.eqb (BountyRequirements.difficulty_level bounty) "expert"
           then with_buffer days_needed 1.3
           else if String.eqb (BountyRequirements.difficulty_level bounty)
                     "hard"
           then with_buffer days_needed 1.2
           else Some days_needed) ;;
        Some (Some (Z.max 7 days_needed))
  | _, _ => Some None
  end.

(** [list.sort(key=lambda x: x.compatibility_score, reverse=True)].
    Python's sort is stable, and with [reverse=True] entries of equal key
    still keep their original order.  The model inserts each entry, from the
    last to the first, in front of the first entry whose key is not larger. *)
Fixpoint insert_desc (m : BountyMatch.t) (l : list BountyMatch.t)
    : list BountyMatch.t :=
  match l with
  | [] => [m]
  | y :: ys =>
      if Qle_bool (BountyMatch.compatibility_score y)
                  (BountyMatch.compatibility_score m)
      then m :: l
      else y :: insert_desc m ys
  end.

Definition sort_by_score_desc (l : list BountyMatch.t) : list BountyMatch.t :=
  fold_right insert_desc [] l.

(** The slice [l[:limit]]; a negative [limit] counts from the end. *)
Definition slice_to {A : Type} (l : list A) (limit : Z) : list A :=
  if (0 <=? limit)%Z then firstn (Z.to_nat limit) l
  else firstn (List.length l - Z.to_nat (- limit)) l.

(** The loop shared by the two ranking operations:
    [for c in pool: match = calc(c); if match.compatibility_score >= min_score:
     matches.append(match)], started on the list [matches]. *)
Fixpoint collect {A : Type} (calc : A -> option BountyMatch.t) (min_score : Q)
    (pool : list A) (matches : list BountyMatch.t)
    : option (list BountyMatch.t) :=
  match pool with
  | [] => Some matches
  | c :: rest =>
      m <- calc c ;;
      collect calc min_score rest
        (if Qgeb (BountyMatch.compatibility_score m) min_score
         then (matches ++ [m])%list else matches)
  end.

Section WithCollaborators.

Variable similarity : string -> string -> Q.
Variable days_until : string -> option Z.

(** The data-access calls, mocked in the source. *)
Variable _get_bounty_data : Z -> BountyRequirements.t.
Variable _get_developer_data : string -> DeveloperProfile.t.
Variable _get_available_developers : list DeveloperProfile.t.
Variable _get_available_bounties : list BountyRequirements.t.

Definition _calculate_skill_match (dev_skills req_skills : list string) : Q :=
  SkillMatchingTool._run similarity dev_skills req_skills.

Definition _calculate_experience_match (developer : DeveloperProfile.t)
    (bounty : BountyRequirements.t) : Q :=
  ExperienceMatchingTool._run
    (DeveloperProfile.experience_level developer)
    (BountyRequirements.difficulty_level bounty)
    (DeveloperProfile.reputation_score developer).

Definition _calculate_availability_match (developer : DeveloperProfile.t)
    (bounty : BountyRequirements.t) : option Q :=
  AvailabilityMatchingTool._run days_until
    (DeveloperProfile.availability_hours developer)
    (BountyRequirements.estimated_hours bounty)
    (BountyRequirements.deadline bounty)
    (DeveloperProfile.completed_bounties developer).

Definition _calculate_match (developer : DeveloperProfile.t)
    (bounty : BountyRequirements.t) : option BountyMatch.t :=
  let skill_score :=
    _calculate_skill_match (DeveloperProfile.skills developer)
                           (BountyRequirements.required_skills bounty) in
  let experience_score := _calculate_experience_match developer bounty in
  availability_score <- _calculate_availability_match developer bounty ;;
  let compatibility_score :=
    skill_score * 0.4 + experience_score * 0.3 + availability_score * 0.3 in
  let success_probability :=
    _calculate_success_probability developer bounty compatibility_score in
  let confidence_level :=
    _determine_confidence_level compatibility_score success_probability in
  let explanation :=
    _generate_explanation developer bounty skill_score experience_score
      availability_score compatibility_score in
  recommended_timeline <- _estimate_timeline bounty developer ;;
  BountyMatch.new
    (DeveloperProfile.address developer)
    (BountyRequirements.id bounty)
    compatibility_score confidence_level skill_score experience_score
    availability_score success_probability explanation recommended_timeline.

Definition _match_bounty_developer (bounty_id : Z) (developer_address : string)
    : option MatchList :=
  let bounty := _get_bounty_data bounty_id in
  let developer := _get_developer_data developer_address in
  m <- _calculate_match developer bounty ;;
  Some (Build_MatchList [m] 1).

Definition _find_developers_for_bounty (bounty_id : Z) (limit : Z)
    (min_score : Q) : option MatchList :=
  let bounty := _get_bounty_data bounty_id in
  let developers := _get_available_developers in
  matches <- collect (fun developer => _calculate_match developer bounty)
               min_score developers [] ;;
  let matches := sort_by_score_desc matches in
  Some (Build_MatchList (slice_to matches limit)
          (Z.of_nat (List.length matches))).

Definition _find_bounties_for_developer (developer_address : string)
    (limit : Z) (min_score : Q) : option MatchList :=
  let developer := _get_developer_data developer_address in
  let bounties := _get_available_bounties in
  matches <- collect (fun bounty => _calculate_match developer bounty)
               min_score bounties [] ;;
  let matches := sort_by_score_desc matches in
  Some (Build_MatchList (slice_to matches limit)
          (Z.of_nat (List.length matches))).

(** Truthiness of the two identifying fields of the request. *)
Definition truthy_id (x : option Z) : bool :=
  match x with Some z => negb (z =? 0)%Z | None => false end.
Definition truthy_str (x : option string) : bool :=
  match x with Some s => negb (String.eqb s EmptyString) | None => false end.

(** [None] stands for the [ValueError] of the last branch as well as for an
    exception of the branch taken. *)
Definition _process_request_internal (request : BountyMatchRequest.t)
    : option MatchList :=
  let limit := BountyMatchRequest.limit request in
  let min_score := BountyMatchRequest.min_compatibility_score request in
  match BountyMatchRequest.bounty_id request,
        BountyMatchRequest.developer_address request with
  | Some bounty_id, Some developer_address =>
      if truthy_id (Some bounty_id) && truthy_str (Some developer_address)
      then _match_bounty_developer bounty_id developer_address
      else if truthy_id (Some bounty_id)
      then _find_developers_for_bounty bounty_id limit min_score
      else if truthy_str (Some developer_address)
      then _find_bounties_for_developer developer_address limit min_score
      else None
  | Some bounty_id, None =>
      if truthy_id (Some bounty_id)
      then _find_developers_for_bounty bounty_id limit min_score
      else None
  | None, Some developer_address =>
      if truthy_str (Some developer_address)
      then _find_bounties_for_developer developer_address limit min_score
      else None
  | None, None => None
  end.

End WithCollaborators.

(** The mock data of the source, used to run the model. *)
Definition mock_bounty (bounty_id : Z) (deadline : string)
    : BountyRequirements.t :=
  BountyRequirements.Build bounty_id
    "DeFi Analytics Dashboard"
    "Build a comprehensive analytics dashboard for DeFi protocols"
    "analytics"
    ["React"; "TypeScript"; "DeFi"; "Web3"; "Chart.js"]
    "medium" (Some 120%Z) 5000 deadline.

Definition mock_developer (address : string) : DeveloperProfile.t :=
  DeveloperProfile.Build address
    ["React"; "TypeScript"; "Python"; "DeFi"; "Smart Contracts"]
    "senior" 8.5 12 0.92 ["analytics"; "defi"] (Some 30%Z).

Definition mock_developers : list DeveloperProfile.t :=
  [mock_developer "0x1234567890123456789012345678901234567890";
   mock_developer "0xabcdefabcdefabcdefabcdefabcdefabcdefabcd"].

(** The dictionary form of a result, and the agent behind
    [BaseAgent.process_request]. *)
Definition as_dict (r : MatchList) : PyDict.t :=
  [("matches", PyDict.VMatches (matches r));
   ("total_matches", PyDict.VInt (total_matches r))].

Definition process_request (similarity : string -> string -> Q)
    (days_until : string -> option Z)
    (_get_bounty_data : Z -> BountyRequirements.t)
    (_get_developer_data : string -> DeveloperProfile.t)
    (_get_available_developers : list DeveloperProfile.t)
    (_get_available_bounties : list BountyRequirements.t)
    (setup : bool)
    : BaseAgent.state -> BountyMatchRequest.t -> Q -> Q -> string -> string ->
      option (option PyDict.t * BaseAgent.state) :=
  BaseAgent.process_request BountyMatchRequest.t "bounty_matching"
    (fun request =>
       option_map as_dict
         (_process_request_internal similarity days_until _get_bounty_data
            _get_developer_data _get_available_developers
            _get_available_bounties request))
    setup.

End BountyMatchingAgent.

(** ** [app/agents/quality_assessment_agent.py] *)

Module Issue.
(** An issue dictionary; [line_number] is present only in the syntax issue. *)
Record t : Type := Build {
  type : string;
  severity : string;
  description : string;
  line_number : option Z;
  suggestion : string
}.
End Issue.

Module CodeAnalysis.
(** The dictionaries the analysis tools return and the aggregator reads with
    [.get(key, default)]: a key may be absent. *)
Record Metrics : Type := Build_Metrics {
  lines_of_code : option Z;
  security_issues : option Z;
  style_issues : option Z;
  performance_issues : option Z
}.
Record t : Type := Build {
  complexity_score : option Q;
  issues : list Issue.t;
  metrics : option Metrics
}.
End CodeAnalysis.

Module DocAnalysis.
Record t : Type := Build {
  documentation_score : option Q;
  comment_ratio : option Q;
  readme_score : option Q;
  issues : list Issue.t
}.
End DocAnalysis.

Module PyAst.
(** What [_calculate_complexity] sees of a syntax tree: the class of each
    node, and its children. *)
Inductive node_class : Type :=
| If | While | For | AsyncFor | ExceptHandler | And | Or | Other.

#[warnings="-register-all"]
Inductive ast : Type :=
| Node (cls : node_class) (children : list ast).

(** [ast.walk(tree)]: every node of the tree (the order does not matter to
    a count). *)
Fixpoint walk (tree : ast) : list node_class :=
  match tree with
  | Node cls children => cls :: flat_map walk children
  end.

(** [SyntaxError]: [str(e)] and [e.lineno]. *)
Record SyntaxError : Type := Build_SyntaxError {
  str : string;
  lineno : option Z
}.

(** The outcome of [ast.parse(code)]; [Raised] is any other exception. *)
Inductive parse_outcome : Type :=
| Parsed (tree : ast)
| Syntax (e : SyntaxError)
| Raised.
End PyAst.

Module CodeAnalysisTool.
Import PyNum PyStr Re PyAst.
Local Open Scope string_scope.

Definition count_type (ty : string) (issues : list Issue.t) : Z :=
  Z.of_nat (List.length
              (filter (fun i => String.eqb (Issue.type i) ty) issues)).

Definition line_count (code : string) : Z :=
  Z.of_nat (List.length (split newline code)).

(** [issues.append(d)] under [if c]. *)
Definition append_if (c : bool) (d : Issue.t) (issues : list Issue.t)
    : list Issue.t :=
  if c then (issues ++ [d])%list else issues.

Definition _calculate_complexity (tree : ast) : Q :=
  let complexity :=
    fold_left
      (fun complexity node =>
         match node with
         | If | While | For | AsyncFor => complexity + 1
         | ExceptHandler => complexity + 1
         | And | Or => complexity + 1
         | Other => complexity
         end)%Z
      (walk tree) 1%Z in
  py_min 10 (inject_Z complexity / 5).

(** The pattern of the injection check: the word execute, white space, an
    opening parenthesis, white space, a quote character of either kind, any
    run of characters on one line that holds a percent sign, and a quote
    character again. *)
Definition sql_injection_pattern : regex :=
  Cat (lit "execute")
  (Cat (Star space) (Cat (chr "(") (Cat (Star space) (Cat quote
  (Cat (Star dot) (Cat (chr "%") (Cat (Star dot) quote))))))).

(** The pattern of the secret check, letters in either case: one of the
    words password, secret, key, token; white space; an equals sign; white
    space; a quote character; one or more characters that are not quote
    characters; a quote character. *)
Definition hardcoded_secret_pattern : regex :=
  Cat (Alt (lit_i "password") (Alt (lit_i "secret")
        (Alt (lit_i "key") (lit_i "token"))))
  (Cat (Star space) (Cat (chr "=") (Cat (Star space) (Cat quote
  (Cat (plus not_quote) quote))))).

Definition eval_issue : Issue.t :=
  Issue.Build "security" "high"
    "Use of eval() function detected - security risk" None
    "Use safer alternatives like ast.literal_eval()".

Definition exec_issue : Issue.t :=
  Issue.Build "security" "high"
    "Use of exec() function detected - security risk" None
    "Avoid dynamic code execution".

Definition sql_injection_issue : Issue.t :=
  Issue.Build "security" "critical"
    "Potential SQL injection vulnerability" None
    "Use parameterized queries".

Definition hardcoded_secret_issue : Issue.t :=
  Issue.Build "security" "medium"
    "Potential hardcoded secret detected" None
    "Use environment variables or secure vaults".

Definition syntax_issue (e : SyntaxError) : Issue.t :=
  Issue.Build "syntax" "critical"
    ("Syntax error: " ++ PyAst.str e) (PyAst.lineno e)
    "Fix syntax errors before deployment".

(** The four checks of the [try] block, in their order. *)
Definition security_scans (code : string) (issues : list Issue.t)
    : list Issue.t :=
  let issues := append_if (contains "eval(" code) eval_issue issues in
  let issues := append_if (contains "exec(" code) exec_issue issues in
  let issues :=
    append_if (search sql_injection_pattern code) sql_injection_issue issues in
  append_if (search hardcoded_secret_pattern code) hardcoded_secret_issue
    issues.

Definition python_result (code : string) (complexity : Q)
    (issues : list Issue.t) : CodeAnalysis.t :=
  CodeAnalysis.Build (Some complexity) issues
    (Some (CodeAnalysis.Build_Metrics
             (Some (line_count code))
             (Some (count_type "security" issues))
             (Some 0%Z) (Some 0%Z))).

Section WithParser.

(** Python's own parser. *)
Variable ast_parse : string -> parse_outcome.

(** The [try] block starts with the parse; everything after it in the block
    runs only when the parse has returned.  The handler takes
    [SyntaxError] alone. *)
Definition _analyze_python_code (code : string) : option CodeAnalysis.t :=
  let issues := @nil Issue.t in
  match ast_parse code with
  | Parsed tree =>
      let complexity := _calculate_complexity tree in
      let issues := security_scans code issues in
      Some (python_result code complexity issues)
  | Syntax e =>
      let issues := (issues ++ [syntax_issue e])%list in
      let complexity := 10 in
      Some (python_result code complexity issues)
  | Raised => None
  end.

Definition _analyze_javascript_code (code : string) : CodeAnalysis.t :=
  let issues := @nil Issue.t in
  let issues :=
    append_if (contains "eval(" code)
      (Issue.Build "security" "high" "Use of eval() detected - XSS risk" None
         "Use JSON.parse() or safer alternatives") issues in
  let issues :=
    append_if (contains "innerHTML" code)
      (Issue.Build "security" "medium" "Use of innerHTML detected - XSS risk"
         None "Use textContent or sanitize input") issues in
  let issues :=
    append_if (contains "console.log" code)
      (Issue.Build "style" "low" "Console.log statements found" None
         "Remove debug statements before production") issues in
  CodeAnalysis.Build
    (Some (py_min 10 (inject_Z (Z.of_nat (count "{" code)) / 10)))
    issues
    (Some (CodeAnalysis.Build_Metrics
             (Some (line_count code))
             (Some (count_type "security" issues))
             (Some (count_type "style" issues))
             (Some 0%Z))).

(** [\.call\s*\(] *)
Definition low_level_call_pattern : regex :=
  Cat (lit ".call") (Cat (Star space) (chr "(")).

(** [pragma solidity \^0\.[0-7]] *)
Definition old_pragma_pattern : regex :=
  Cat (lit "pragma solidity ^0.")
      (Sym (fun c => (48 <=? code c) && (code c <=? 55))%nat).

Definition _analyze_solidity_code (code : string) : CodeAnalysis.t :=
  let issues := @nil Issue.t in
  let issues :=
    append_if (contains "tx.origin" code)
      (Issue.Build "security" "high"
         "Use of tx.origin detected - authentication bypass risk" None
         "Use msg.sender instead of tx.origin") issues in
  let issues :=
    append_if (search low_level_call_pattern code)
      (Issue.Build "security" "medium"
         "Low-level call detected - reentrancy risk" None
         "Use checks-effects-interactions pattern") issues in
  let issues :=
    append_if (contains "block.timestamp" code && contains "now" code)
      (Issue.Build "security" "low" "Timestamp dependence detected" None
         "Avoid relying on block.timestamp for critical logic") issues in
  let issues :=
    append_if
      (search old_pragma_pattern code
       && existsb (fun op => contains op code) ["+"; "-"; "*"; "/"])
      (Issue.Build "security" "medium"
         "Potential integer overflow/underflow" None
         "Use SafeMath library or upgrade to Solidity 0.8+") issues in
  CodeAnalysis.Build
    (Some (py_min 10 (inject_Z (line_count code) / 50)))
    issues
    (Some (CodeAnalysis.Build_Metrics
             (Some (line_count code))
             (Some (count_type "security" issues))
             (Some 0%Z) (Some 0%Z))).

Definition _analyze_generic_code (code : string) : CodeAnalysis.t :=
  let issues := @nil Issue.t in
  let lines := split newline code in
  let issues :=
    append_if (1000 <? Z.of_nat (List.length lines))%Z
      (Issue.Build "maintainability" "medium" "Very large file detected" None
         "Consider breaking into smaller modules") issues in
  CodeAnalysis.Build
    (Some (py_min 10 (inject_Z (Z.of_nat (List.length lines)) / 100)))
    issues
    (Some (CodeAnalysis.Build_Metrics
             (Some (Z.of_nat (List.length lines)))
             (Some 0%Z) (Some 0%Z) (Some 0%Z))).

Definition _run (code : string) (language : string) : option CodeAnalysis.t :=
  if String.eqb (lower language) "python" then _analyze_python_code code
  else if String.eqb (lower language) "javascript"
          || String.eqb (lower language) "typescript"
  then Some (_analyze_javascript_code code)
  else if String.eqb (lower language) "solidity"
  then Some (_analyze_solidity_code code)
  else Some (_analyze_generic_code code).

End WithParser.
End CodeAnalysisTool.

Module DocumentationAnalysisTool.
Import PyNum PyStr.
Local Open Scope string_scope.

Definition dq : ascii := ascii_of_nat 34.
Definition triple_double_quote : string := String dq (String dq (String dq EmptyString)).
Definition triple_single_quote : string := "'''".

(** One turn of the loop over the lines, on the pair
    [(comment_lines, code_lines)]. *)
Definition count_line (counts : Z * Z) (line : string) : Z * Z :=
  let '(comment_lines, code_lines) := counts in
  let stripped := strip line in
  if String.eqb stripped EmptyString then counts
  else if startswith stripped "#" || startswith stripped "//"
          || startswith stripped "/*"
  then ((comment_lines + 1)%Z, code_lines)
  else if contains triple_double_quote stripped
          || contains triple_single_quote stripped
  then ((comment_lines + 1)%Z, code_lines)
  else (comment_lines, (code_lines + 1)%Z).

Definition _calculate_comment_ratio (code : string) : option Q :=
  let lines := split newline code in
  let '(comment_lines, code_lines) := fold_left count_line lines (0%Z, 0%Z) in
  if (code_lines =? 0)%Z then Some 0
  else py_div (inject_Z comment_lines) (inject_Z (comment_lines + code_lines)).

Definition add_if (c : bool) (points : Z) (score : Z) : Z :=
  if c then (score + points)%Z else score.

Definition _analyze_readme (readme : string) : Q :=
  if String.eqb readme EmptyString then 0
  else
    let score := 0%Z in
    let readme_lower := lower readme in
    let score :=
      add_if (contains "installation" readme_lower
              || contains "setup" readme_lower) 20 score in
    let score :=
      add_if (contains "usage" readme_lower
              || contains "example" readme_lower) 20 score in
    let score :=
      add_if (contains "api" readme_lower
              || contains "documentation" readme_lower) 15 score in
    let score := add_if (contains "contributing" readme_lower) 10 score in
    let score := add_if (contains "license" readme_lower) 10 score in
    let score := add_if (contains "test" readme_lower) 10 score in
    let score := add_if (500 <? String.length readme)%nat 15 score in
    py_min 100 (inject_Z score).

Definition low_comment_issue : Issue.t :=
  Issue.Build "documentation" "medium" "Low comment ratio detected" None
    "Add more inline comments and docstrings".

Definition _run (code : string) (readme_content : string)
    : option DocAnalysis.t :=
  let issues := @nil Issue.t in
  comment_ratio <- _calculate_comment_ratio code ;;
  let issues :=
    if Qltb comment_ratio 0.1 then (issues ++ [low_comment_issue])%list
    else issues in
  let readme_score := _analyze_readme readme_content in
  let doc_score := comment_ratio * 50 + readme_score * 50 in
  Some (DocAnalysis.Build (Some (py_min 100 doc_score)) (Some comment_ratio)
          (Some readme_score) issues).

End DocumentationAnalysisTool.

Module QualityAssessmentAgent.
Import PyNum Schemas.

(** [d.get(key, default)] on a key that may be absent. *)
Definition get {A : Type} (x : option A) (default : A) : A :=
  match x with
  | Some a => a
  | None => default
  end.

Definition empty_metrics : CodeAnalysis.Metrics :=
  CodeAnalysis.Build_Metrics None None None None.

Definition _calculate_quality_metrics (code_analysis : CodeAnalysis.t)
    (doc_analysis : DocAnalysis.t) : option CodeQualityMetrics.t :=
  let security_issues :=
    get (CodeAnalysis.security_issues
           (get (CodeAnalysis.metrics code_analysis) empty_metrics)) 0%Z in
  let security_score := py_max 0 (100 - inject_Z security_issues * 20) in
  let complexity := get (CodeAnalysis.complexity_score code_analysis) 5 in
  let performance_score := py_max 0 (100 - complexity * 10) in
  let style_issues :=
    get (CodeAnalysis.style_issues
           (get (CodeAnalysis.metrics code_analysis) empty_metrics)) 0%Z in
  let maintainability_score :=
    py_max 0 (100 - complexity * 8 - inject_Z style_issues * 5) in
  let documentation_score :=
    get (DocAnalysis.documentation_score doc_analysis) 50 in
  let test_coverage_score := 70 in
  let overall_score :=
    security_score * 0.25 +
    performance_score * 0.20 +
    maintainability_score * 0.20 +
    documentation_score * 0.20 +
    test_coverage_score * 0.15 in
  CodeQualityMetrics.new overall_score security_score performance_score
    maintainability_score documentation_score test_coverage_score.

Definition depth_factor (file_count : Z) : Q :=
  if (10 <=? file_count)%Z then Float64.round 1.0
  else if (5 <=? file_count)%Z then Float64.round 0.9
  else Float64.round 0.8.

Definition _determine_confidence_level (metrics : CodeQualityMetrics.t)
    (file_count : Z) : ConfidenceLevel :=
  let score := CodeQualityMetrics.overall_score metrics in
  let adjusted_score := Float64.mul score (depth_factor file_count) in
  if Qgeb adjusted_score 85 then VERY_HIGH
  else if Qgeb adjusted_score 70 then HIGH
  else if Qgeb adjusted_score 55 then MEDIUM
  else LOW.

(** *** The assessment pipeline *)

Local Open Scope string_scope.

(** [str(n)] of a count. *)
Definition str_of_count (n : nat) : string :=
  NilZero.string_of_uint (Nat.to_uint n).

(** [s.endswith(suffix)]. *)
Definition endswith (s suffix : string) : bool :=
  (String.length suffix <=? String.length s)%nat
  && String.eqb
       (substring (String.length s - String.length suffix)
                  (String.length suffix) s)
       suffix.

(** An issue dictionary of a tool holds the keys type, severity,
    description and suggestion, the syntax issue a line number besides, and
    none holds a file path. *)
Definition code_issue (issue : Issue.t) : QualityIssue.t :=
  QualityIssue.Build (Issue.type issue) (Issue.severity issue)
    (Issue.description issue) None (Issue.line_number issue)
    (Some (Issue.suggestion issue)).

Definition documentation_issue (issue : Issue.t) : QualityIssue.t :=
  QualityIssue.Build (Issue.type issue) (Issue.severity issue)
    (Issue.description issue) None None (Some (Issue.suggestion issue)).

Definition _compile_issues (code_analysis : CodeAnalysis.t)
    (doc_analysis : DocAnalysis.t) : list QualityIssue.t :=
  let issues := @nil QualityIssue.t in
  let issues :=
    fold_left (fun issues issue => (issues ++ [code_issue issue])%list)
      (CodeAnalysis.issues code_analysis) issues in
  fold_left (fun issues issue => (issues ++ [documentation_issue issue])%list)
    (DocAnalysis.issues doc_analysis) issues.

Definition with_severity (severity : string) (issues : list QualityIssue.t)
    : list QualityIssue.t :=
  filter (fun i => String.eqb (QualityIssue.severity i) severity) issues.

Definition append_when (c : bool) (text : string) (l : list string)
    : list string :=
  if c then (l ++ [text])%list else l.

Definition _generate_suggestions (metrics : CodeQualityMetrics.t)
    (issues : list QualityIssue.t) : list string :=
  let suggestions := @nil string in
  let suggestions :=
    append_when (Qltb (CodeQualityMetrics.security_score metrics) 80)
      "Implement comprehensive security review and address all security vulnerabilities"
      suggestions in
  let suggestions :=
    append_when (Qltb (CodeQualityMetrics.performance_score metrics) 70)
      "Optimize code complexity and consider performance improvements"
      suggestions in
  let suggestions :=
    append_when (Qltb (CodeQualityMetrics.documentation_score metrics) 60)
      "Improve documentation with better README, API docs, and inline comments"
      suggestions in
  let suggestions :=
    append_when (Qltb (CodeQualityMetrics.test_coverage_score metrics) 80)
      "Increase test coverage with unit tests, integration tests, and edge cases"
      suggestions in
  let critical_issues := with_severity "critical" issues in
  append_when (negb (SkillMatchingTool.is_empty critical_issues))
    "Address all critical issues before deployment" suggestions.

Definition overall_assessment (overall_score : Q) : string :=
  if Qgeb overall_score 85 then
    "Excellent code quality with strong adherence to best practices."
  else if Qgeb overall_score 70 then
    "Good code quality with minor areas for improvement."
  else if Qgeb overall_score 55 then
    "Acceptable code quality but requires attention to several areas."
  else
    "Code quality needs significant improvement before production use.".

Definition summary_parts (metrics : CodeQualityMetrics.t)
    (issues : list QualityIssue.t) (suggestions : list string)
    : list string :=
  let summary_parts := @nil string in
  let summary_parts :=
    (summary_parts
     ++ [overall_assessment (CodeQualityMetrics.overall_score metrics)])%list in
  let summary_parts :=
    append_when (Qltb (CodeQualityMetrics.security_score metrics) 70)
      "Security concerns require immediate attention." summary_parts in
  let summary_parts :=
    append_when (Qltb (CodeQualityMetrics.documentation_score metrics) 60)
      "Documentation needs substantial improvement." summary_parts in
  let critical_count := List.length (with_severity "critical" issues) in
  let high_count := List.length (with_severity "high" issues) in
  let summary_parts :=
    append_when (0 <? critical_count)%nat
      (str_of_count critical_count ++ " critical issue(s) must be resolved.")
      summary_parts in
  append_when (0 <? high_count)%nat
    (str_of_count high_count ++ " high-priority issue(s) should be addressed.")
    summary_parts.

Definition _generate_analysis_summary (metrics : CodeQualityMetrics.t)
    (issues : list QualityIssue.t) (suggestions : list string) : string :=
  PyStr.join " " (summary_parts metrics issues suggestions).

Definition code_extensions : list string :=
  [".py"; ".js"; ".ts"; ".sol"; ".go"; ".rs"; ".java"; ".cpp"; ".c"].

Definition _is_code_file (filename : string) : bool :=
  existsb (fun ext => endswith filename ext) code_extensions.

(** The dictionary an assessment returns. *)
Definition assessment (metrics : CodeQualityMetrics.t)
    (issues : list QualityIssue.t) (suggestions : list string)
    (confidence_level : ConfidenceLevel) (summary : string) : PyDict.t :=
  [("metrics", PyDict.VMetrics metrics);
   ("issues", PyDict.VIssues issues);
   ("suggestions", PyDict.VStrings suggestions);
   ("confidence_level", PyDict.VConfidence confidence_level);
   ("analysis_summary", PyDict.VStr summary)].

(** What [_fetch_repository_data] and [_get_solution_data] return: the
    files as the items of their dictionary, and keys that may be absent. *)
Record RepositoryData : Type := Build_RepositoryData {
  files : list (string * string);
  readme : option string
}.

Record SolutionData : Type := Build_SolutionData {
  solution_repository_url : option string;
  solution_language : option string
}.

(** The running totals of [_analyze_code_files]. *)
Record Totals : Type := Build_Totals {
  all_issues : list Issue.t;
  total_complexity : Q;
  total_security_issues : Z;
  total_style_issues : Z;
  total_performance_issues : Z
}.

Section WithServices.

Variable ast_parse : string -> PyAst.parse_outcome.

(** The services behind the agent, mocked in the source. *)
Variable _fetch_repository_data : string -> RepositoryData.
Variable _get_solution_data : Z -> SolutionData.

(** [code_tool._run(content, language)]: the language of a request may be
    [None], on which [language.lower()] raises. *)
Definition code_tool_run (content : string) (language : option string)
    : option CodeAnalysis.t :=
  match language with
  | Some l => CodeAnalysisTool._run ast_parse content l
  | None => None
  end.

Definition add_analysis (totals : Totals) (analysis : CodeAnalysis.t)
    : Totals :=
  let metrics := get (CodeAnalysis.metrics analysis) empty_metrics in
  Build_Totals
    (all_issues totals ++ CodeAnalysis.issues analysis)%list
    (total_complexity totals + get (CodeAnalysis.complexity_score analysis) 0)
    (total_security_issues totals
     + get (CodeAnalysis.security_issues metrics) 0)%Z
    (total_style_issues totals + get (CodeAnalysis.style_issues metrics) 0)%Z
    (total_performance_issues totals
     + get (CodeAnalysis.performance_issues metrics) 0)%Z.

Fixpoint analyze_items (items : list (string * string))
    (language : option string) (totals : Totals) : option Totals :=
  match items with
  | [] => Some totals
  | (filename, content) :: rest =>
      if _is_code_file filename then
        analysis <- code_tool_run content language ;;
        analyze_items rest language (add_analysis totals analysis)
      else analyze_items rest language totals
  end.

Definition _analyze_code_files (files : list (string * string))
    (language : option string) : option CodeAnalysis.t :=
  totals <- analyze_items files language (Build_Totals [] 0 0 0 0) ;;
  complexity_score <-
    py_div (total_complexity totals)
           (inject_Z (Z.max 1 (Z.of_nat (List.length files)))) ;;
  Some (CodeAnalysis.Build (Some complexity_score) (all_issues totals)
          (Some (CodeAnalysis.Build_Metrics None
                   (Some (total_security_issues totals))
                   (Some (total_style_issues totals))
                   (Some (total_performance_issues totals))))).

Definition _analyze_documentation (readme_content : string)
    : option DocAnalysis.t :=
  DocumentationAnalysisTool._run EmptyString readme_content.

Definition _assess_repository_quality (repository_url : string)
    (language : option string) (include_suggestions : bool)
    : option PyDict.t :=
  let repo_data := _fetch_repository_data repository_url in
  code_analysis <- _analyze_code_files (files repo_data) language ;;
  doc_analysis <-
    _analyze_documentation (get (readme repo_data) EmptyString) ;;
  metrics <- _calculate_quality_metrics code_analysis doc_analysis ;;
  let issues := _compile_issues code_analysis doc_analysis in
  let suggestions :=
    if include_suggestions then _generate_suggestions metrics issues
    else [] in
  let confidence_level :=
    _determine_confidence_level metrics
      (Z.of_nat (List.length (files repo_data))) in
  let summary := _generate_analysis_summary metrics issues suggestions in
  Some (assessment metrics issues suggestions confidence_level summary).

Definition _assess_code_quality (code_content : string)
    (language : option string) (include_suggestions : bool)
    : option PyDict.t :=
  code_analysis <- code_tool_run code_content language ;;
  doc_analysis <- DocumentationAnalysisTool._run code_content EmptyString ;;
  metrics <- _calculate_quality_metrics code_analysis doc_analysis ;;
  let issues := _compile_issues code_analysis doc_analysis in
  let suggestions :=
    if include_suggestions then _generate_suggestions metrics issues
    else [] in
  let confidence_level := _determine_confidence_level metrics 1 in
  let summary := _generate_analysis_summary metrics issues suggestions in
  Some (assessment metrics issues suggestions confidence_level summary).

(** Truthiness of a text that may be absent. *)
Definition truthy_text (x : option string) : bool :=
  match x with
  | Some s => negb (String.eqb s EmptyString)
  | None => false
  end.

(** Truthiness of an identifier that may be absent. *)
Definition truthy_int (x : option Z) : bool :=
  match x with
  | Some z => negb (z =? 0)%Z
  | None => false
  end.

Definition _assess_solution_quality (solution_id : Z)
    (include_suggestions : bool) : option PyDict.t :=
  let solution_data := _get_solution_data solution_id in
  if truthy_text (solution_repository_url solution_data) then
    match solution_repository_url solution_data with
    | Some repository_url =>
        _assess_repository_quality repository_url
          (Some (get (solution_language solution_data) "python"))
          include_suggestions
    | None => None
    end
  else None.

(** The request is [request.dict()], in which every key is present, so
    that no default of a [.get] applies: a language the caller left out is
    [None].  The result [None] stands for the exception of the branch
    taken and for the [ValueError] of the last one. *)
Definition _process_request_internal (request : QualityAssessmentRequest.t)
    : option PyDict.t :=
  let solution_id := QualityAssessmentRequest.solution_id request in
  let repository_url := QualityAssessmentRequest.repository_url request in
  let code_content := QualityAssessmentRequest.code_content request in
  let language := QualityAssessmentRequest.language request in
  let include_suggestions :=
    QualityAssessmentRequest.include_suggestions request in
  if truthy_int solution_id then
    match solution_id with
    | Some id => _assess_solution_quality id include_suggestions
    | None => None
    end
  else if truthy_text repository_url then
    match repository_url with
    | Some url => _assess_repository_quality url language include_suggestions
    | None => None
    end
  else if truthy_text code_content then
    match code_content with
    | Some code => _assess_code_quality code language include_suggestions
    | None => None
    end
  else None.

Definition process_request (setup : bool)
    : BaseAgent.state -> QualityAssessmentRequest.t -> Q -> Q -> string ->
      string -> option (option PyDict.t * BaseAgent.state) :=
  BaseAgent.process_request QualityAssessmentRequest.t "quality_assessment"
    _process_request_internal setup.

End WithServices.

End QualityAssessmentAgent.

(** ** Data for running the model *)

Module Examples.
Import Schemas.
Local Open Scope string_scope.

(** A developer without history: success rate 0 and reputation 0. *)
Definition newcomer : DeveloperProfile.t :=
  DeveloperProfile.Build "0x01" ["Python"] "junior" 0 0 0 [] None.

(** A developer with a perfect record. *)
Definition veteran : DeveloperProfile.t :=
  DeveloperProfile.Build "0x02" ["Rust"] "expert" 10 0 1 [] (Some 40%Z).

Definition some_bounty : BountyRequirements.t :=
  BountyMatchingAgent.mock_bounty 1 "2030-01-01T00:00:00".

(** A bounty for experts that asks for one skill and gives no estimate. *)
Definition rust_bounty : BountyRequirements.t :=
  BountyRequirements.Build 2 "Rust service" "Port the indexer to Rust"
    "backend" ["Rust"] "expert" None 100 "2030-01-01T00:00:00".

(** Two similarity functions, each the cosine similarity of an embedding:
    [exact_match] of one that sends different labels to orthogonal unit
    vectors, [signed] of the one-dimensional embedding [sign_of]. *)
Definition exact_match (a b : string) : Q :=
  if String.eqb a b then 1 else 0.

Definition sign_of (a : string) : Q :=
  if String.eqb a "Rust" then -1 else 1.

Definition signed (a b : string) : Q := sign_of a * sign_of b.

(** Source texts. *)
Definition nl : string := String PyStr.newline EmptyString.
Definition comment_only : string := "# only a comment".
Definition half_commented : string := "# c" ++ nl ++ "x = 1" ++ nl.
Definition unclosed_eval : string := "eval(".
Definition closed_eval : string := "eval(x)".

(** The answers of Python's parser on the two texts above: the first has an
    opening parenthesis that is never closed, on line 1; the second is a
    module of one expression statement, a call of a name on a name, in which
    no node is a branch, a loop, a handler or a boolean operator. *)
Definition unclosed_error : PyAst.SyntaxError :=
  PyAst.Build_SyntaxError "'(' was never closed (<unknown>, line 1)"
    (Some 1%Z).

Definition call_tree : PyAst.ast :=
  PyAst.Node PyAst.Other
    [PyAst.Node PyAst.Other
       [PyAst.Node PyAst.Other
          [PyAst.Node PyAst.Other [PyAst.Node PyAst.Other []];
           PyAst.Node PyAst.Other [PyAst.Node PyAst.Other []]]]].

Definition parse_table (code : string) : PyAst.parse_outcome :=
  if String.eqb code unclosed_eval then PyAst.Syntax unclosed_error
  else if String.eqb code closed_eval then PyAst.Parsed call_tree
  else PyAst.Raised.

End Examples.

(** ** The specification's wording, for comparison with the code *)

Module Spec.
Import Schemas.


(** Lines of a source text, as the documentation analyzer is specified:
    blank lines are skipped; a line is a comment if, trimmed, it starts with
    a line-comment or block-comment marker or contains a triple-quote
    delimiter; every other line that is not blank is a code line. *)
Definition is_blank (line : string) : bool :=
  String.eqb (PyStr.strip line) EmptyString.

Definition is_comment (line : string) : bool :=
  let trimmed := PyStr.strip line in
  PyStr.startswith trimmed "#" || PyStr.startswith trimmed "//"
  || PyStr.startswith trimmed "/*"
  || PyStr.contains DocumentationAnalysisTool.triple_double_quote trimmed
  || PyStr.contains DocumentationAnalysisTool.triple_single_quote trimmed.

Definition count_lines (p : string -> bool) (code : string) : Z :=
  Z.of_nat (List.length (filter p (PyStr.split PyStr.newline code))).

Definition comment_lines (code : string) : Z :=
  count_lines (fun l => negb (is_blank l) && is_comment l) code.

Definition non_blank_code_lines (code : string) : Z :=
  count_lines (fun l => negb (is_blank l) && negb (is_comment l)) code.

Definition non_blank_lines (code : string) : Z :=
  count_lines (fun l => negb (is_blank l)) code.

(** The comment ratio as the specification words it: the guard is on the
    number of lines that are not blank. *)
Definition comment_ratio (code : string) : Q :=
  if (non_blank_lines code =? 0)%Z then 0
  else inject_Z (comment_lines code)
       / inject_Z (comment_lines code + non_blank_code_lines code).

(** Best match per requirement: [b] is the greatest similarity that a
    developer skill reaches on the required skill [r]. *)
Definition is_best_match (similarity : string -> string -> Q)
    (developer_skills : list string) (r : string) (b : Q) : Prop :=
  (exists d, In d developer_skills /\ similarity d r = b) /\
  (forall d, In d developer_skills -> similarity d r <= b).

Fixpoint total (v : list Q) : Q :=
  match v with
  | [] => 0
  | x :: v' => x + total v'
  end.

Definition mean (v : list Q) : Q :=
  total v / inject_Z (Z.of_nat (List.length v)).

(** The data model: similarities within [0,1]; reputation not negative and
    success rate within [0,1]; hours, where given, not negative; and hours
    and the count of bounties of a magnitude that floating-point arithmetic
    holds, here up to [2 ^ 1000]. *)
Definition similarity_in_model (similarity : string -> string -> Q) : Prop :=
  forall d r : string, 0 <= similarity d r <= 1.

Definition developer_in_model (d : DeveloperProfile.t) : Prop :=
  0 <= DeveloperProfile.reputation_score d /\
  0 <= DeveloperProfile.success_rate d <= 1 /\
  (forall h, DeveloperProfile.availability_hours d = Some h ->
             (0 <= h <= 2 ^ 1000)%Z) /\
  (Z.abs (DeveloperProfile.completed_bounties d) <= 2 ^ 1000)%Z.

Definition bounty_in_model (b : BountyRequirements.t) : Prop :=
  forall h, BountyRequirements.estimated_hours b = Some h ->
            (0 <= h <= 2 ^ 1000)%Z.

(** Ranking.  [all_matches calc pool] are the matches of the candidates in
    the order of the pool, when every one of them can be computed. *)
Fixpoint all_matches {A : Type} (calc : A -> option BountyMatch.t)
    (pool : list A) : option (list BountyMatch.t) :=
  match pool with
  | [] => Some []
  | c :: rest =>
      match calc c, all_matches calc rest with
      | Some m, Some ms => Some (m :: ms)
      | _, _ => None
      end
  end.

Definition score (m : BountyMatch.t) : Q := BountyMatch.compatibility_score m.

Definition qualifying (min_score : Q) (ms : list BountyMatch.t)
    : list BountyMatch.t :=
  filter (fun m => Qle_bool min_score (score m)) ms.

Definition descending (ms : list BountyMatch.t) : Prop :=
  StronglySorted (fun a b => score b <= score a) ms.

(** Entries of equal score stand in [ranked] in the order they have in
    [original]. *)
Definition keeps_tie_order (original ranked : list BountyMatch.t) : Prop :=
  forall q : Q,
    filter (fun m => Qeq_bool (score m) q) ranked
    = filter (fun m => Qeq_bool (score m) q) original.

(** The result of a ranking operation over the matches [ms] of the pool:
    the qualifying matches, in descending order with ties in pool order,
    cut to the first [limit]. *)
Definition ranked (ms : list BountyMatch.t) (min_score : Q) (limit : Z)
    (result : option BountyMatchingAgent.MatchList) : Prop :=
  exists sorted : list BountyMatch.t,
    Permutation sorted (qualifying min_score ms) /\
    descending sorted /\
    keeps_tie_order (qualifying min_score ms) sorted /\
    result = Some (BountyMatchingAgent.Build_MatchList
                     (firstn (Z.to_nat limit) sorted)
                     (Z.of_nat (List.length sorted))).

End Spec.

(** ** [app/api/v1/endpoints/quality_assessment.py], the upload of a file *)

Module QualityAssessmentEndpoint.
Import QualityAssessmentAgent.
Local Open Scope string_scope.

(** The chain of tests on [file.filename]. *)
Definition language_of_extension (filename : string) : string :=
  if endswith filename ".py" then "python"
  else if endswith filename ".js" || endswith filename ".jsx"
  then "javascript"
  else if endswith filename ".ts" || endswith filename ".tsx"
  then "typescript"
  else if endswith filename ".sol" then "solidity"
  else if endswith filename ".go" then "go"
  else "python".

(** The language after the block under [if not language]. *)
Definition detected_language (filename : string) (language : option string)
    : string :=
  if truthy_text language then
    match language with
    | Some l => l
    | None => language_of_extension filename
    end
  else language_of_extension filename.

(** The request the endpoint builds from the decoded content. *)
Definition upload_request (filename code_content : string)
    (language : option string) (include_suggestions : bool)
    : QualityAssessmentRequest.t :=
  QualityAssessmentRequest.Build None None (Some code_content)
    (Some (detected_language filename language)) include_suggestions.

End QualityAssessmentEndpoint.

(** ** Derived notions and data for the further properties *)

Module Derived.
Local Open Scope string_scope.

(** The node classes that [_calculate_complexity] counts. *)
Definition is_branching (cls : PyAst.node_class) : bool :=
  match cls with
  | PyAst.Other => false
  | _ => true
  end.

Definition branching_nodes (tree : PyAst.ast) : Z :=
  Z.of_nat (List.length (filter is_branching (PyAst.walk tree))).

(** What every result of the code analysis tool has: a complexity score
    within [0,10], the line count of the text, the counts of the security
    and of the style issues it lists, no performance issue, and at most
    four issues. *)
Definition analysis_shape (code : string) (r : CodeAnalysis.t) : Prop :=
  exists c : Q,
    CodeAnalysis.complexity_score r = Some c /\ 0 <= c <= 10 /\
    CodeAnalysis.metrics r
    = Some (CodeAnalysis.Build_Metrics
              (Some (CodeAnalysisTool.line_count code))
              (Some (CodeAnalysisTool.count_type "security"
                       (CodeAnalysis.issues r)))
              (Some (CodeAnalysisTool.count_type "style"
                       (CodeAnalysis.issues r)))
              (Some 0%Z)) /\
    (List.length (CodeAnalysis.issues r) <= 4)%nat.

(** What the running totals of [_analyze_code_files] satisfy after [n]
    code files. *)
Definition totals_ok (n : nat) (totals : QualityAssessmentAgent.Totals)
    : Prop :=
  0 <= QualityAssessmentAgent.total_complexity totals
    <= 10 * inject_Z (Z.of_nat n) /\
  QualityAssessmentAgent.total_security_issues totals
  = CodeAnalysisTool.count_type "security"
      (QualityAssessmentAgent.all_issues totals) /\
  QualityAssessmentAgent.total_style_issues totals
  = CodeAnalysisTool.count_type "style"
      (QualityAssessmentAgent.all_issues totals) /\
  QualityAssessmentAgent.total_performance_issues totals = 0%Z.

(** The sentence that opens a summary, by tier. *)
Definition verdict (tier : Schemas.ConfidenceLevel) : string :=
  match tier with
  | Schemas.VERY_HIGH =>
      "Excellent code quality with strong adherence to best practices."
  | Schemas.HIGH => "Good code quality with minor areas for improvement."
  | Schemas.MEDIUM =>
      "Acceptable code quality but requires attention to several areas."
  | Schemas.LOW =>
      "Code quality needs significant improvement before production use."
  end.

(** A log of finished requests, each with its processing time, its success
    flag and the clock text of its end; [replay] records them in turn. *)
Definition entry : Type := (Q * bool * string)%type.

Definition replay (log : list entry) (metrics : AgentMetrics.t)
    : option AgentMetrics.t :=
  fold_left
    (fun acc e =>
       m <- acc ;;
       AgentMetrics.record_request m (fst (fst e)) (snd (fst e)) (snd e))
    log (Some metrics).

Definition successes (log : list entry) : Z :=
  Z.of_nat (List.length (filter (fun e : entry => snd (fst e)) log)).

Fixpoint time_spent (log : list entry) : Q :=
  match log with
  | [] => 0
  | e :: rest => time_spent rest + fst (fst e)
  end.

End Derived.

Module PipelineExamples.
Local Open Scope string_scope.

(** A repository of one code file that parses and one text file. *)
Definition small_repository : QualityAssessmentAgent.RepositoryData :=
  QualityAssessmentAgent.Build_RepositoryData
    [("main.py", Examples.closed_eval); ("notes.txt", "remember the milk")]
    (Some "Installation: see the usage section").

Definition code_request : QualityAssessmentRequest.t :=
  QualityAssessmentRequest.Build None None (Some Examples.closed_eval)
    (Some "python") true.

Definition mock_solution (solution_id : Z)
    : QualityAssessmentAgent.SolutionData :=
  QualityAssessmentAgent.Build_SolutionData
    (Some "https://github.com/example/solution") (Some "python").

End PipelineExamples.

(** * Properties *)

(** ** Comparisons, [min] and [max] *)

Module PyNumFacts.
Import PyNum.

Lemma Qle_bool_false (a b : Q) : Qle_bool a b = false -> b < a.
Proof.
  intro H. apply Qnot_le_lt. intro Hle.
  apply Qle_bool_iff in Hle. congruence.
Qed.

Lemma Qgeb_true (a b : Q) : Qgeb a b = true <-> b <= a.
Proof. unfold Qgeb. apply Qle_bool_iff. Qed.

Lemma Qgeb_false (a b : Q) : Qgeb a b = false <-> a < b.
Proof.
  unfold Qgeb. split.
  - apply Qle_bool_false.
  - intro H. destruct (Qle_bool b a) eqn:E; [|reflexivity].
    apply Qle_bool_iff in E. exfalso. lra.
Qed.

Lemma Qltb_true (a b : Q) : Qltb a b = true <-> a < b.
Proof.
  unfold Qltb. rewrite negb_true_iff. apply (Qgeb_false a b).
Qed.

Lemma Qltb_false (a b : Q) : Qltb a b = false <-> b <= a.
Proof.
  unfold Qltb. rewrite negb_false_iff. apply Qle_bool_iff.
Qed.

Lemma py_max_cases (a b : Q) :
  (a < b /\ py_max a b = b) \/ (b <= a /\ py_max a b = a).
Proof.
  unfold py_max. destruct (Qltb a b) eqn:E.
  - left. split; [apply Qltb_true; exact E | reflexivity].
  - right. split; [apply Qltb_false; exact E | reflexivity].
Qed.

Lemma py_min_cases (a b : Q) :
  (b < a /\ py_min a b = b) \/ (a <= b /\ py_min a b = a).
Proof.
  unfold py_min. destruct (Qltb b a) eqn:E.
  - left. split; [apply Qltb_true; exact E | reflexivity].
  - right. split; [apply Qltb_false; exact E | reflexivity].
Qed.

Lemma py_min_Qmin (a b : Q) : py_min a b == Qmin a b.
Proof.
  destruct (py_min_cases a b) as [[H ->] | [H ->]].
  - symmetry. apply Q.min_r. lra.
  - symmetry. apply Q.min_l. exact H.
Qed.

Lemma py_max_Qmax (a b : Q) : py_max a b == Qmax a b.
Proof.
  destruct (py_max_cases a b) as [[H ->] | [H ->]].
  - symmetry. apply Q.max_r. lra.
  - symmetry. apply Q.max_l. exact H.
Qed.

Lemma Qdiv_cancel (a b : Q) : ~ b == 0 -> (a / b) * b == a.
Proof. intro H. field. exact H. Qed.

Lemma py_div_some (a b : Q) : ~ b == 0 -> py_div a b = Some (a / b).
Proof.
  intro H. unfold py_div. destruct (Qeq_bool b 0) eqn:E; [|reflexivity].
  apply Qeq_bool_iff in E. contradiction.
Qed.

End PyNumFacts.

(** Linear arithmetic on rationals, divisions by constants included: each
    quotient is named and characterised by its product with the divisor. *)
Ltac qdiv_elim :=
  repeat match goal with
  | |- context [Qdiv ?a ?b] =>
      let q := fresh "q" in
      let Hq := fresh "Hq" in
      assert (Hq : (a / b) * b == a)
        by (apply PyNumFacts.Qdiv_cancel; first [lra | assumption]);
      set (q := a / b) in *
  | H : context [Qdiv ?a ?b] |- _ =>
      let q := fresh "q" in
      let Hq := fresh "Hq" in
      assert (Hq : (a / b) * b == a)
        by (apply PyNumFacts.Qdiv_cancel; first [lra | assumption]);
      set (q := a / b) in *
  end.

Ltac qlra := qdiv_elim; lra.

(** Case analysis on every [py_min] and [py_max] of the goal. *)
Ltac minmax_cases :=
  repeat match goal with
  | |- context [PyNum.py_min ?a ?b] =>
      let H := fresh "Hmin" in
      let E := fresh "Emin" in
      destruct (PyNumFacts.py_min_cases a b) as [[H E] | [H E]];
      rewrite E in *; clear E
  | |- context [PyNum.py_max ?a ?b] =>
      let H := fresh "Hmax" in
      let E := fresh "Emax" in
      destruct (PyNumFacts.py_max_cases a b) as [[H E] | [H E]];
      rewrite E in *; clear E
  end.

(** Case analysis on the outermost threshold tests of the goal. *)
Ltac threshold_cases :=
  repeat match goal with
  | |- context [PyNum.Qgeb ?a ?b] =>
      let H := fresh "Hge" in
      destruct (PyNum.Qgeb a b) eqn:H;
      [apply PyNumFacts.Qgeb_true in H | apply PyNumFacts.Qgeb_false in H]
  end.

(** ** Binary64 rounding *)

Module Float64Facts.
Import PyNum Float64.

Lemma pow2_pos (k : Z) : 0 < 2 ^ k.
Proof. apply Qpower_0_lt. reflexivity. Qed.

Lemma pow2_le (j k : Z) : (j <= k)%Z -> 2 ^ j <= 2 ^ k.
Proof. intro H. apply Qpower_le_compat_l; [exact H | discriminate]. Qed.

Lemma pow2_lt (j k : Z) : (j < k)%Z -> 2 ^ j < 2 ^ k.
Proof. intro H. apply Qpower_lt_compat_l; [exact H | reflexivity]. Qed.

Lemma pow2_plus (j k : Z) : 2 ^ (j + k) == 2 ^ j * 2 ^ k.
Proof. apply Qpower_plus. discriminate. Qed.

Lemma pow2_Z (k : Z) : (0 <= k)%Z -> inject_Z (2 ^ k) == 2 ^ k.
Proof. intro H. rewrite Zpower_Qpower by exact H. reflexivity. Qed.

Lemma ilog2_spec (x : Q) :
  0 < x -> 2 ^ ilog2 x <= x /\ x < 2 ^ (ilog2 x + 1).
Proof.
  intro Hx. unfold ilog2.
  destruct x as [n d]. cbn [Qnum Qden].
  assert (Hn : (0 < n)%Z) by (unfold Qlt in Hx; simpl in Hx; lia).
  pose proof (Z.log2_spec n Hn) as [Hn1 Hn2].
  pose proof (Z.log2_spec (Z.pos d) (Pos2Z.is_pos d)) as [Hd1 Hd2].
  pose proof (Z.log2_nonneg n) as Ha. pose proof (Z.log2_nonneg (Z.pos d)) as Hb.
  set (a := Z.log2 n) in *. set (b := Z.log2 (Z.pos d)) in *.
  assert (EA : 2 ^ a <= inject_Z n).
  { rewrite <- pow2_Z by exact Ha. rewrite <- Zle_Qle. exact Hn1. }
  assert (EA' : inject_Z n < 2 ^ (a + 1)).
  { rewrite <- pow2_Z by lia. rewrite <- Zlt_Qlt. rewrite <- Z.add_1_r in Hn2. exact Hn2. }
  assert (EB : 2 ^ b <= inject_Z (Z.pos d)).
  { rewrite <- pow2_Z by exact Hb. rewrite <- Zle_Qle. exact Hd1. }
  assert (EB' : inject_Z (Z.pos d) < 2 ^ (b + 1)).
  { rewrite <- pow2_Z by lia. rewrite <- Zlt_Qlt. rewrite <- Z.add_1_r in Hd2. exact Hd2. }
  assert (Ex : (n # d) * inject_Z (Z.pos d) == inject_Z n).
  { unfold Qeq, Qmult, inject_Z. simpl. lia. }
  assert (Hd : 0 < inject_Z (Z.pos d)) by reflexivity.
  set (x := n # d) in *. set (N := inject_Z n) in *.
  set (D := inject_Z (Z.pos d)) in *.
  assert (P1 : 2 ^ (a + 1) == 2 ^ (a - b) * 2 ^ (b + 1)).
  { rewrite <- pow2_plus. replace (a - b + (b + 1))%Z with (a + 1)%Z by lia. reflexivity. }
  assert (P2 : 2 ^ a == 2 ^ (a - b) * 2 ^ b).
  { rewrite <- pow2_plus. replace (a - b + b)%Z with a by lia. reflexivity. }
  assert (P3 : 2 ^ (a - b) == 2 ^ (a - b - 1) * 2).
  { change 2 with (2 ^ 1) at 3. rewrite <- pow2_plus.
    replace (a - b - 1 + 1)%Z with (a - b)%Z by lia. reflexivity. }
  assert (P4 : 2 ^ (b + 1) == 2 ^ b * 2).
  { change 2 with (2 ^ 1) at 3. rewrite <- pow2_plus. reflexivity. }
  pose proof (pow2_pos (a - b)) as Q1. pose proof (pow2_pos (a - b - 1)) as Q2.
  pose proof (pow2_pos b) as Q3.
  destruct (Qle_bool (2 ^ (a - b)) x) eqn:E.
  - apply Qle_bool_iff in E. split; [exact E|].
    replace (a - b + 1)%Z with (a - b - 1 + 1 + 1)%Z by lia.
    assert (P5 : 2 ^ (a - b - 1 + 1 + 1) == 2 ^ (a - b) * 2).
    { change 2 with (2 ^ 1) at 3. rewrite <- pow2_plus.
      replace (a - b - 1 + 1 + 1)%Z with (a - b + 1)%Z by lia. reflexivity. }
    rewrite P5.
    set (K := 2 ^ (a - b)) in *. set (A1 := 2 ^ (a + 1)) in *.
    set (B := 2 ^ b) in *. set (B1 := 2 ^ (b + 1)) in *. set (A := 2 ^ a) in *.
    nra.
  - assert (E' : x < 2 ^ (a - b)).
    { apply Qnot_le_lt. intro H. apply Qle_bool_iff in H. congruence. }
    split.
    + set (K := 2 ^ (a - b)) in *. set (A1 := 2 ^ (a + 1)) in *.
      set (B := 2 ^ b) in *. set (B1 := 2 ^ (b + 1)) in *. set (A := 2 ^ a) in *.
      set (K1 := 2 ^ (a - b - 1)) in *.
      nra.
    + replace (a - b - 1 + 1)%Z with (a - b)%Z by lia. exact E'.
Qed.

Lemma ilog2_mono (x y : Q) : 0 < x -> x <= y -> (ilog2 x <= ilog2 y)%Z.
Proof.
  intros Hx Hxy.
  destruct (ilog2_spec x Hx) as [Hx1 _].
  destruct (ilog2_spec y ltac:(lra)) as [_ Hy2].
  destruct (Z_le_gt_dec (ilog2 x) (ilog2 y)) as [H | H]; [exact H|].
  exfalso. assert (Hp : 2 ^ (ilog2 y + 1) <= 2 ^ ilog2 x) by (apply pow2_le; lia).
  lra.
Qed.

Lemma ilog2_comp (x y : Q) : 0 < x -> x == y -> ilog2 x = ilog2 y.
Proof.
  intros Hx E.
  pose proof (ilog2_mono x y Hx ltac:(lra)).
  pose proof (ilog2_mono y x ltac:(lra) ltac:(lra)). lia.
Qed.

Lemma exponent_mono (x y : Q) : 0 < x -> x <= y -> (exponent x <= exponent y)%Z.
Proof. intros Hx Hxy. unfold exponent. pose proof (ilog2_mono x y Hx Hxy). lia. Qed.

(** *** Rounding to the nearest integer, ties to even *)

Lemma rne_bounds (x : Q) : (Qfloor x <= rne x <= Qfloor x + 1)%Z.
Proof.
  unfold rne. destruct (Qcompare (x - inject_Z (Qfloor x)) (1 # 2));
    [destruct (Z.even (Qfloor x))| |]; lia.
Qed.

Lemma rne_Z (k : Z) : rne (inject_Z k) = k.
Proof.
  unfold rne. rewrite Qfloor_Z.
  destruct (Qcompare (inject_Z k - inject_Z k) (1 # 2)) eqn:C;
    [apply Qeq_alt in C | reflexivity | apply Qgt_alt in C]; exfalso; lra.
Qed.

Lemma rne_comp (x y : Q) : x == y -> rne x = rne y.
Proof.
  intro E. unfold rne. rewrite (Qfloor_comp x y E).
  assert (E' : x - inject_Z (Qfloor y) == y - inject_Z (Qfloor y)) by lra.
  rewrite (Qcompare_comp _ _ E' (1 # 2) (1 # 2) (Qeq_refl _)). reflexivity.
Qed.

Lemma rne_mono (x y : Q) : x <= y -> (rne x <= rne y)%Z.
Proof.
  intro H. pose proof (Qfloor_resp_le x y H) as Hf.
  pose proof (rne_bounds x) as Bx. pose proof (rne_bounds y) as By.
  destruct (Z.eq_dec (Qfloor x) (Qfloor y)) as [E | N]; [|lia].
  unfold rne. rewrite <- E.
  destruct (Qcompare (x - inject_Z (Qfloor x)) (1 # 2)) eqn:Cx;
    destruct (Qcompare (y - inject_Z (Qfloor x)) (1 # 2)) eqn:Cy;
    try (destruct (Z.even (Qfloor x))); try lia; exfalso;
    repeat match goal with
    | C : Qcompare _ _ = Eq |- _ => apply Qeq_alt in C
    | C : Qcompare _ _ = Lt |- _ => apply Qlt_alt in C
    | C : Qcompare _ _ = Gt |- _ => apply Qgt_alt in C
    end; lra.
Qed.

Lemma rne_le_int (x : Q) (k : Z) : x <= inject_Z k -> (rne x <= k)%Z.
Proof. intro H. rewrite <- (rne_Z k). apply rne_mono, H. Qed.

Lemma rne_ge_int (x : Q) (k : Z) : inject_Z k <= x -> (k <= rne x)%Z.
Proof. intro H. rewrite <- (rne_Z k). apply rne_mono, H. Qed.

(** *** Rounding of positive numbers *)

Lemma scaled_le (x y : Q) (e : Z) : x <= y -> x / 2 ^ e <= y / 2 ^ e.
Proof.
  intro H. pose proof (pow2_pos e) as P.
  apply Qle_shift_div_l; [exact P|].
  assert (E : x / 2 ^ e * 2 ^ e == x) by (field; lra). lra.
Qed.

Lemma round_pos_nonneg (x : Q) : 0 < x -> 0 <= round_pos x.
Proof.
  intro H. unfold round_pos. pose proof (pow2_pos (exponent x)) as P.
  assert (Hk : (0 <= rne (x / 2 ^ exponent x))%Z).
  { apply rne_ge_int. change (inject_Z 0) with 0.
    apply Qle_shift_div_l; [exact P | lra]. }
  apply Qmult_le_0_compat; [|lra].
  change 0 with (inject_Z 0). rewrite <- Zle_Qle. exact Hk.
Qed.

(** A power of two that is a multiple of the unit in the last place of [x]
    bounds the rounded value as it bounds [x]. *)
Lemma round_pos_le_pow2 (x : Q) (k : Z) :
  0 < x -> (exponent x <= k)%Z -> x <= 2 ^ k -> round_pos x <= 2 ^ k.
Proof.
  intros Hx Hk H. unfold round_pos. set (e := exponent x) in *.
  pose proof (pow2_pos e) as P.
  assert (E : 2 ^ k == inject_Z (2 ^ (k - e)) * 2 ^ e).
  { rewrite pow2_Z by lia. rewrite <- pow2_plus.
    replace (k - e + e)%Z with k by lia. reflexivity. }
  rewrite E. apply Qmult_le_compat_r; [|lra].
  rewrite <- Zle_Qle. apply rne_le_int.
  apply Qle_shift_div_r; [exact P | lra].
Qed.

Lemma round_pos_ge_pow2 (x : Q) (k : Z) :
  0 < x -> (exponent x <= k)%Z -> 2 ^ k <= x -> 2 ^ k <= round_pos x.
Proof.
  intros Hx Hk H. unfold round_pos. set (e := exponent x) in *.
  pose proof (pow2_pos e) as P.
  assert (E : 2 ^ k == inject_Z (2 ^ (k - e)) * 2 ^ e).
  { rewrite pow2_Z by lia. rewrite <- pow2_plus.
    replace (k - e + e)%Z with k by lia. reflexivity. }
  rewrite E. apply Qmult_le_compat_r; [|lra].
  rewrite <- Zle_Qle. apply rne_ge_int.
  apply Qle_shift_div_l; [exact P | lra].
Qed.

Lemma round_pos_mono (x y : Q) :
  0 < x -> x <= y -> round_pos x <= round_pos y.
Proof.
  intros Hx Hxy. assert (Hy : 0 < y) by lra.
  pose proof (exponent_mono x y Hx Hxy) as He.
  destruct (Z.eq_dec (exponent x) (exponent y)) as [E | N].
  - unfold round_pos. rewrite E. pose proof (pow2_pos (exponent y)) as P.
    apply Qmult_le_compat_r; [|lra].
    rewrite <- Zle_Qle. apply rne_mono, scaled_le, Hxy.
  - assert (Hlt : (exponent x < exponent y)%Z) by lia.
    assert (Hl : (ilog2 x < ilog2 y)%Z) by (unfold exponent in *; lia).
    destruct (ilog2_spec x Hx) as [_ Hx2].
    destruct (ilog2_spec y Hy) as [Hy1 _].
    assert (Hp : 2 ^ (ilog2 x + 1) <= 2 ^ ilog2 y) by (apply pow2_le; lia).
    apply Qle_trans with (2 ^ ilog2 y).
    + apply round_pos_le_pow2; [exact Hx | unfold exponent in *; lia |].
      apply Qlt_le_weak, (Qlt_le_trans _ _ _ Hx2 Hp).
    + apply round_pos_ge_pow2; [exact Hy | unfold exponent in *; lia | exact Hy1].
Qed.

Lemma round_pos_comp (x y : Q) : 0 < x -> x == y -> round_pos x == round_pos y.
Proof.
  intros Hx E. apply Qle_antisym; apply round_pos_mono; lra.
Qed.

(** *** Rounding *)

Lemma Qred_sign (x : Q) :
  match Qnum (Qred x) with
  | Z0 => x == 0
  | Zpos _ => 0 < x /\ 0 < Qred x
  | Zneg _ => x < 0 /\ 0 < - Qred x
  end.
Proof.
  pose proof (Qred_correct x) as E.
  destruct (Qred x) as [n d] eqn:R. cbn [Qnum].
  destruct n as [|p|p].
  - rewrite <- E. reflexivity.
  - assert (H : 0 < Z.pos p # d) by reflexivity. split; [rewrite <- E|]; exact H.
  - assert (H : Z.neg p # d < 0) by reflexivity. split; [rewrite <- E; exact H|].
    reflexivity.
Qed.

Lemma round_comp (x y : Q) : x == y -> round x = round y.
Proof. intro E. unfold round. rewrite (Qred_complete x y E). reflexivity. Qed.

Lemma round_0 : round 0 = 0.
Proof. reflexivity. Qed.

Lemma round_nonneg (x : Q) : 0 <= x -> 0 <= round x.
Proof.
  intro H. unfold round. pose proof (Qred_sign x) as S.
  destruct (Qnum (Qred x)); [lra | | lra].
  apply round_pos_nonneg. apply S.
Qed.

Lemma round_nonpos (x : Q) : x <= 0 -> round x <= 0.
Proof.
  intro H. unfold round. pose proof (Qred_sign x) as S.
  destruct (Qnum (Qred x)); [lra | lra |].
  pose proof (round_pos_nonneg (- Qred x) (proj2 S)). lra.
Qed.

Lemma round_mono (x y : Q) : x <= y -> round x <= round y.
Proof.
  intro H.
  destruct (Qlt_le_dec 0 x) as [Hx | Hx].
  - unfold round. pose proof (Qred_sign x) as Sx. pose proof (Qred_sign y) as Sy.
    pose proof (Qred_correct x) as Ex. pose proof (Qred_correct y) as Ey.
    destruct (Qnum (Qred x)); [lra | | lra].
    destruct (Qnum (Qred y)); [lra | | lra].
    apply round_pos_mono; [apply Sx | lra].
  - destruct (Qlt_le_dec 0 y) as [Hy | Hy].
    + apply Qle_trans with 0; [apply round_nonpos, Hx | apply round_nonneg; lra].
    + destruct (Qeq_dec y 0) as [Ey0 | Ny0].
      * rewrite (round_comp y 0 Ey0). apply round_nonpos. exact Hx.
      * unfold round. pose proof (Qred_sign x) as Sx. pose proof (Qred_sign y) as Sy.
        pose proof (Qred_correct x) as Ex. pose proof (Qred_correct y) as Ey.
        destruct (Qnum (Qred x)); [lra | lra |].
        destruct (Qnum (Qred y)); [lra | lra |].
        apply Qopp_le_compat. apply round_pos_mono; [apply Sy | lra].
Qed.

Lemma round_opp (x : Q) : round (- x) == - round x.
Proof.
  unfold round.
  pose proof (Qred_sign x) as Sx. pose proof (Qred_sign (- x)) as Sy.
  pose proof (Qred_correct x) as Ex. pose proof (Qred_correct (- x)) as Ey.
  destruct (Qnum (Qred x)); destruct (Qnum (Qred (- x))); try lra.
  - rewrite (round_pos_comp (- Qred (- x)) (Qred x)); [lra | apply Sy | lra].
  - rewrite (round_pos_comp (Qred (- x)) (- Qred x)); [lra | apply Sy | lra].
Qed.


(** *** Rounded values are fixed by rounding *)

Lemma ilog2_unique (y : Q) (k : Z) :
  2 ^ k <= y -> y < 2 ^ (k + 1) -> ilog2 y = k.
Proof.
  intros H1 H2. pose proof (pow2_pos k) as P.
  destruct (ilog2_spec y ltac:(lra)) as [S1 S2].
  destruct (Z_lt_le_dec (ilog2 y) k) as [L | L].
  - exfalso. assert (Hp : 2 ^ (ilog2 y + 1) <= 2 ^ k) by (apply pow2_le; lia).
    lra.
  - destruct (Z_lt_le_dec k (ilog2 y)) as [G | G]; [|lia].
    exfalso. assert (Hp : 2 ^ (k + 1) <= 2 ^ ilog2 y) by (apply pow2_le; lia).
    lra.
Qed.

Lemma round_pos_on_grid (m e : Z) :
  (0 < m)%Z -> exponent (inject_Z m * 2 ^ e) = e ->
  round_pos (inject_Z m * 2 ^ e) == inject_Z m * 2 ^ e.
Proof.
  intros Hm He. unfold round_pos. rewrite He.
  pose proof (pow2_pos e) as P.
  rewrite (rne_comp _ (inject_Z m)) by (field; lra).
  rewrite rne_Z. reflexivity.
Qed.

Lemma pow2_succ (k : Z) : 2 ^ (k + 1) == 2 * 2 ^ k.
Proof. rewrite pow2_plus. change (2 ^ 1) with 2. ring. Qed.

Lemma round_pos_fixed (x : Q) :
  0 < x -> 0 < round_pos x -> round_pos (round_pos x) == round_pos x.
Proof.
  intros Hx Hr.
  destruct (ilog2_spec x Hx) as [S1 S2].
  set (L := ilog2 x) in *.
  assert (Ee : exponent x = Z.max (L - 52) (-1074)) by reflexivity.
  set (e := exponent x) in *.
  pose proof (pow2_pos e) as P.
  set (m := rne (x / 2 ^ e)).
  assert (Er : round_pos x = inject_Z m * 2 ^ e) by reflexivity.
  assert (Hm : (0 < m)%Z).
  { rewrite Er in Hr. rewrite Zlt_Qlt. change (inject_Z 0) with 0.
    destruct (Qlt_le_dec 0 (inject_Z m)) as [H | H]; [exact H|].
    exfalso. clear Er. revert Hr H P.
    generalize (inject_Z m) (2 ^ e). intros M T Hr H P. nra. }
  rewrite Er.
  destruct (Z_le_gt_dec (-1074) (L - 52)) as [N | Sub].
  - (* normal numbers *)
    assert (E : e = (L - 52)%Z) by lia.
    assert (Hlo : (2 ^ 52 <= m)%Z).
    { apply rne_ge_int. rewrite pow2_Z by lia.
      apply Qle_shift_div_l; [exact P|]. rewrite <- pow2_plus.
      replace (52 + e)%Z with L by lia. exact S1. }
    assert (Hhi : (m <= 2 ^ 53)%Z).
    { apply rne_le_int. rewrite pow2_Z by lia.
      apply Qle_shift_div_r; [exact P|]. rewrite <- pow2_plus.
      replace (53 + e)%Z with (L + 1)%Z by lia. lra. }
    destruct (Z.eq_dec m (2 ^ 53)) as [Top | NTop].
    + assert (Ev : inject_Z m * 2 ^ e == inject_Z (2 ^ 52) * 2 ^ (e + 1)).
      { rewrite Top, pow2_succ. rewrite !pow2_Z by lia.
        change (2 ^ 53) with (2 * 2 ^ 52). ring. }
      assert (Hv : 0 < inject_Z m * 2 ^ e) by (rewrite <- Er; exact Hr).
      apply Qeq_trans with (round_pos (inject_Z (2 ^ 52) * 2 ^ (e + 1)));
        [apply round_pos_comp; assumption|].
      apply Qeq_trans with (inject_Z (2 ^ 52) * 2 ^ (e + 1));
        [|symmetry; exact Ev].
      apply round_pos_on_grid; [lia|].
      unfold exponent.
      rewrite (ilog2_unique _ (L + 1)).
      * lia.
      * rewrite pow2_Z by lia. rewrite <- pow2_plus.
        replace (52 + (e + 1))%Z with (L + 1)%Z by lia. lra.
      * rewrite pow2_Z by lia. rewrite <- pow2_plus.
        replace (52 + (e + 1))%Z with (L + 1)%Z by lia.
        apply pow2_lt. lia.
    + apply round_pos_on_grid; [exact Hm|].
      unfold exponent. rewrite (ilog2_unique _ L); [lia | |].
      * apply Qle_trans with (inject_Z (2 ^ 52) * 2 ^ e).
        -- rewrite pow2_Z by lia. rewrite <- pow2_plus.
           replace (52 + e)%Z with L by lia. lra.
        -- apply Qmult_le_compat_r; [|lra]. rewrite <- Zle_Qle. exact Hlo.
      * apply Qlt_le_trans with (inject_Z (2 ^ 53) * 2 ^ e).
        -- apply Qmult_lt_compat_r; [exact P|]. rewrite <- Zlt_Qlt. lia.
        -- rewrite pow2_Z by lia. rewrite <- pow2_plus.
           replace (53 + e)%Z with (L + 1)%Z by lia. lra.
  - (* subnormal numbers *)
    assert (E : e = (-1074)%Z) by lia.
    assert (Hhi : (m <= 2 ^ 52)%Z).
    { apply rne_le_int. rewrite pow2_Z by lia.
      apply Qle_shift_div_r; [exact P|]. rewrite <- pow2_plus.
      apply Qle_trans with (2 ^ (L + 1)); [lra | apply pow2_le; lia]. }
    apply round_pos_on_grid; [exact Hm|].
    assert (Hv : 0 < inject_Z m * 2 ^ e) by (rewrite <- Er; exact Hr).
    assert (Hle : inject_Z m * 2 ^ e <= 2 ^ (-1022)).
    { apply Qle_trans with (inject_Z (2 ^ 52) * 2 ^ e).
      - apply Qmult_le_compat_r; [|lra]. rewrite <- Zle_Qle. exact Hhi.
      - rewrite pow2_Z by lia. rewrite <- pow2_plus. rewrite E. apply Qle_refl. }
    pose proof (ilog2_mono _ _ Hv Hle) as Hl.
    rewrite (ilog2_unique (2 ^ (-1022)) (-1022)) in Hl;
      [| apply Qle_refl | apply pow2_lt; lia].
    unfold exponent. lia.
Qed.

Lemma round_of_pos (x : Q) : 0 < x -> round x == round_pos x.
Proof.
  intro H. unfold round. pose proof (Qred_sign x) as S.
  pose proof (Qred_correct x) as E.
  destruct (Qnum (Qred x)); [lra | | lra].
  apply round_pos_comp; [apply S | exact E].
Qed.

Lemma round_round_pos (x : Q) : 0 < x -> round (round x) == round x.
Proof.
  intro H. pose proof (round_of_pos x H) as E.
  pose proof (round_pos_nonneg x H) as H0.
  destruct (Qeq_dec (round_pos x) 0) as [Z0 | NZ].
  - rewrite (round_comp (round x) 0) by lra. rewrite round_0. lra.
  - assert (Hr : 0 < round_pos x) by lra.
    rewrite (round_comp (round x) (round_pos x) E).
    rewrite (round_of_pos _ Hr), E. apply round_pos_fixed; assumption.
Qed.

Lemma round_round (x : Q) : round (round x) == round x.
Proof.
  destruct (Qlt_le_dec 0 x) as [P | NP]; [apply round_round_pos, P|].
  destruct (Qeq_dec x 0) as [Z0 | NZ].
  - rewrite (round_comp x 0 Z0). rewrite round_0. reflexivity.
  - assert (N : 0 < - x) by lra.
    pose proof (round_round_pos (- x) N) as H.
    pose proof (round_opp x) as O.
    rewrite (round_comp (round (- x)) (- round x) O) in H.
    rewrite round_opp in H. lra.
Qed.

(** A comparison of a binary64 number with a literal is the comparison
    with the number the literal denotes, when the literal is not rounded
    down. *)
Lemma literal_le (t x : Q) :
  t <= round t -> (round t <= round x <-> t <= round x).
Proof.
  intro Ht. split; intro H.
  - lra.
  - rewrite <- (round_round x). apply round_mono. exact H.
Qed.

(** *** Bounds and finiteness *)

Lemma round_bounds (lo hi x : Q) :
  round lo == lo -> round hi == hi -> lo <= x <= hi ->
  lo <= round x <= hi.
Proof.
  intros El Eh [H1 H2]. rewrite <- El, <- Eh.
  split; apply round_mono; assumption.
Qed.

Lemma is_finite_iff (x : Q) :
  is_finite x = true <-> - 2 ^ 1024 < x < 2 ^ 1024.
Proof.
  unfold is_finite. rewrite PyNumFacts.Qltb_true. split.
  - intro H. apply Qabs_Qlt_condition. exact H.
  - intro H. apply Qabs_Qlt_condition. exact H.
Qed.

Lemma fits_within (b x : Q) :
  round b == b -> round (- b) == - b -> b < 2 ^ 1024 ->
  - b <= x <= b -> fits x = true.
Proof.
  intros Eb En Hb Hx. unfold fits. apply is_finite_iff.
  pose proof (round_bounds (- b) b x En Eb Hx). lra.
Qed.

Lemma round_pow2_1000 : round (2 ^ 1000) == 2 ^ 1000.
Proof. vm_compute. reflexivity. Qed.

Lemma round_opp_pow2_1000 : round (- 2 ^ 1000) == - 2 ^ 1000.
Proof. vm_compute. reflexivity. Qed.

Lemma pow2_1000_Z : inject_Z (2 ^ 1000) == 2 ^ 1000.
Proof. apply pow2_Z. lia. Qed.

(** An [int] of magnitude up to [2 ^ 1000] converts. *)
Lemma fits_int (z : Z) : (Z.abs z <= 2 ^ 1000)%Z -> fits (inject_Z z) = true.
Proof.
  intro H.
  apply (fits_within (2 ^ 1000));
    [exact round_pow2_1000 | exact round_opp_pow2_1000
    | apply pow2_lt; lia |].
  rewrite <- pow2_1000_Z, <- inject_Z_opp, <- !Zle_Qle. lia.
Qed.

(** The [int]s that convert are those of magnitude below
    [2 ^ 1024 - 2 ^ 970], half a unit in the last place above the largest
    [float]. *)
Lemma fits_int_iff (z : Z) :
  fits (inject_Z z) = true <-> (Z.abs z < 2 ^ 1024 - 2 ^ 970)%Z.
Proof.
  assert (Eup : round (inject_Z (2 ^ 1024 - 2 ^ 970)) == 2 ^ 1024)
    by (vm_compute; reflexivity).
  assert (Eun : round (inject_Z (- (2 ^ 1024 - 2 ^ 970))) == - 2 ^ 1024)
    by (vm_compute; reflexivity).
  assert (Elo : round (inject_Z (2 ^ 1024 - 2 ^ 970 - 1))
                == inject_Z (2 ^ 1024 - 2 ^ 971))
    by (vm_compute; reflexivity).
  assert (Eln : round (inject_Z (- (2 ^ 1024 - 2 ^ 970 - 1)))
                == - inject_Z (2 ^ 1024 - 2 ^ 971))
    by (vm_compute; reflexivity).
  assert (Hmax : inject_Z (2 ^ 1024 - 2 ^ 971) < 2 ^ 1024).
  { rewrite <- (pow2_Z 1024) by lia. rewrite <- Zlt_Qlt. lia. }
  unfold fits. rewrite is_finite_iff. split.
  - intros [H1 H2].
    destruct (Z_lt_le_dec (Z.abs z) (2 ^ 1024 - 2 ^ 970)) as [L | G];
      [exact L|].
    exfalso. destruct (Z_le_gt_dec 0 z) as [P | N].
    + assert (Hz : inject_Z (2 ^ 1024 - 2 ^ 970) <= inject_Z z)
        by (rewrite <- Zle_Qle; lia).
      apply round_mono in Hz. lra.
    + assert (Hz : inject_Z z <= inject_Z (- (2 ^ 1024 - 2 ^ 970)))
        by (rewrite <- Zle_Qle; lia).
      apply round_mono in Hz. lra.
  - intro H.
    assert (H1 : inject_Z (- (2 ^ 1024 - 2 ^ 970 - 1)) <= inject_Z z)
      by (rewrite <- Zle_Qle; lia).
    assert (H2 : inject_Z z <= inject_Z (2 ^ 1024 - 2 ^ 970 - 1))
      by (rewrite <- Zle_Qle; lia).
    apply round_mono in H1. apply round_mono in H2. lra.
Qed.

Lemma of_int_some (z : Z) :
  fits (inject_Z z) = true -> of_int z = Some (round (inject_Z z)).
Proof. intro H. unfold of_int. rewrite H. reflexivity. Qed.

Lemma py_int_nonneg (x : Q) : 0 <= x -> py_int x = Qfloor x.
Proof.
  intro H. unfold py_int, Qfloor. destruct x as [n d]. cbn [Qnum Qden].
  apply Z.quot_div_nonneg; [unfold Qle in H; simpl in H; lia | lia].
Qed.

Lemma py_int_bounds (x : Q) (b : Z) :
  0 <= x <= inject_Z b -> (0 <= py_int x <= b)%Z.
Proof.
  intros [H1 H2]. rewrite py_int_nonneg by exact H1. split.
  - rewrite <- (Qfloor_Z 0). apply Qfloor_resp_le. exact H1.
  - rewrite <- (Qfloor_Z b). apply Qfloor_resp_le. exact H2.
Qed.

End Float64Facts.

(** ** Experience matching *)

Module ExperienceFacts.
Import PyNum ExperienceMatchingTool.
Local Open Scope string_scope.

Lemma dev_level_range (s : string) : (1 <= dev_level_of s <= 4)%Z.
Proof.
  unfold dev_level_of, experience_levels, get.
  repeat match goal with
         | |- context [String.eqb ?a ?b] => destruct (String.eqb a b)
         end; lia.
Qed.

Lemma bounty_level_range (s : string) : (1 <= bounty_level_of s <= 4)%Z.
Proof.
  unfold bounty_level_of, difficulty_levels, get.
  repeat match goal with
         | |- context [String.eqb ?a ?b] => destruct (String.eqb a b)
         end; lia.
Qed.

Lemma level_diff_range (dev diff : string) :
  (0 <= level_diff_of dev diff <= 3)%Z.
Proof.
  unfold level_diff_of.
  pose proof (dev_level_range dev). pose proof (bounty_level_range diff). lia.
Qed.

Lemma level_diff_enum (dev diff : string) :
  level_diff_of dev diff = 0%Z \/ level_diff_of dev diff = 1%Z \/
  level_diff_of dev diff = 2%Z \/ level_diff_of dev diff = 3%Z.
Proof. pose proof (level_diff_range dev diff). lia. Qed.

(** The base score at the four level differences that occur. *)
Lemma base_score_values :
  base_score_of 0 == 1 /\ base_score_of 1 == 0.75 /\
  base_score_of 2 == 0.5 /\ base_score_of 3 == 0.25.
Proof. repeat split; vm_compute; reflexivity. Qed.

Lemma reputation_multiplier_positive (rep : Q) :
  0 <= rep -> 0.7 <= 0.7 + 0.3 * py_min 1 (rep / 10).
Proof.
  intro H. minmax_cases; qlra.
Qed.

Lemma experience_run_range (dev diff : string) (rep : Q) :
  0 <= rep -> 0 <= _run dev diff rep <= 1.
Proof.
  intro Hrep. unfold _run, adjust.
  assert (Hm : 0.7 <= 0.7 + 0.3 * py_min 1 (rep / 10) <= 1).
  { split; [apply reputation_multiplier_positive; exact Hrep|].
    minmax_cases; qlra. }
  set (m := 0.7 + 0.3 * py_min 1 (rep / 10)) in *.
  destruct base_score_values as [H0 [H1 [H2 H3]]].
  destruct (level_diff_enum dev diff) as [E | [E | [E | E]]];
    rewrite E, ?H0, ?H1, ?H2, ?H3; lra.
Qed.

(** C3, as the code has it.  For labels of equal level the base score is 1
    whatever the reputation, and the experience score is
    0.7 + 0.3 * min(1, reputation / 10): it is 1 exactly from reputation 10
    on and below 1 otherwise.  For a reputation that is not negative, a pair
    of labels with a larger level difference (the differences are 0, 1, 2
    and 3) has a strictly smaller score. *)
Theorem experience_score_equal_levels_and_monotone
    (dev diff dev' diff' : string) (rep : Q) :
  (dev_level_of dev = bounty_level_of diff ->
     base_score_of (level_diff_of dev diff) == 1 /\
     _run dev diff rep == 0.7 + 0.3 * Qmin 1 (rep / 10) /\
     (10 <= rep -> _run dev diff rep == 1) /\
     (rep < 10 -> _run dev diff rep < 1)) /\
  (0 <= rep ->
   (level_diff_of dev diff < level_diff_of dev' diff')%Z ->
   _run dev' diff' rep < _run dev diff rep).
Proof.
  split.
  - intro Heq.
    assert (Hd : level_diff_of dev diff = 0%Z).
    { unfold level_diff_of. rewrite Heq. rewrite Z.sub_diag. reflexivity. }
    unfold _run, adjust. rewrite Hd.
    destruct base_score_values as [H0 _].
    split; [|split; [|split]].
    + exact H0.
    + rewrite H0, PyNumFacts.py_min_Qmin. qlra.
    + intro Hrep. rewrite H0. minmax_cases; qlra.
    + intro Hrep. rewrite H0. minmax_cases; qlra.
  - intros Hrep Hlt.
    pose proof (reputation_multiplier_positive rep Hrep) as Hm.
    unfold _run, adjust.
    set (m := 0.7 + 0.3 * py_min 1 (rep / 10)) in *.
    destruct base_score_values as [H0 [H1 [H2 H3]]].
    destruct (level_diff_enum dev diff) as [E | [E | [E | E]]];
      destruct (level_diff_enum dev' diff') as [E' | [E' | [E' | E']]];
      rewrite E, E' in *; try lia;
      rewrite ?H0, ?H1, ?H2, ?H3; lra.
Qed.

(** Equal levels with reputation 0 score 0.7, not 1; and below a reputation
    of -70/3 the reputation multiplier is negative, so that the score grows
    with the level difference. *)
Lemma experience_score_equal_levels_below_one :
  dev_level_of "senior" = bounty_level_of "hard" /\
  _run "senior" "hard" 0 == 0.7 /\
  ~ _run "senior" "hard" 0 == 1 /\
  (level_diff_of "senior" "hard" < level_diff_of "senior" "medium")%Z /\
  _run "senior" "hard" (-30) < _run "senior" "medium" (-30).
Proof.
  split; [reflexivity|].
  split; [vm_compute; reflexivity|].
  split; [intro H; vm_compute in H; discriminate H|].
  split; vm_compute; reflexivity.
Qed.

(** The scenario of the mock data: senior against medium at reputation
    8.5 is 0.75 * 0.955. *)
Example experience_of_the_mock_pair :
  _run "senior" "medium" 8.5 == 0.71625 /\
  _run "SENIOR" "Medium" 8.5 == 0.71625 /\
  _run "wizard" "unknown" 10 == 1.
Proof. repeat split; vm_compute; reflexivity. Qed.

Lemma experience_score_witness :
  _run "senior" "hard" 10 == 1 /\
  _run "junior" "expert" 5 < _run "junior" "easy" 5.
Proof.
  split.
  - destruct (experience_score_equal_levels_and_monotone
                "senior" "hard" "senior" "hard" 10) as [H _].
    destruct (H eq_refl) as (_ & _ & H10 & _).
    apply H10. unfold Qle. simpl. lia.
  - destruct (experience_score_equal_levels_and_monotone
                "junior" "easy" "junior" "expert" 5) as [_ H].
    apply H; [unfold Qle; simpl; lia | reflexivity].
Defined.

End ExperienceFacts.

(** ** Success probability *)

Module SuccessProbabilityFacts.
Import PyNum Schemas BountyMatchingAgent.

Lemma success_factor_range (sr rep : Q) :
  0 <= sr <= 1 -> 0 <= rep ->
  0.5 <= 0.5 + 0.3 * sr + 0.2 * py_min 1 (rep / 10) <= 1.
Proof.
  intros Hsr Hrep. minmax_cases; qlra.
Qed.

Lemma success_probability_range (developer : DeveloperProfile.t)
    (bounty : BountyRequirements.t) (c : Q) :
  0 <= DeveloperProfile.success_rate developer <= 1 ->
  0 <= DeveloperProfile.reputation_score developer ->
  0 <= c ->
  0 <= _calculate_success_probability developer bounty c <= 1.
Proof.
  intros Hsr Hrep Hc. unfold _calculate_success_probability.
  pose proof (success_factor_range _ _ Hsr Hrep) as [Hf _].
  set (f := 0.5 + 0.3 * DeveloperProfile.success_rate developer
            + 0.2 * py_min 1 (DeveloperProfile.reputation_score developer / 10))
    in *.
  assert (Hprod : 0 <= c * f) by (apply Qmult_le_0_compat; lra).
  destruct (PyNumFacts.py_min_cases 1 (c * f)) as [[H ->] | [H ->]]; lra.
Qed.

Lemma literal_factors :
  (1 # 2) <= Float64.round 0.8 <= 1 /\
  0 <= Float64.round 1.3 <= 2 /\ 0 <= Float64.round 1.2 <= 2.
Proof. vm_compute. repeat split; discriminate. Qed.

Lemma rounded_constants :
  Float64.round 1 == 1 /\ Float64.round (1 # 2) == 1 # 2 /\
  Float64.round (2 ^ 1001) == 2 ^ 1001 /\
  Float64.round (2 ^ 1004) == 2 ^ 1004 /\
  Float64.round (2 ^ 1005) == 2 ^ 1005.
Proof. vm_compute. repeat split; reflexivity. Qed.

Lemma hours_as_float (h : Z) :
  (0 < h <= 2 ^ 1000)%Z ->
  exists x : Q, Float64.of_int h = Some x /\ 1 <= x <= 2 ^ 1000.
Proof.
  intro H. rewrite Float64Facts.of_int_some
    by (apply Float64Facts.fits_int; lia).
  eexists. split; [reflexivity|].
  apply Float64Facts.round_bounds;
    [apply rounded_constants | apply Float64Facts.round_pow2_1000 |].
  rewrite <- Float64Facts.pow2_1000_Z. change 1 with (inject_Z 1).
  rewrite <- !Zle_Qle. lia.
Qed.

Lemma to_int_returns (x : Q) (k : Z) :
  (0 <= k < 1024)%Z -> 0 <= x <= 2 ^ k ->
  exists d : Z, Float64.to_int x = Some d /\ (0 <= d <= 2 ^ k)%Z.
Proof.
  intros Hk Hx. unfold Float64.to_int.
  assert (Hp : 2 ^ k < 2 ^ 1024) by (apply Float64Facts.pow2_lt; lia).
  assert (F : Float64.is_finite x = true).
  { apply Float64Facts.is_finite_iff.
    pose proof (Float64Facts.pow2_pos 1024). lra. }
  rewrite F. eexists. split; [reflexivity|].
  apply Float64Facts.py_int_bounds.
  rewrite Float64Facts.pow2_Z by lia. exact Hx.
Qed.

Lemma with_buffer_returns (days : Z) (factor : Q) :
  (0 <= days <= 2 ^ 1004)%Z -> 0 <= Float64.round factor <= 2 ->
  exists d : Z, with_buffer days factor = Some d /\ (0 <= d)%Z.
Proof.
  intros Hd Hf. unfold with_buffer.
  rewrite Float64Facts.of_int_some
    by (apply Float64Facts.fits_int_iff; lia).
  cbn [bind].
  assert (Hx : 0 <= Float64.round (inject_Z days) <= 2 ^ 1004).
  { apply Float64Facts.round_bounds;
      [reflexivity | apply rounded_constants |].
    rewrite <- (Float64Facts.pow2_Z 1004) by lia.
    change 0 with (inject_Z 0). rewrite <- !Zle_Qle. lia. }
  set (x := Float64.round (inject_Z days)) in *.
  set (f := Float64.round factor) in *.
  destruct (to_int_returns (Float64.mul x f) 1005 ltac:(lia)) as (d & E & Hd').
  { unfold Float64.mul. apply Float64Facts.round_bounds;
      [reflexivity | apply rounded_constants |].
    assert (E5 : 2 ^ 1005 == 2 * 2 ^ 1004)
      by exact (Float64Facts.pow2_succ 1004).
    rewrite E5. set (b := 2 ^ 1004) in *. clearbody b. nra. }
  exists d. split; [exact E | lia].
Qed.

(** Within the data model the timeline is computed. *)
Lemma estimate_timeline_returns (bounty : BountyRequirements.t)
    (developer : DeveloperProfile.t) :
  (forall h, BountyRequirements.estimated_hours bounty = Some h ->
             (0 <= h <= 2 ^ 1000)%Z) ->
  (forall h, DeveloperProfile.availability_hours developer = Some h ->
             (0 <= h <= 2 ^ 1000)%Z) ->
  exists t : option Z, _estimate_timeline bounty developer = Some t.
Proof.
  intros He Ha. unfold _estimate_timeline.
  destruct (BountyRequirements.estimated_hours bounty) as [eh|];
    [|eexists; reflexivity].
  destruct (DeveloperProfile.availability_hours developer) as [ah|];
    [|eexists; reflexivity].
  destruct ((eh =? 0)%Z || (ah =? 0)%Z) eqn:E; [eexists; reflexivity|].
  apply orb_false_iff in E. destruct E as [Ee Ea].
  apply Z.eqb_neq in Ee. apply Z.eqb_neq in Ea.
  specialize (He eh eq_refl). specialize (Ha ah eq_refl).
  destruct (hours_as_float ah ltac:(lia)) as (a & -> & Ha1).
  destruct (hours_as_float eh ltac:(lia)) as (e & -> & He1).
  cbn [bind].
  pose proof literal_factors as (H8 & H13 & H12).
  pose proof rounded_constants as (R1 & Rh & R1001 & R1004 & R1005).
  set (d8 := Float64.round 0.8) in *.
  assert (Hw : (1 # 2) <= Float64.mul a d8 <= 2 ^ 1000).
  { unfold Float64.mul. apply Float64Facts.round_bounds;
      [exact Rh | apply Float64Facts.round_pow2_1000 |].
    set (b := 2 ^ 1000) in *. clearbody b. nra. }
  set (weekly := Float64.mul a d8) in *.
  unfold Float64.py_div.
  destruct (Qeq_bool weekly 0) eqn:Ez;
    [apply Qeq_bool_iff in Ez; exfalso; lra|].
  cbn [bind].
  assert (Hq : 0 <= Float64.div e weekly <= 2 ^ 1001).
  { unfold Float64.div. apply Float64Facts.round_bounds;
      [reflexivity | exact R1001 |].
    assert (E1 : 2 ^ 1001 == 2 * 2 ^ 1000)
      by exact (Float64Facts.pow2_succ 1000).
    rewrite E1. split.
    - apply Qle_shift_div_l; lra.
    - apply Qle_shift_div_r; [lra|].
      set (b := 2 ^ 1000) in *. clearbody b. nra. }
  set (weeks := Float64.div e weekly) in *.
  destruct (to_int_returns (Float64.mul weeks 7) 1004 ltac:(lia))
    as (days & -> & Hdays).
  { unfold Float64.mul. apply Float64Facts.round_bounds;
      [reflexivity | exact R1004 |].
    assert (E4 : 2 ^ 1004 == 8 * 2 ^ 1001)
      by exact (Float64Facts.pow2_plus 3 1001).
    rewrite E4. set (b := 2 ^ 1001) in *. clearbody b. lra. }
  cbn [bind].
  destruct (String.eqb (BountyRequirements.difficulty_level bounty) "expert").
  { destruct (with_buffer_returns days 1.3 Hdays H13) as (d & -> & _).
    eexists. reflexivity. }
  destruct (String.eqb (BountyRequirements.difficulty_level bounty) "hard").
  { destruct (with_buffer_returns days 1.2 Hdays H12) as (d & -> & _).
    eexists. reflexivity. }
  eexists. reflexivity.
Qed.

(** What a timeline that is computed holds. *)
Lemma estimate_timeline_value (bounty : BountyRequirements.t)
    (developer : DeveloperProfile.t) (t : option Z) :
  _estimate_timeline bounty developer = Some t ->
  (t = None <->
   AvailabilityMatchingTool.falsy (BountyRequirements.estimated_hours bounty)
   || AvailabilityMatchingTool.falsy
        (DeveloperProfile.availability_hours developer) = true) /\
  (forall days : Z, t = Some days -> (7 <= days)%Z).
Proof.
  unfold _estimate_timeline.
  destruct (BountyRequirements.estimated_hours bounty) as [eh|];
    [|intro H; injection H as <-; cbn;
      split; [tauto | discriminate]].
  destruct (DeveloperProfile.availability_hours developer) as [ah|];
    [|intro H; injection H as <-; cbn; rewrite orb_true_r;
      split; [tauto | discriminate]].
  cbn [AvailabilityMatchingTool.falsy].
  destruct ((eh =? 0)%Z || (ah =? 0)%Z);
    [intro H; injection H as <-; split; [tauto | discriminate]|].
  destruct (Float64.of_int ah) as [a|]; [|discriminate]. cbn [bind].
  destruct (Float64.of_int eh) as [e|]; [|discriminate]. cbn [bind].
  destruct (Float64.py_div _ _) as [w|]; [|discriminate]. cbn [bind].
  destruct (Float64.to_int _) as [d|]; [|discriminate]. cbn [bind].
  match goal with
  | |- PyNum.bind ?c _ = _ -> _ => destruct c as [d'|]; [|discriminate]
  end.
  cbn [bind]. intro H. injection H as <-.
  split; [split; discriminate|].
  intros days H. injection H as <-. lia.
Qed.

(** A match that is returned has passed the range checks of its schema,
    and carries the success probability computed from its compatibility
    score. *)
Lemma calculate_match_fields (similarity : string -> string -> Q)
    (days_until : string -> option Z) (developer : DeveloperProfile.t)
    (bounty : BountyRequirements.t) (m : BountyMatch.t) :
  _calculate_match similarity days_until developer bounty = Some m ->
  0 <= BountyMatch.compatibility_score m <= 1 /\
  BountyMatch.success_probability m
  = _calculate_success_probability developer bounty
      (BountyMatch.compatibility_score m).
Proof.
  unfold _calculate_match.
  destruct (_calculate_availability_match days_until developer bounty)
    as [availability_score|]; [|discriminate].
  simpl bind.
  destruct (_estimate_timeline bounty developer) as [timeline|];
    [|discriminate].
  simpl bind. unfold BountyMatch.new.
  match goal with
  | |- (if ?c then _ else _) = _ -> _ => destruct c eqn:E; [|discriminate]
  end.
  intro H. injection H as <-. cbn.
  do 4 (apply andb_true_iff in E; destruct E as [E _]).
  unfold in_range in E. apply andb_true_iff in E. destruct E as [E1 E2].
  apply Qle_bool_iff in E1. apply Qle_bool_iff in E2.
  repeat split; assumption.
Qed.

(** C6, as the code has it.  The success probability is
    compatibility * (0.5 + 0.3 * success_rate + 0.2 * min(1, reputation/10))
    clamped to at most 1; for a success rate in [0,1], a reputation that is
    not negative and a compatibility score that is not negative it does not
    exceed the compatibility score; and the compatibility score of a match
    that the engine returns is not negative. *)
Theorem success_probability_formula_and_ceiling
    (developer : DeveloperProfile.t) (bounty : BountyRequirements.t)
    (compatibility_score : Q) :
  let sr := DeveloperProfile.success_rate developer in
  let rep := DeveloperProfile.reputation_score developer in
  let p := _calculate_success_probability developer bounty compatibility_score in
  p == Qmin 1 (compatibility_score * (0.5 + 0.3 * sr + 0.2 * Qmin 1 (rep / 10)))
  /\ p <= 1
  /\ (0 <= sr <= 1 -> 0 <= rep -> 0 <= compatibility_score ->
      p <= compatibility_score)
  /\ (0 <= sr <= 1 -> 0 <= rep ->
      forall similarity days_until (m : BountyMatch.t),
        _calculate_match similarity days_until developer bounty = Some m ->
        BountyMatch.success_probability m
        <= BountyMatch.compatibility_score m).
Proof.
  intros sr rep p. subst p.
  assert (Hceil : forall c : Q,
            0 <= sr <= 1 -> 0 <= rep -> 0 <= c ->
            _calculate_success_probability developer bounty c <= c).
  { intros c Hsr Hrep Hc. unfold _calculate_success_probability. fold sr rep.
    pose proof (success_factor_range sr rep Hsr Hrep) as [_ Hf].
    set (f := 0.5 + 0.3 * sr + 0.2 * py_min 1 (rep / 10)) in *.
    assert (Hprod : c * f <= c * 1).
    { rewrite (Qmult_comm c f). rewrite (Qmult_comm c 1).
      apply Qmult_le_compat_r; assumption. }
    destruct (PyNumFacts.py_min_cases 1 (c * f)) as [[H ->] | [H ->]]; lra. }
  split; [|split; [|split; [apply Hceil|]]].
  3: { intros Hsr Hrep similarity days_until m Hm.
       destruct (calculate_match_fields _ _ _ _ _ Hm) as [[Hc _] ->].
       apply Hceil; assumption. }
  all: unfold _calculate_success_probability; fold sr rep.
  - rewrite PyNumFacts.py_min_Qmin.
    apply Q.min_compat; [reflexivity|].
    rewrite PyNumFacts.py_min_Qmin. reflexivity.
  - match goal with
    | |- py_min ?a ?b <= _ =>
        destruct (PyNumFacts.py_min_cases a b) as [[H ->] | [H ->]]; lra
    end.
Qed.

(** With compatibility -1 and a developer of success rate 0 and reputation
    0 the success probability is -1/2, above the compatibility score.  A
    negative compatibility score does reach the function: under the
    embedding [Examples.signed] the weighted sum that [_calculate_match]
    passes on for the newcomer and the Rust bounty is -79/400, and the
    success probability computed from it is -79/800. *)
Lemma success_probability_above_negative_compatibility :
  0 <= DeveloperProfile.success_rate Examples.newcomer <= 1 /\
  0 <= DeveloperProfile.reputation_score Examples.newcomer /\
  _calculate_success_probability Examples.newcomer Examples.some_bounty (-1)
    == - (1 # 2) /\
  ~ _calculate_success_probability Examples.newcomer Examples.some_bounty (-1)
    <= -1 /\
  let skill :=
    _calculate_skill_match Examples.signed
      (DeveloperProfile.skills Examples.newcomer)
      (BountyRequirements.required_skills Examples.rust_bounty) in
  let experience :=
    _calculate_experience_match Examples.newcomer Examples.rust_bounty in
  let compatibility := skill * 0.4 + experience * 0.3 + 0.5 * 0.3 in
  _calculate_availability_match (fun _ => None) Examples.newcomer
    Examples.rust_bounty = Some 0.5 /\
  compatibility == - (79 # 400) /\
  _calculate_success_probability Examples.newcomer Examples.rust_bounty
    compatibility == - (79 # 800) /\
  ~ _calculate_success_probability Examples.newcomer Examples.rust_bounty
      compatibility <= compatibility.
Proof.
  split; [split; vm_compute; discriminate|].
  split; [vm_compute; discriminate|].
  split; [vm_compute; reflexivity|].
  split; [intro H; vm_compute in H; apply H; reflexivity|].
  split; [reflexivity|].
  split; [vm_compute; reflexivity|].
  split; [vm_compute; reflexivity|].
  intro H. vm_compute in H. apply H. reflexivity.
Qed.

Lemma success_probability_witness :
  _calculate_success_probability Examples.veteran Examples.some_bounty 0.6
    <= 0.6.
Proof.
  destruct (success_probability_formula_and_ceiling
              Examples.veteran Examples.some_bounty 0.6) as (_ & _ & H & _).
  apply H.
  - split; vm_compute; discriminate.
  - vm_compute; discriminate.
  - vm_compute; discriminate.
Defined.

End SuccessProbabilityFacts.

(** ** Confidence tiers *)

Module ConfidenceFacts.
Import PyNum Schemas.

(** A chain of three descending thresholds [t3 > t2 > t1] on one score. *)
Lemma tier_of_thresholds (x t1 t2 t3 : Q) :
  t1 < t2 -> t2 < t3 ->
  let tier := if Qgeb x t3 then VERY_HIGH
              else if Qgeb x t2 then HIGH
              else if Qgeb x t1 then MEDIUM
              else LOW in
  (tier = VERY_HIGH <-> t3 <= x) /\
  (tier = HIGH <-> t2 <= x < t3) /\
  (tier = MEDIUM <-> t1 <= x < t2) /\
  (tier = LOW <-> x < t1).
Proof.
  intros H12 H23 tier. subst tier.
  threshold_cases; repeat split; intros; try discriminate; try lra.
Qed.

Lemma tier_of_thresholds_monotone (x y t1 t2 t3 : Q) :
  t1 < t2 -> t2 < t3 -> x <= y ->
  (rank (if Qgeb x t3 then VERY_HIGH
         else if Qgeb x t2 then HIGH
         else if Qgeb x t1 then MEDIUM
         else LOW)
   <= rank (if Qgeb y t3 then VERY_HIGH
            else if Qgeb y t2 then HIGH
            else if Qgeb y t1 then MEDIUM
            else LOW))%nat.
Proof.
  intros H12 H23 Hxy.
  threshold_cases; simpl; try lia; exfalso; lra.
Qed.

(** The same chain on a binary64 number, with thresholds written as
    literals that are not rounded down: the comparison with the literal's
    binary64 number is the comparison with the literal. *)
Lemma tier_of_literals (y t1 t2 t3 : Q) :
  t1 <= Float64.round t1 -> t2 <= Float64.round t2 ->
  t3 <= Float64.round t3 ->
  Float64.round t1 < Float64.round t2 ->
  Float64.round t2 < Float64.round t3 ->
  let x := Float64.round y in
  let tier := if Qgeb x (Float64.round t3) then VERY_HIGH
              else if Qgeb x (Float64.round t2) then HIGH
              else if Qgeb x (Float64.round t1) then MEDIUM
              else LOW in
  (tier = VERY_HIGH <-> t3 <= x) /\
  (tier = HIGH <-> t2 <= x < t3) /\
  (tier = MEDIUM <-> t1 <= x < t2) /\
  (tier = LOW <-> x < t1).
Proof.
  intros L1 L2 L3 H12 H23 x tier.
  pose proof (tier_of_thresholds x _ _ _ H12 H23) as H. cbv zeta in H.
  fold tier in H. destruct H as (Hv & Hh & Hm & Hl).
  pose proof (Float64Facts.literal_le t1 y L1) as E1.
  pose proof (Float64Facts.literal_le t2 y L2) as E2.
  pose proof (Float64Facts.literal_le t3 y L3) as E3.
  fold x in E1, E2, E3.
  assert (N1 : x < Float64.round t1 <-> x < t1).
  { split; intro H; apply Qnot_le_lt; intro G; apply E1 in G; lra. }
  assert (N2 : x < Float64.round t2 <-> x < t2).
  { split; intro H; apply Qnot_le_lt; intro G; apply E2 in G; lra. }
  assert (N3 : x < Float64.round t3 <-> x < t3).
  { split; intro H; apply Qnot_le_lt; intro G; apply E3 in G; lra. }
  rewrite Hv, Hh, Hm, Hl. tauto.
Qed.

Lemma literals_of_the_thresholds :
  0.5 <= Float64.round 0.5 /\ 0.65 <= Float64.round 0.65 /\
  0.8 <= Float64.round 0.8 /\
  Float64.round 0.5 < Float64.round 0.65 /\
  Float64.round 0.65 < Float64.round 0.8.
Proof. vm_compute. repeat split; first [discriminate | reflexivity]. Qed.

Lemma depth_factor_nonneg (n : Z) : 0 <= QualityAssessmentAgent.depth_factor n.
Proof.
  unfold QualityAssessmentAgent.depth_factor.
  destruct (10 <=? n)%Z; [|destruct (5 <=? n)%Z];
    vm_compute; discriminate.
Qed.

(** C8.  The scores are binary64 numbers and so is the average that the
    code computes from them, the rounded sum halved.  On the match path
    the tier of that average is very_high from 0.8, high from 0.65, medium
    from 0.5 and low below; on the quality path the same holds for the
    product, as computed, of the overall score and the depth factor (1.0
    from 10 files, the binary64 numbers of 0.9 from 5 and of 0.8 below)
    with the thresholds 85, 70 and 55.  On both paths a larger computed
    average or product never has a lower tier, and neither have larger
    scores. *)
Theorem confidence_tier_thresholds_and_monotone :
  (forall c s : Q,
     let avg := Float64.div (Float64.add c s) 2 in
     let tier := BountyMatchingAgent._determine_confidence_level c s in
     (tier = VERY_HIGH <-> 0.8 <= avg) /\
     (tier = HIGH <-> 0.65 <= avg < 0.8) /\
     (tier = MEDIUM <-> 0.5 <= avg < 0.65) /\
     (tier = LOW <-> avg < 0.5)) /\
  (forall c1 s1 c2 s2 : Q,
     Float64.div (Float64.add c1 s1) 2 <= Float64.div (Float64.add c2 s2) 2 ->
     (rank (BountyMatchingAgent._determine_confidence_level c1 s1)
      <= rank (BountyMatchingAgent._determine_confidence_level c2 s2))%nat) /\
  (forall c1 s1 c2 s2 : Q,
     c1 <= c2 -> s1 <= s2 ->
     (rank (BountyMatchingAgent._determine_confidence_level c1 s1)
      <= rank (BountyMatchingAgent._determine_confidence_level c2 s2))%nat) /\
  (forall (m : CodeQualityMetrics.t) (n : Z),
     let adjusted :=
       Float64.mul (CodeQualityMetrics.overall_score m)
         (QualityAssessmentAgent.depth_factor n) in
     let tier := QualityAssessmentAgent._determine_confidence_level m n in
     (tier = VERY_HIGH <-> 85 <= adjusted) /\
     (tier = HIGH <-> 70 <= adjusted < 85) /\
     (tier = MEDIUM <-> 55 <= adjusted < 70) /\
     (tier = LOW <-> adjusted < 55)) /\
  (forall (m1 m2 : CodeQualityMetrics.t) (n1 n2 : Z),
     Float64.mul (CodeQualityMetrics.overall_score m1)
       (QualityAssessmentAgent.depth_factor n1)
     <= Float64.mul (CodeQualityMetrics.overall_score m2)
          (QualityAssessmentAgent.depth_factor n2) ->
     (rank (QualityAssessmentAgent._determine_confidence_level m1 n1)
      <= rank (QualityAssessmentAgent._determine_confidence_level m2 n2))%nat) /\
  (forall (m1 m2 : CodeQualityMetrics.t) (n : Z),
     CodeQualityMetrics.overall_score m1 <= CodeQualityMetrics.overall_score m2 ->
     (rank (QualityAssessmentAgent._determine_confidence_level m1 n)
      <= rank (QualityAssessmentAgent._determine_confidence_level m2 n))%nat) /\
  (forall n : Z,
     ((10 <= n)%Z -> QualityAssessmentAgent.depth_factor n == 1) /\
     ((5 <= n < 10)%Z ->
      QualityAssessmentAgent.depth_factor n = Float64.round 0.9) /\
     ((n < 5)%Z ->
      QualityAssessmentAgent.depth_factor n = Float64.round 0.8)).
Proof.
  pose proof literals_of_the_thresholds as (L1 & L2 & L3 & H12 & H23).
  assert (Hmatch : forall c1 s1 c2 s2 : Q,
             Float64.div (Float64.add c1 s1) 2
             <= Float64.div (Float64.add c2 s2) 2 ->
             (rank (BountyMatchingAgent._determine_confidence_level c1 s1)
              <= rank (BountyMatchingAgent._determine_confidence_level c2 s2))%nat).
  { intros c1 s1 c2 s2 H.
    unfold BountyMatchingAgent._determine_confidence_level.
    apply tier_of_thresholds_monotone; assumption. }
  assert (Hquality : forall (m1 m2 : CodeQualityMetrics.t) (n1 n2 : Z),
             Float64.mul (CodeQualityMetrics.overall_score m1)
               (QualityAssessmentAgent.depth_factor n1)
             <= Float64.mul (CodeQualityMetrics.overall_score m2)
                  (QualityAssessmentAgent.depth_factor n2) ->
             (rank (QualityAssessmentAgent._determine_confidence_level m1 n1)
              <= rank (QualityAssessmentAgent._determine_confidence_level
                         m2 n2))%nat).
  { intros m1 m2 n1 n2 H.
    unfold QualityAssessmentAgent._determine_confidence_level.
    apply tier_of_thresholds_monotone; first [exact H | lra]. }
  split; [|split; [|split; [|split; [|split; [|split]]]]].
  - intros c s avg tier. subst tier avg.
    unfold BountyMatchingAgent._determine_confidence_level, Float64.div.
    apply (tier_of_literals (Float64.add c s / 2)); assumption.
  - exact Hmatch.
  - intros c1 s1 c2 s2 Hc Hs. apply Hmatch.
    unfold Float64.div, Float64.add. apply Float64Facts.round_mono.
    apply Float64Facts.scaled_le with (e := 1%Z) (x := Float64.round (c1 + s1)).
    apply Float64Facts.round_mono. lra.
  - intros m n adjusted tier. subst tier.
    unfold QualityAssessmentAgent._determine_confidence_level. fold adjusted.
    apply tier_of_thresholds; lra.
  - exact Hquality.
  - intros m1 m2 n H. apply Hquality.
    unfold Float64.mul. apply Float64Facts.round_mono.
    apply Qmult_le_compat_r; [exact H | apply depth_factor_nonneg].
  - intro n. unfold QualityAssessmentAgent.depth_factor.
    destruct (10 <=? n)%Z eqn:E10; destruct (5 <=? n)%Z eqn:E5;
      repeat split; intros; try lia; reflexivity.
Qed.

(** The literals 0.7 and 0.6 have the computed average
    0.6499999999999999, below 0.65, where 1.0 and 0.3 have 0.65. *)
Lemma confidence_tier_witness :
  BountyMatchingAgent._determine_confidence_level
    (Float64.round 0.7) (Float64.round 0.6) = MEDIUM /\
  BountyMatchingAgent._determine_confidence_level
    (Float64.round 1.0) (Float64.round 0.3) = HIGH /\
  (rank (BountyMatchingAgent._determine_confidence_level 0.4 0.5)
   <= rank (BountyMatchingAgent._determine_confidence_level 0.9 0.8))%nat /\
  QualityAssessmentAgent._determine_confidence_level
    (CodeQualityMetrics.Build (Float64.round 77.77777777777777) 100 80 84 20
       70) 5 = HIGH.
Proof.
  destruct confidence_tier_thresholds_and_monotone
    as (Hm & _ & Hmono & Hq & _).
  split; [|split; [|split]].
  - apply (Hm (Float64.round 0.7) (Float64.round 0.6)).
    vm_compute. split; [discriminate | reflexivity].
  - apply (Hm (Float64.round 1.0) (Float64.round 0.3)).
    vm_compute. split; [discriminate | reflexivity].
  - apply Hmono; vm_compute; discriminate.
  - apply (Hq (CodeQualityMetrics.Build (Float64.round 77.77777777777777)
                 100 80 84 20 70) 5%Z).
    vm_compute. split; [discriminate | reflexivity].
Defined.

End ConfidenceFacts.

(** ** Availability matching *)

Module AvailabilityFacts.
Import PyNum AvailabilityMatchingTool.

Lemma falsy_iff (x : option Z) : falsy x = true <-> x = None \/ x = Some 0%Z.
Proof.
  destruct x as [z|]; simpl.
  - rewrite Z.eqb_eq. split.
    + intros ->. right. reflexivity.
    + intros [H | H]; [discriminate | congruence].
  - split; [left|]; reflexivity.
Qed.

Lemma availability_run_default (days_until : string -> option Z)
    (developer_hours estimated_hours : option Z) (deadline : string)
    (active_bounties : Z) :
  falsy developer_hours || falsy estimated_hours = true ->
  _run days_until developer_hours estimated_hours deadline active_bounties
  = Some 0.5.
Proof.
  intro H. unfold _run.
  destruct developer_hours as [dh|]; [|reflexivity].
  destruct estimated_hours as [eh|]; [|reflexivity].
  rewrite H. reflexivity.
Qed.

Lemma weeks_available_ge_1 (days : Z) : 1 <= py_max 1 (inject_Z days / 7).
Proof. minmax_cases; lra. Qed.

Lemma inject_Z_nonzero (z : Z) : z <> 0%Z -> ~ inject_Z z == 0.
Proof. intros Hz H. apply Hz. unfold Qeq in H. simpl in H. lia. Qed.

Lemma Qdiv_nonzero (a b : Q) : ~ a == 0 -> ~ b == 0 -> ~ a / b == 0.
Proof.
  intros Ha Hb H. apply Ha.
  rewrite <- (PyNumFacts.Qdiv_cancel a b Hb), H. ring.
Qed.

Lemma to_float_some (z : Z) :
  (Z.abs z < 2 ^ 1024 - 2 ^ 970)%Z -> to_float z = Some (inject_Z z).
Proof.
  intro H. unfold to_float.
  rewrite (proj2 (Float64Facts.fits_int_iff z) H). reflexivity.
Qed.

Lemma to_float_none (z : Z) :
  (2 ^ 1024 - 2 ^ 970 <= Z.abs z)%Z -> to_float z = None.
Proof.
  intro H. unfold to_float.
  destruct (Float64.fits (inject_Z z)) eqn:E; [|reflexivity].
  apply Float64Facts.fits_int_iff in E. lia.
Qed.

Lemma to_float_value (z : Z) (x : Q) : to_float z = Some x -> x = inject_Z z.
Proof.
  unfold to_float. destruct (Float64.fits (inject_Z z)); [|discriminate].
  intro H. injection H as <-. reflexivity.
Qed.

(** The path past the guard: both divisors are different from 0, and the
    score is computed when the three numbers convert. *)
Lemma availability_run_body (days_until : string -> option Z) (dh eh : Z)
    (deadline : string) (active_bounties : Z) :
  dh <> 0%Z -> eh <> 0%Z ->
  let weeks_available :=
    py_max 1 (inject_Z (days_until_deadline days_until deadline) / 7) in
  let required := inject_Z eh / weeks_available in
  let available :=
    inject_Z dh * py_max 0.1 (1 - inject_Z active_bounties * 0.2) in
  1 <= weeks_available /\ ~ required == 0 /\
  py_div (inject_Z eh) weeks_available = Some required /\
  py_div available required = Some (available / required) /\
  ((Z.abs dh < 2 ^ 1024 - 2 ^ 970)%Z ->
   (Z.abs eh < 2 ^ 1024 - 2 ^ 970)%Z ->
   (Z.abs active_bounties < 2 ^ 1024 - 2 ^ 970)%Z ->
   _run days_until (Some dh) (Some eh) deadline active_bounties
   = Some (if Qle_bool required available
           then py_min 1 (available / required)
           else py_max 0 (available / required))) /\
  ((2 ^ 1024 - 2 ^ 970 <= Z.abs dh)%Z \/
   (2 ^ 1024 - 2 ^ 970 <= Z.abs eh)%Z \/
   (2 ^ 1024 - 2 ^ 970 <= Z.abs active_bounties)%Z ->
   _run days_until (Some dh) (Some eh) deadline active_bounties = None).
Proof.
  intros Hdh Heh weeks_available required available.
  pose proof (weeks_available_ge_1 (days_until_deadline days_until deadline))
    as Hw. fold weeks_available in Hw.
  assert (Hw0 : ~ weeks_available == 0) by lra.
  assert (Hr0 : ~ required == 0).
  { apply Qdiv_nonzero; [apply inject_Z_nonzero; exact Heh | exact Hw0]. }
  assert (E1 : py_div (inject_Z eh) weeks_available = Some required)
    by (apply PyNumFacts.py_div_some; exact Hw0).
  assert (E2 : py_div available required = Some (available / required))
    by (apply PyNumFacts.py_div_some; exact Hr0).
  repeat (split; [assumption|]).
  assert (Hguard : falsy (Some dh) || falsy (Some eh) = false).
  { simpl falsy. apply Z.eqb_neq in Hdh. apply Z.eqb_neq in Heh.
    rewrite Hdh, Heh. reflexivity. }
  unfold _run. rewrite Hguard. fold weeks_available. split.
  - intros Fd Fe Fa.
    rewrite (to_float_some eh Fe). cbn [bind]. rewrite E1. cbn [bind].
    rewrite (to_float_some active_bounties Fa). cbn [bind].
    rewrite (to_float_some dh Fd). cbn [bind].
    fold available. fold required.
    destruct (Qle_bool required available); rewrite E2; reflexivity.
  - intro H.
    destruct (Z_lt_le_dec (Z.abs eh) (2 ^ 1024 - 2 ^ 970)) as [Fe | Ne];
      [|rewrite (to_float_none eh Ne); reflexivity].
    rewrite (to_float_some eh Fe). cbn [bind]. rewrite E1. cbn [bind].
    destruct (Z_lt_le_dec (Z.abs active_bounties) (2 ^ 1024 - 2 ^ 970))
      as [Fa | Na];
      [|rewrite (to_float_none active_bounties Na); reflexivity].
    rewrite (to_float_some active_bounties Fa). cbn [bind].
    rewrite (to_float_none dh); [reflexivity | lia].
Qed.

(** With hours that are not negative a score that is returned lies in
    [0,1], and it is returned when the numbers convert. *)
Lemma availability_run_range (days_until : string -> option Z)
    (developer_hours estimated_hours : option Z) (deadline : string)
    (active_bounties : Z) :
  (forall h, developer_hours = Some h -> (0 <= h < 2 ^ 1024 - 2 ^ 970)%Z) ->
  (forall h, estimated_hours = Some h -> (0 <= h < 2 ^ 1024 - 2 ^ 970)%Z) ->
  (Z.abs active_bounties < 2 ^ 1024 - 2 ^ 970)%Z ->
  exists q : Q,
    _run days_until developer_hours estimated_hours deadline active_bounties
    = Some q /\ 0 <= q <= 1.
Proof.
  intros Hd He Ha.
  destruct (falsy developer_hours || falsy estimated_hours) eqn:E.
  { exists 0.5. split; [apply availability_run_default; exact E | lra]. }
  apply orb_false_iff in E. destruct E as [Ed Ee].
  destruct developer_hours as [dh|]; [|discriminate].
  destruct estimated_hours as [eh|]; [|discriminate].
  simpl in Ed, Ee. apply Z.eqb_neq in Ed. apply Z.eqb_neq in Ee.
  specialize (Hd dh eq_refl). specialize (He eh eq_refl).
  destruct (availability_run_body days_until dh eh deadline active_bounties Ed Ee)
    as (Hw & Hr0 & _ & _ & Hrun & _).
  rewrite Hrun by lia. clear Hrun.
  set (weeks := py_max 1 (inject_Z (days_until_deadline days_until deadline) / 7))
    in *.
  set (required := inject_Z eh / weeks) in *.
  set (available := inject_Z dh * py_max 0.1 (1 - inject_Z active_bounties * 0.2)).
  assert (Heh : 0 < inject_Z eh) by (unfold Qlt; simpl; lia).
  assert (Hdh : 0 < inject_Z dh) by (unfold Qlt; simpl; lia).
  assert (Hreq : 0 < required).
  { unfold required. apply Qlt_shift_div_l; lra. }
  assert (Hwf : 0.1 <= py_max 0.1 (1 - inject_Z active_bounties * 0.2)).
  { minmax_cases; lra. }
  assert (Hav : 0 <= available).
  { unfold available. apply Qmult_le_0_compat; lra. }
  assert (Hq0 : 0 <= available / required).
  { apply Qle_shift_div_l; [exact Hreq | lra]. }
  eexists. split; [reflexivity|].
  destruct (Qle_bool required available) eqn:E.
  - destruct (PyNumFacts.py_min_cases 1 (available / required))
      as [[H ->] | [H ->]]; lra.
  - apply PyNumFacts.Qle_bool_false in E.
    assert (Hq1 : available / required < 1).
    { apply Qlt_shift_div_r; [exact Hreq | lra]. }
    destruct (PyNumFacts.py_max_cases 0 (available / required))
      as [[H ->] | [H ->]]; lra.
Qed.

(** A score that is returned past the guard is the one of the exact
    formula, whatever the sizes. *)
Lemma availability_run_value (days_until : string -> option Z) (dh eh : Z)
    (deadline : string) (active_bounties : Z) (q : Q) :
  dh <> 0%Z -> eh <> 0%Z ->
  _run days_until (Some dh) (Some eh) deadline active_bounties = Some q ->
  (Z.abs dh < 2 ^ 1024 - 2 ^ 970)%Z /\
  (Z.abs eh < 2 ^ 1024 - 2 ^ 970)%Z /\
  (Z.abs active_bounties < 2 ^ 1024 - 2 ^ 970)%Z.
Proof.
  intros Hdh Heh H.
  destruct (availability_run_body days_until dh eh deadline active_bounties
              Hdh Heh) as (_ & _ & _ & _ & _ & Hnone).
  destruct (Z_lt_le_dec (Z.abs dh) (2 ^ 1024 - 2 ^ 970)) as [Fd | Nd];
    [|rewrite Hnone in H by tauto; discriminate].
  destruct (Z_lt_le_dec (Z.abs eh) (2 ^ 1024 - 2 ^ 970)) as [Fe | Ne];
    [|rewrite Hnone in H by tauto; discriminate].
  destruct (Z_lt_le_dec (Z.abs active_bounties) (2 ^ 1024 - 2 ^ 970))
    as [Fa | Na];
    [|rewrite Hnone in H by tauto; discriminate].
  tauto.
Qed.

(** C10, as the code has it.  The scorer returns 0.5 whenever an hours
    value is falsy, that is [None] or 0.  On the remaining inputs the
    number of weeks is at least 1 and the required hours per week are not
    0, so that neither division has a zero divisor; but the scorer is not
    total: it returns a score exactly when the two hours and the number of
    active bounties are of a magnitude below [2 ^ 1024 - 2 ^ 970], and for
    a larger one the conversion to a float raises. *)
Theorem availability_default_and_total (days_until : string -> option Z)
    (developer_hours estimated_hours : option Z) (deadline : string)
    (active_bounties : Z) :
  let score :=
    _run days_until developer_hours estimated_hours deadline active_bounties in
  (developer_hours = None \/ developer_hours = Some 0%Z \/
   estimated_hours = None \/ estimated_hours = Some 0%Z ->
   score = Some 0.5) /\
  (forall dh eh : Z,
     developer_hours = Some dh -> estimated_hours = Some eh ->
     dh <> 0%Z -> eh <> 0%Z ->
     let weeks_available :=
       py_max 1 (inject_Z (days_until_deadline days_until deadline) / 7) in
     let required := inject_Z eh / weeks_available in
     let available :=
       inject_Z dh * py_max 0.1 (1 - inject_Z active_bounties * 0.2) in
     1 <= weeks_available /\ ~ required == 0 /\
     py_div (inject_Z eh) weeks_available = Some required /\
     py_div available required = Some (available / required) /\
     ((Z.abs dh < 2 ^ 1024 - 2 ^ 970)%Z ->
      (Z.abs eh < 2 ^ 1024 - 2 ^ 970)%Z ->
      (Z.abs active_bounties < 2 ^ 1024 - 2 ^ 970)%Z ->
      score = Some (if Qle_bool required available
                    then py_min 1 (available / required)
                    else py_max 0 (available / required))) /\
     ((2 ^ 1024 - 2 ^ 970 <= Z.abs dh)%Z \/
      (2 ^ 1024 - 2 ^ 970 <= Z.abs eh)%Z \/
      (2 ^ 1024 - 2 ^ 970 <= Z.abs active_bounties)%Z ->
      score = None)).
Proof.
  intro score. subst score.
  split.
  - intro H. apply availability_run_default. apply orb_true_iff.
    rewrite !falsy_iff. tauto.
  - intros dh eh -> -> Hdh Heh.
    apply availability_run_body; assumption.
Qed.

(** The claim's totality fails: ten to the power 400 hours a week are no
    float, and the product with the workload factor raises. *)
Example availability_fails_on_huge_hours :
  _run (fun _ => Some 30%Z) (Some (10 ^ 400)%Z) (Some 20%Z)
       "2030-01-01T00:00:00" 0 = None.
Proof. vm_compute. reflexivity. Qed.

(** The scenario of the mock data: 30 hours a week at a workload of 12
    leave 3 hours; 120 hours over 30 days need 28 hours a week; the score
    is 3/28. *)
Example availability_of_the_mock_pair :
  exists q : Q,
    _run (fun _ => Some 30%Z) (Some 30%Z) (Some 120%Z)
         "2030-01-01T00:00:00" 12 = Some q /\ q == 3 # 28.
Proof. eexists. split; [vm_compute; reflexivity | vm_compute; reflexivity]. Qed.

Lemma availability_witness :
  _run (fun _ => Some 29%Z) (Some 0%Z) (Some 120%Z)
       "2030-01-01T00:00:00" 12 = Some 0.5 /\
  ~ inject_Z 120
    / py_max 1 (inject_Z (days_until_deadline (fun _ => Some 29%Z)
                            "2030-01-01T00:00:00") / 7) == 0 /\
  (exists q : Q,
     _run (fun _ => Some 29%Z) (Some 30%Z) (Some 120%Z)
          "2030-01-01T00:00:00" 12 = Some q) /\
  _run (fun _ => Some 29%Z) (Some (2 ^ 1024)%Z) (Some 120%Z)
       "2030-01-01T00:00:00" 12 = None.
Proof.
  split; [|split; [|split]].
  - apply (availability_default_and_total
             (fun _ => Some 29%Z) (Some 0%Z) (Some 120%Z)).
    right. left. reflexivity.
  - destruct (availability_default_and_total
                (fun _ => Some 29%Z) (Some 30%Z) (Some 120%Z)
                "2030-01-01T00:00:00" 12) as (_ & H).
    destruct (H 30%Z 120%Z eq_refl eq_refl) as (_ & E & _);
      [discriminate | discriminate |].
    exact E.
  - destruct (availability_default_and_total
                (fun _ => Some 29%Z) (Some 30%Z) (Some 120%Z)
                "2030-01-01T00:00:00" 12) as (_ & H).
    destruct (H 30%Z 120%Z eq_refl eq_refl) as (_ & _ & _ & _ & E & _);
      [discriminate | discriminate |].
    eexists. apply E; simpl; lia.
  - destruct (availability_default_and_total
                (fun _ => Some 29%Z) (Some (2 ^ 1024)%Z) (Some 120%Z)
                "2030-01-01T00:00:00" 12) as (_ & H).
    destruct (H (2 ^ 1024)%Z 120%Z eq_refl eq_refl) as (_ & _ & _ & _ & _ & E);
      [lia | discriminate |].
    apply E. left. lia.
Defined.

End AvailabilityFacts.

(** ** Explanation synthesis *)

Module ExplanationFacts.
Import PyNum Schemas BountyMatchingAgent.
Local Open Scope string_scope.





End ExplanationFacts.

(** ** Quality metrics *)

Module QualityMetricsFacts.
Import PyNum Schemas QualityAssessmentAgent.

Lemma inject_Z_nonneg (z : Z) : (0 <= z)%Z -> 0 <= inject_Z z.
Proof. intro H. unfold Qle. simpl. lia. Qed.

Lemma in_range_true (lo hi x : Q) :
  in_range lo hi x = true <-> lo <= x <= hi.
Proof.
  unfold in_range. rewrite andb_true_iff, !Qle_bool_iff. reflexivity.
Qed.

(** The five scores and their weighted sum stay within [0,100] when the
    counts and the complexity are not negative. *)
Lemma scores_in_range (s c t d : Q) :
  0 <= s -> 0 <= c -> 0 <= t -> 0 <= d <= 100 ->
  let sec := py_max 0 (100 - s * 20) in
  let perf := py_max 0 (100 - c * 10) in
  let maint := py_max 0 (100 - c * 8 - t * 5) in
  0 <= sec <= 100 /\ 0 <= perf <= 100 /\ 0 <= maint <= 100 /\
  0 <= sec * 0.25 + perf * 0.20 + maint * 0.20 + d * 0.20 + 70 * 0.15 <= 100.
Proof.
  intros Hs Hc Ht Hd sec perf maint. subst sec perf maint.
  minmax_cases; lra.
Qed.



End QualityMetricsFacts.

(** ** Documentation analysis *)

Module DocumentationFacts.
Import PyNum PyStr DocumentationAnalysisTool.
Local Open Scope string_scope.

Lemma count_line_cases (counts : Z * Z) (line : string) :
  count_line counts line =
  if Spec.is_blank line then counts
  else if Spec.is_comment line then ((fst counts + 1)%Z, snd counts)
  else (fst counts, (snd counts + 1)%Z).
Proof.
  destruct counts as [c k]. unfold count_line, Spec.is_blank, Spec.is_comment.
  simpl fst. simpl snd.
  destruct (String.eqb (strip line) EmptyString); [reflexivity|].
  destruct (startswith (strip line) "#" || startswith (strip line) "//"
            || startswith (strip line) "/*"); [reflexivity|].
  simpl orb.
  destruct (contains triple_double_quote (strip line)
            || contains triple_single_quote (strip line)); reflexivity.
Qed.

Lemma count_loop (lines : list string) (c k : Z) :
  fold_left count_line lines (c, k) =
  ((c + Z.of_nat (List.length
        (filter (fun l => negb (Spec.is_blank l) && Spec.is_comment l) lines)))%Z,
   (k + Z.of_nat (List.length
        (filter (fun l => negb (Spec.is_blank l) && negb (Spec.is_comment l))
                lines)))%Z).
Proof.
  revert c k. induction lines as [|line lines IH]; intros c k.
  - simpl. f_equal; lia.
  - cbn [fold_left filter]. rewrite count_line_cases. simpl fst. simpl snd.
    destruct (Spec.is_blank line); simpl negb; simpl andb.
    + apply IH.
    + destruct (Spec.is_comment line); simpl negb; rewrite IH;
        cbn [List.length]; f_equal; lia.
Qed.

Lemma counts_nonneg (code : string) :
  (0 <= Spec.comment_lines code)%Z /\ (0 <= Spec.non_blank_code_lines code)%Z.
Proof. unfold Spec.comment_lines, Spec.non_blank_code_lines, Spec.count_lines. lia. Qed.

Lemma filter_conj_length {A : Type} (p q : A -> bool) (l : list A) :
  (List.length (filter (fun x => p x && q x) l)
   <= List.length (filter p l))%nat.
Proof.
  induction l as [|x l IH]; [reflexivity|].
  simpl. destruct (p x), (q x); simpl; lia.
Qed.

Lemma code_lines_le_non_blank (code : string) :
  (Spec.non_blank_code_lines code <= Spec.non_blank_lines code)%Z.
Proof.
  unfold Spec.non_blank_code_lines, Spec.non_blank_lines, Spec.count_lines.
  apply inj_le.
  apply (filter_conj_length (fun l => negb (Spec.is_blank l))
           (fun l => negb (Spec.is_comment l))).
Qed.

Lemma comment_ratio_value (code : string) :
  _calculate_comment_ratio code =
  if (Spec.non_blank_code_lines code =? 0)%Z then Some 0
  else Some (inject_Z (Spec.comment_lines code)
             / inject_Z (Spec.comment_lines code
                         + Spec.non_blank_code_lines code)).
Proof.
  unfold _calculate_comment_ratio. rewrite count_loop. rewrite !Z.add_0_l.
  fold (Spec.count_lines
          (fun l => negb (Spec.is_blank l) && Spec.is_comment l) code).
  fold (Spec.count_lines
          (fun l => negb (Spec.is_blank l) && negb (Spec.is_comment l)) code).
  fold (Spec.comment_lines code). fold (Spec.non_blank_code_lines code).
  destruct (Spec.non_blank_code_lines code =? 0)%Z eqn:E; [reflexivity|].
  apply PyNumFacts.py_div_some.
  apply Z.eqb_neq in E. pose proof (counts_nonneg code) as [Hc Hk].
  intro H. unfold Qeq in H. simpl in H. lia.
Qed.

(** C4, as the code has it.  The analyzer always returns; its comment
    ratio is 0 when no line is a code line (so also for a text whose lines
    are all comments or blank) and otherwise
    comment_lines / (comment_lines + non_blank_code_lines), blank lines
    skipped and comment lines recognised as specified; and the medium
    documentation issue is reported exactly when the ratio is below 0.1. *)
Theorem comment_ratio_guarded_by_code_lines (code readme : string) :
  exists (r : Q) (d : DocAnalysis.t),
    _calculate_comment_ratio code = Some r /\
    (Spec.non_blank_code_lines code = 0%Z -> r == 0) /\
    (Spec.non_blank_code_lines code <> 0%Z ->
     r == inject_Z (Spec.comment_lines code)
          / inject_Z (Spec.comment_lines code + Spec.non_blank_code_lines code)
     /\ r == Spec.comment_ratio code) /\
    _run code readme = Some d /\
    DocAnalysis.comment_ratio d = Some r /\
    (r < 0.1 -> DocAnalysis.issues d = [low_comment_issue]) /\
    (0.1 <= r -> DocAnalysis.issues d = []) /\
    (In low_comment_issue (DocAnalysis.issues d) <-> r < 0.1).
Proof.
  pose proof (comment_ratio_value code) as Hr.
  destruct (_calculate_comment_ratio code) as [r|] eqn:Er;
    [|destruct (Spec.non_blank_code_lines code =? 0)%Z; discriminate].
  exists r. unfold _run. rewrite Er. simpl bind.
  eexists. split; [reflexivity|].
  split; [|split; [|split; [reflexivity|split; [reflexivity|]]]].
  - intro Hk. rewrite Hk in Hr. simpl in Hr. injection Hr as ->. reflexivity.
  - intro Hk. apply Z.eqb_neq in Hk. rewrite Hk in Hr. injection Hr as ->.
    split; [reflexivity|].
    unfold Spec.comment_ratio.
    assert (Hnb : (Spec.non_blank_lines code =? 0)%Z = false).
    { apply Z.eqb_neq. apply Z.eqb_neq in Hk.
      pose proof (code_lines_le_non_blank code). pose proof (counts_nonneg code).
      lia. }
    rewrite Hnb. reflexivity.
  - simpl DocAnalysis.issues.
    destruct (Qltb r 0.1) eqn:E.
    + apply PyNumFacts.Qltb_true in E.
      split; [reflexivity|]. split; [intro; exfalso; lra|].
      split; [intros _; exact E | intros _; left; reflexivity].
    + apply PyNumFacts.Qltb_false in E.
      split; [intro; exfalso; lra|]. split; [reflexivity|].
      split; [intros [] | intro; exfalso; lra].
Qed.

(** A text of one comment line: one line that is not blank, no code line.
    The specified ratio is 1/(1+0) = 1; the code returns 0, and reports the
    low-ratio issue. *)
Lemma comment_only_text_has_ratio_zero :
  Spec.non_blank_lines Examples.comment_only = 1%Z /\
  Spec.comment_lines Examples.comment_only = 1%Z /\
  Spec.non_blank_code_lines Examples.comment_only = 0%Z /\
  Spec.comment_ratio Examples.comment_only == 1 /\
  _calculate_comment_ratio Examples.comment_only = Some 0 /\
  ~ 0 == Spec.comment_ratio Examples.comment_only.
Proof.
  split; [reflexivity|]. split; [reflexivity|]. split; [reflexivity|].
  split; [vm_compute; reflexivity|]. split; [reflexivity|].
  intro H. vm_compute in H. discriminate H.
Qed.

Lemma comment_ratio_witness :
  exists (r : Q) (d : DocAnalysis.t),
    _calculate_comment_ratio Examples.half_commented = Some r /\
    r == 1 # 2 /\
    _run Examples.half_commented EmptyString = Some d /\
    DocAnalysis.issues d = [].
Proof.
  destruct (comment_ratio_guarded_by_code_lines
              Examples.half_commented EmptyString)
    as (r & d & Hr & _ & Hk & Hrun & _ & _ & Hnone & _).
  assert (E : r == 1 # 2).
  { destruct Hk as [-> _]; [vm_compute; discriminate | vm_compute; reflexivity]. }
  exists r, d. split; [exact Hr|]. split; [exact E|]. split; [exact Hrun|].
  apply Hnone. rewrite E. vm_compute. discriminate.
Defined.

End DocumentationFacts.

(** ** Python code analysis *)

Module PythonAnalysisFacts.
Import PyNum PyStr PyAst CodeAnalysisTool.
Local Open Scope string_scope.

(** What the four scans leave in an empty issue list. *)
Lemma security_scans_content (code : string) :
  (In eval_issue (security_scans code []) <-> contains "eval(" code = true) /\
  (In exec_issue (security_scans code []) <-> contains "exec(" code = true) /\
  (In sql_injection_issue (security_scans code [])
   <-> Re.search sql_injection_pattern code = true) /\
  (In hardcoded_secret_issue (security_scans code [])
   <-> Re.search hardcoded_secret_pattern code = true) /\
  Forall (fun i => Issue.type i = "security") (security_scans code []).
Proof.
  unfold security_scans, append_if.
  destruct (contains "eval(" code), (contains "exec(" code),
    (Re.search sql_injection_pattern code),
    (Re.search hardcoded_secret_pattern code); simpl;
    repeat split;
    try (intros _; tauto);
    try (intro H; repeat destruct H as [H | H]; try discriminate H;
         try contradiction; reflexivity);
    repeat constructor.
Qed.

Lemma count_type_all (ty : string) (issues : list Issue.t) :
  Forall (fun i => Issue.type i = ty) issues ->
  count_type ty issues = Z.of_nat (List.length issues).
Proof.
  intro H. unfold count_type. f_equal. f_equal.
  induction H as [|i l Hi _ IH]; [reflexivity|].
  simpl. rewrite Hi, String.eqb_refl, IH. reflexivity.
Qed.

(** The two patterns on sample lines. *)
Example patterns_on_sample_lines :
  Re.search sql_injection_pattern "cur.execute ('SELECT %s' % name)" = true /\
  Re.search sql_injection_pattern "cur.execute('SELECT 1', name)" = false /\
  Re.search sql_injection_pattern "execute_all('%d')" = false /\
  Re.search hardcoded_secret_pattern "API_KEY = 'abc123'" = true /\
  Re.search hardcoded_secret_pattern "Password='hunter2'" = true /\
  Re.search hardcoded_secret_pattern "token = ''" = false /\
  Re.search hardcoded_secret_pattern "token = read()" = false.
Proof. repeat split; vm_compute; reflexivity. Qed.

(** C2, as the code has it.  When the source parses, the issue list is
    what the four scans of the raw text find, all of type security, and the
    complexity comes from the tree.  When the parse fails with a syntax
    error the scans do not run: the issue list is the one critical syntax
    issue with the line number of the failure, the complexity is 10 and the
    security issue count is 0, whatever the text contains. *)
Theorem python_scans_run_only_after_parse
    (ast_parse : string -> parse_outcome) (code : string) :
  (forall tree : ast,
     ast_parse code = Parsed tree ->
     exists r : CodeAnalysis.t,
       _analyze_python_code ast_parse code = Some r /\
       CodeAnalysis.issues r = security_scans code [] /\
       CodeAnalysis.complexity_score r = Some (_calculate_complexity tree) /\
       (In eval_issue (CodeAnalysis.issues r)
        <-> contains "eval(" code = true) /\
       (In exec_issue (CodeAnalysis.issues r)
        <-> contains "exec(" code = true) /\
       (In sql_injection_issue (CodeAnalysis.issues r)
        <-> Re.search sql_injection_pattern code = true) /\
       (In hardcoded_secret_issue (CodeAnalysis.issues r)
        <-> Re.search hardcoded_secret_pattern code = true) /\
       CodeAnalysis.metrics r
       = Some (CodeAnalysis.Build_Metrics
                 (Some (line_count code))
                 (Some (Z.of_nat (List.length (CodeAnalysis.issues r))))
                 (Some 0%Z) (Some 0%Z))) /\
  (forall e : SyntaxError,
     ast_parse code = Syntax e ->
     exists r : CodeAnalysis.t,
       _analyze_python_code ast_parse code = Some r /\
       CodeAnalysis.issues r = [syntax_issue e] /\
       Issue.type (syntax_issue e) = "syntax" /\
       Issue.severity (syntax_issue e) = "critical" /\
       Issue.line_number (syntax_issue e) = lineno e /\
       CodeAnalysis.complexity_score r = Some 10 /\
       ~ In eval_issue (CodeAnalysis.issues r) /\
       CodeAnalysis.metrics r
       = Some (CodeAnalysis.Build_Metrics
                 (Some (line_count code)) (Some 0%Z) (Some 0%Z) (Some 0%Z))).
Proof.
  split.
  - intros tree Hp. unfold _analyze_python_code. rewrite Hp.
    eexists. split; [reflexivity|].
    destruct (security_scans_content code) as (H1 & H2 & H3 & H4 & Hall).
    simpl. repeat (split; [first [reflexivity | assumption]|]).
    rewrite (count_type_all _ _ Hall). reflexivity.
  - intros e Hp. unfold _analyze_python_code. rewrite Hp.
    eexists. split; [reflexivity|]. simpl.
    repeat (split; [reflexivity|]).
    split; [|reflexivity].
    intros [H | []]. discriminate H.
Qed.

(** The text [eval(] does not parse and contains an eval call; the issue
    list of the analyzer is the syntax issue alone. *)
Lemma unparseable_eval_reports_no_security_issue :
  Examples.parse_table Examples.unclosed_eval
  = Syntax Examples.unclosed_error /\
  contains "eval(" Examples.unclosed_eval = true /\
  exists r : CodeAnalysis.t,
    _analyze_python_code Examples.parse_table Examples.unclosed_eval = Some r /\
    CodeAnalysis.issues r = [syntax_issue Examples.unclosed_error] /\
    ~ In eval_issue (CodeAnalysis.issues r) /\
    ~ (exists i, In i (CodeAnalysis.issues r) /\ Issue.type i = "security").
Proof.
  split; [reflexivity|]. split; [reflexivity|].
  eexists. split; [reflexivity|]. simpl. split; [reflexivity|].
  split.
  - intros [H | []]. discriminate H.
  - intros [i [[<- | []] H]]. discriminate H.
Qed.

Lemma python_analysis_witness :
  (exists r : CodeAnalysis.t,
     _analyze_python_code Examples.parse_table Examples.closed_eval = Some r /\
     In eval_issue (CodeAnalysis.issues r)) /\
  (exists r : CodeAnalysis.t,
     _analyze_python_code Examples.parse_table Examples.unclosed_eval = Some r /\
     CodeAnalysis.issues r = [syntax_issue Examples.unclosed_error] /\
     CodeAnalysis.complexity_score r = Some 10).
Proof.
  split.
  - destruct (python_scans_run_only_after_parse
                Examples.parse_table Examples.closed_eval) as [H _].
    destruct (H Examples.call_tree eq_refl) as (r & Hr & _ & _ & He & _).
    exists r. split; [exact Hr|]. apply He. reflexivity.
  - destruct (python_scans_run_only_after_parse
                Examples.parse_table Examples.unclosed_eval) as [_ H].
    destruct (H Examples.unclosed_error eq_refl)
      as (r & Hr & Hi & _ & _ & _ & Hc & _).
    exists r. split; [exact Hr|]. split; [exact Hi | exact Hc].
Defined.

End PythonAnalysisFacts.

(** ** Skill matching *)

Module SkillFacts.
Import PyNum SkillMatchingTool.
Local Open Scope string_scope.

Section WithEmbeddingModel.

Variable similarity : string -> string -> Q.

Lemma maximum_map {A : Type} (f g : A -> Q) (l : list A) :
  maximum (map f l) (map g l) = map (fun r => py_max (f r) (g r)) l.
Proof.
  induction l as [|x l IH]; [reflexivity|]. simpl. rewrite IH. reflexivity.
Qed.

Lemma fold_maximum_rows (ds req : list string) (f : string -> Q) :
  fold_left maximum (map (fun d => map (fun r => similarity d r) req) ds)
            (map f req)
  = map (fun r => fold_left py_max (map (fun d => similarity d r) ds) (f r))
        req.
Proof.
  revert f. induction ds as [|d ds IH]; intro f; [reflexivity|].
  simpl. rewrite maximum_map. rewrite IH. reflexivity.
Qed.

Lemma fold_py_max_ge_init (l : list Q) (x : Q) : x <= fold_left py_max l x.
Proof.
  revert x. induction l as [|a l IH]; intro x; simpl; [lra|].
  specialize (IH (py_max x a)).
  destruct (PyNumFacts.py_max_cases x a) as [[H E] | [H E]];
    rewrite E in *; lra.
Qed.

Lemma fold_py_max_upper (l : list Q) (x y : Q) :
  In y (x :: l) -> y <= fold_left py_max l x.
Proof.
  revert x. induction l as [|a l IH]; intros x Hy.
  - destruct Hy as [<- | []]. simpl. lra.
  - destruct Hy as [<- | [<- | Hy]].
    + apply fold_py_max_ge_init.
    + simpl. pose proof (fold_py_max_ge_init l (py_max x a)) as H.
      destruct (PyNumFacts.py_max_cases x a) as [[H1 E] | [H1 E]];
        rewrite E in *; lra.
    + simpl. apply IH. right. exact Hy.
Qed.

Lemma fold_py_max_attained (l : list Q) (x : Q) :
  In (fold_left py_max l x) (x :: l).
Proof.
  revert x. induction l as [|a l IH]; intro x; [left; reflexivity|].
  simpl fold_left. destruct (IH (py_max x a)) as [H | H].
  - rewrite <- H.
    destruct (PyNumFacts.py_max_cases x a) as [[_ ->] | [_ ->]];
      [right; left | left]; reflexivity.
  - right. right. exact H.
Qed.

(** The columns' maxima are best matches. *)
Lemma best_matches_are_best (d0 : string) (ds req : list string) :
  Forall2 (Spec.is_best_match similarity (d0 :: ds)) req
    (np_max_axis0 (similarity_matrix similarity (d0 :: ds) req)).
Proof.
  unfold similarity_matrix, np_max_axis0. cbn [map].
  rewrite (fold_maximum_rows ds req (fun r => similarity d0 r)).
  induction req as [|r req IH]; [constructor|].
  cbn [map]. constructor; [|exact IH].
  split.
  - pose proof (fold_py_max_attained
                  (map (fun d => similarity d r) ds) (similarity d0 r)) as H.
    change (similarity d0 r :: map (fun d => similarity d r) ds)
      with (map (fun d => similarity d r) (d0 :: ds)) in H.
    apply in_map_iff in H. destruct H as [d [E Hd]].
    exists d. split; assumption.
  - intros d Hd. apply fold_py_max_upper.
    change (similarity d0 r :: map (fun d => similarity d r) ds)
      with (map (fun d => similarity d r) (d0 :: ds)).
    apply in_map_iff. exists d. split; [reflexivity | exact Hd].
Qed.

Lemma np_sum_total (v : list Q) : np_sum v == Spec.total v.
Proof.
  unfold np_sum.
  assert (H : forall a, fold_left Qplus v a == a + Spec.total v).
  { induction v as [|x v IH]; intro a; simpl; [ring|]. rewrite IH. ring. }
  rewrite H. ring.
Qed.

Lemma np_mean_mean (v : list Q) : np_mean v == Spec.mean v.
Proof.
  unfold np_mean, Spec.mean. rewrite np_sum_total. reflexivity.
Qed.

Lemma length_positive {A : Type} (x : A) (l : list A) :
  0 < inject_Z (Z.of_nat (List.length (x :: l))).
Proof. unfold Qlt. simpl. lia. Qed.

Lemma total_bounds (v : list Q) :
  Forall (fun b => 0 <= b <= 1) v ->
  0 <= Spec.total v <= inject_Z (Z.of_nat (List.length v)).
Proof.
  induction 1 as [|b v Hb _ IH]; [simpl; split; unfold Qle; simpl; lia|].
  cbn [Spec.total List.length]. rewrite Nat2Z.inj_succ.
  unfold Z.succ. rewrite inject_Z_plus.
  change (inject_Z 1) with 1. lra.
Qed.

Lemma total_positive (b : Q) (v : list Q) :
  Forall (fun b => 0 < b) (b :: v) -> 0 < Spec.total (b :: v).
Proof.
  revert b. induction v as [|c v IH]; intros b H.
  - inversion H; subst. simpl. lra.
  - inversion H as [|? ? Hb Hrest]; subst.
    specialize (IH c Hrest). cbn [Spec.total] in *. lra.
Qed.

Lemma mean_bounds (b : Q) (v : list Q) :
  Forall (fun b => 0 <= b <= 1) (b :: v) -> 0 <= Spec.mean (b :: v) <= 1.
Proof.
  intro H. pose proof (total_bounds _ H) as [Hlo Hhi].
  pose proof (length_positive b v) as Hn. unfold Spec.mean.
  split.
  - apply Qle_shift_div_l; [exact Hn | lra].
  - apply Qle_shift_div_r; [exact Hn | lra].
Qed.

Lemma mean_positive (b : Q) (v : list Q) :
  Forall (fun b => 0 < b) (b :: v) -> 0 < Spec.mean (b :: v).
Proof.
  intro H. pose proof (total_positive _ _ H) as Ht.
  pose proof (length_positive b v) as Hn. unfold Spec.mean.
  apply Qlt_shift_div_l; [exact Hn | lra].
Qed.

(** A best match inherits a bound that holds for every pair. *)
Lemma best_matches_forall (P : Q -> Prop) (dev req : list string)
    (bests : list Q) :
  (forall d r, In d dev -> In r req -> P (similarity d r)) ->
  Forall2 (Spec.is_best_match similarity dev) req bests ->
  Forall P bests.
Proof.
  intros HP H. induction H as [|r b req bests Hb _ IH]; [constructor|].
  constructor.
  - destruct Hb as [[d [Hd <-]] _]. apply HP; [exact Hd | left; reflexivity].
  - apply IH. intros d r' Hd Hr. apply HP; [exact Hd | right; exact Hr].
Qed.

Lemma skill_run_nonempty (d0 : string) (ds : list string) (r0 : string)
    (rs : list string) :
  _run similarity (d0 :: ds) (r0 :: rs)
  = np_mean (np_max_axis0 (similarity_matrix similarity (d0 :: ds) (r0 :: rs))).
Proof. reflexivity. Qed.

End WithEmbeddingModel.

Lemma skill_run_empty (similarity : string -> string -> Q)
    (developer_skills required_skills : list string) :
  developer_skills = [] \/ required_skills = [] ->
  _run similarity developer_skills required_skills = 0.
Proof.
  intros [-> | ->]; unfold _run; simpl; [|rewrite orb_true_r]; reflexivity.
Qed.

Lemma skill_run_is_mean (similarity : string -> string -> Q)
    (developer_skills required_skills : list string) :
  developer_skills <> [] -> required_skills <> [] ->
  exists best_matches : list Q,
    best_matches <> [] /\
    Forall2 (Spec.is_best_match similarity developer_skills)
      required_skills best_matches /\
    _run similarity developer_skills required_skills
    == Spec.mean best_matches.
Proof.
  intros Hd Hr.
  destruct developer_skills as [|d0 ds]; [contradiction|].
  destruct required_skills as [|r0 rs]; [contradiction|].
  exists (np_max_axis0 (similarity_matrix similarity (d0 :: ds) (r0 :: rs))).
  pose proof (best_matches_are_best similarity d0 ds (r0 :: rs)) as Hb.
  split; [|split].
  - intro E. rewrite E in Hb. inversion Hb.
  - exact Hb.
  - rewrite skill_run_nonempty. apply np_mean_mean.
Qed.

Lemma skill_run_range (similarity : string -> string -> Q)
    (developer_skills required_skills : list string) :
  (forall d r, In d developer_skills -> In r required_skills ->
               0 <= similarity d r <= 1) ->
  0 <= _run similarity developer_skills required_skills <= 1.
Proof.
  intro Hrange.
  destruct developer_skills as [|d0 ds];
    [rewrite skill_run_empty by (left; reflexivity); lra|].
  destruct required_skills as [|r0 rs];
    [rewrite skill_run_empty by (right; reflexivity); lra|].
  destruct (skill_run_is_mean similarity (d0 :: ds) (r0 :: rs))
    as (b & Hne & Hb & ->); try discriminate.
  destruct b as [|b0 b]; [contradiction|].
  apply mean_bounds.
  exact (best_matches_forall similarity (fun b => 0 <= b <= 1) _ _ _
           Hrange Hb).
Qed.

(** C7, as the code has it.  The score is 0 when either list is empty.
    For lists that are not empty it is the mean, over the required skills,
    of the best match of each: the greatest similarity reached by a
    developer skill.  It lies in [0,1] when every pairwise similarity does,
    and it is 0 only for an empty list when every pairwise similarity is
    positive. *)
Theorem skill_score_mean_of_best_matches
    (similarity : string -> string -> Q)
    (developer_skills required_skills : list string) :
  let score := _run similarity developer_skills required_skills in
  (developer_skills = [] \/ required_skills = [] -> score = 0) /\
  (developer_skills <> [] -> required_skills <> [] ->
   exists best_matches : list Q,
     Forall2 (Spec.is_best_match similarity developer_skills)
       required_skills best_matches /\
     score == Spec.mean best_matches) /\
  ((forall d r, In d developer_skills -> In r required_skills ->
                0 <= similarity d r <= 1) ->
   0 <= score <= 1) /\
  ((forall d r, In d developer_skills -> In r required_skills ->
                0 < similarity d r) ->
   (score == 0 <-> developer_skills = [] \/ required_skills = [])).
Proof.
  intro score. subst score.
  split; [apply skill_run_empty|]. split; [|split].
  - intros Hd Hr.
    destruct (skill_run_is_mean similarity _ _ Hd Hr) as (b & _ & H1 & H2).
    exists b. split; assumption.
  - apply skill_run_range.
  - intro Hpos. split.
    + intro H0.
      destruct developer_skills as [|d0 ds]; [left; reflexivity|].
      destruct required_skills as [|r0 rs]; [right; reflexivity|].
      exfalso.
      destruct (skill_run_is_mean similarity (d0 :: ds) (r0 :: rs))
        as (b & Hne & Hb & Hs); try discriminate.
      destruct b as [|b0 b]; [contradiction|].
      pose proof (mean_positive b0 b
                    (best_matches_forall similarity (fun b => 0 < b) _ _ _
                       Hpos Hb)) as Hm.
      rewrite Hs in H0. lra.
    + intro H. rewrite (skill_run_empty _ _ _ H). reflexivity.
Qed.

(** Lists that are not empty with score 0 (orthogonal embeddings), and a
    score of -1 (opposed embeddings). *)
Lemma skill_score_zero_and_negative_on_nonempty_lists :
  ["Python"] <> @nil string /\ ["Rust"] <> @nil string /\
  _run Examples.exact_match ["Python"] ["Rust"] == 0 /\
  _run Examples.signed ["Python"] ["Rust"] == -1 /\
  ~ 0 <= _run Examples.signed ["Python"] ["Rust"].
Proof.
  split; [discriminate|]. split; [discriminate|].
  split; [vm_compute; reflexivity|]. split; [vm_compute; reflexivity|].
  intro H. vm_compute in H. apply H. reflexivity.
Qed.

Lemma skill_score_witness :
  _run Examples.exact_match [] ["Rust"] = 0 /\
  0 <= _run Examples.exact_match ["Python"; "Rust"] ["Rust"; "Go"] <= 1.
Proof.
  split.
  - apply (skill_score_mean_of_best_matches Examples.exact_match [] ["Rust"]).
    left. reflexivity.
  - apply (skill_score_mean_of_best_matches Examples.exact_match
             ["Python"; "Rust"] ["Rust"; "Go"]).
    intros d r _ _. unfold Examples.exact_match.
    destruct (String.eqb d r); split; vm_compute; discriminate.
Defined.

End SkillFacts.

(** ** Ranking *)

Module RankingFacts.
Import PyNum Schemas BountyMatchingAgent.
Local Open Scope string_scope.

Lemma insert_desc_perm (m : BountyMatch.t) (l : list BountyMatch.t) :
  Permutation (insert_desc m l) (m :: l).
Proof.
  induction l as [|y ys IH]; simpl; [reflexivity|].
  destruct (Qle_bool _ _); [reflexivity|].
  rewrite IH. apply perm_swap.
Qed.

Lemma sort_perm (l : list BountyMatch.t) :
  Permutation (sort_by_score_desc l) l.
Proof.
  induction l as [|m l IH]; simpl; [reflexivity|].
  rewrite insert_desc_perm. constructor. exact IH.
Qed.

Lemma insert_desc_sorted (m : BountyMatch.t) (l : list BountyMatch.t) :
  Spec.descending l -> Spec.descending (insert_desc m l).
Proof.
  unfold Spec.descending, Spec.score.
  induction 1 as [|y ys Hs IH Hy]; simpl.
  - constructor; constructor.
  - destruct (Qle_bool _ _) eqn:E.
    + apply Qle_bool_iff in E. constructor.
      * constructor; assumption.
      * constructor; [exact E|].
        eapply Forall_impl; [|exact Hy]. simpl. intros a Ha. lra.
    + apply PyNumFacts.Qle_bool_false in E. constructor; [exact IH|].
      eapply Permutation_Forall; [symmetry; apply insert_desc_perm|].
      constructor; [lra | exact Hy].
Qed.

Lemma sort_sorted (l : list BountyMatch.t) :
  Spec.descending (sort_by_score_desc l).
Proof.
  induction l as [|m l IH]; simpl; [constructor|].
  apply insert_desc_sorted. exact IH.
Qed.

Lemma insert_desc_ties (q : Q) (m : BountyMatch.t) (l : list BountyMatch.t) :
  filter (fun x => Qeq_bool (Spec.score x) q) (insert_desc m l)
  = filter (fun x => Qeq_bool (Spec.score x) q) (m :: l).
Proof.
  induction l as [|y ys IH]; [reflexivity|].
  cbn [insert_desc].
  destruct (Qle_bool _ _) eqn:E; [reflexivity|].
  apply PyNumFacts.Qle_bool_false in E.
  cbn [filter] in *. rewrite IH.
  destruct (Qeq_bool (Spec.score m) q) eqn:Em;
    destruct (Qeq_bool (Spec.score y) q) eqn:Ey; try reflexivity.
  apply Qeq_bool_iff in Em. apply Qeq_bool_iff in Ey.
  unfold Spec.score in *. exfalso. lra.
Qed.

Lemma sort_ties (l : list BountyMatch.t) :
  Spec.keeps_tie_order l (sort_by_score_desc l).
Proof.
  intro q. induction l as [|m l IH]; [reflexivity|].
  simpl sort_by_score_desc. rewrite insert_desc_ties.
  cbn [filter]. rewrite IH. reflexivity.
Qed.

(** The loop appends the qualifying matches in pool order. *)
Lemma collect_all_matches {A : Type} (calc : A -> option BountyMatch.t)
    (min_score : Q) (pool : list A) (acc : list BountyMatch.t) :
  collect calc min_score pool acc
  = match Spec.all_matches calc pool with
    | Some ms => Some (acc ++ Spec.qualifying min_score ms)%list
    | None => None
    end.
Proof.
  revert acc. induction pool as [|c rest IH]; intro acc.
  - simpl. rewrite app_nil_r. reflexivity.
  - cbn [collect Spec.all_matches]. destruct (calc c) as [m|]; [|reflexivity].
    simpl bind. rewrite IH.
    destruct (Spec.all_matches calc rest) as [ms|]; [|reflexivity].
    unfold Spec.qualifying, Spec.score, Qgeb. cbn [filter].
    destruct (Qle_bool min_score (BountyMatch.compatibility_score m));
      [rewrite <- app_assoc|]; reflexivity.
Qed.

Lemma slice_to_firstn {A : Type} (l : list A) (limit : Z) :
  (0 <= limit)%Z -> slice_to l limit = firstn (Z.to_nat limit) l.
Proof.
  intro H. unfold slice_to. apply Z.leb_le in H. rewrite H. reflexivity.
Qed.

Lemma Forall_firstn_of {A : Type} (P : A -> Prop) (n : nat) (l : list A) :
  Forall P l -> Forall P (firstn n l).
Proof.
  intro H. rewrite <- (firstn_skipn n l) in H.
  apply Forall_app in H. apply H.
Qed.

Lemma In_firstn_of {A : Type} (x : A) (n : nat) (l : list A) :
  In x (firstn n l) -> In x l.
Proof.
  intro H. rewrite <- (firstn_skipn n l). apply in_or_app. left. exact H.
Qed.

Lemma descending_firstn (n : nat) (l : list BountyMatch.t) :
  Spec.descending l -> Spec.descending (firstn n l).
Proof.
  unfold Spec.descending. intro H. revert n.
  induction H as [|y ys Hs IH Hy]; intro n.
  - rewrite firstn_nil. constructor.
  - destruct n as [|n]; simpl; constructor; [apply IH|].
    apply Forall_firstn_of. exact Hy.
Qed.

Lemma qualifying_all (min_score : Q) (ms : list BountyMatch.t) :
  Forall (fun m => min_score <= Spec.score m) (Spec.qualifying min_score ms).
Proof.
  unfold Spec.qualifying. apply Forall_forall. intros m Hm.
  apply filter_In in Hm. apply Qle_bool_iff. apply Hm.
Qed.

(** The three steps of a ranking operation on a pool. *)
Lemma rank_pool {A : Type} (calc : A -> option BountyMatch.t)
    (min_score : Q) (limit : Z) (pool : list A) :
  (0 <= limit)%Z ->
  let result :=
    matches <- collect calc min_score pool [] ;;
    Some (Build_MatchList (slice_to (sort_by_score_desc matches) limit)
            (Z.of_nat (List.length (sort_by_score_desc matches)))) in
  (forall ms, Spec.all_matches calc pool = Some ms ->
              Spec.ranked ms min_score limit result) /\
  (Spec.all_matches calc pool = None -> result = None).
Proof.
  intros Hlimit result. subst result. rewrite collect_all_matches.
  split.
  - intros ms ->. simpl.
    exists (sort_by_score_desc (Spec.qualifying min_score ms)).
    split; [apply sort_perm|]. split; [apply sort_sorted|].
    split; [apply sort_ties|].
    rewrite slice_to_firstn by exact Hlimit. reflexivity.
  - intros ->. reflexivity.
Qed.

(** What a ranked result gives its caller. *)
Lemma ranked_properties (ms : list BountyMatch.t) (min_score : Q) (limit : Z)
    (result : option MatchList) :
  (0 <= limit)%Z ->
  Spec.ranked ms min_score limit result ->
  exists r : MatchList,
    result = Some r /\
    Spec.descending (matches r) /\
    Forall (fun m => min_score <= Spec.score m) (matches r) /\
    (forall m, In m (matches r) -> In m ms) /\
    (Z.of_nat (List.length (matches r)) <= limit)%Z /\
    total_matches r
    = Z.of_nat (List.length (Spec.qualifying min_score ms)) /\
    Z.of_nat (List.length (matches r)) = Z.min limit (total_matches r).
Proof.
  intros Hlimit (sorted & Hperm & Hdesc & Hties & ->).
  eexists. split; [reflexivity|]. cbn [matches total_matches].
  assert (Hall : Forall (fun m => min_score <= Spec.score m) sorted).
  { eapply Permutation_Forall; [symmetry; exact Hperm|].
    apply qualifying_all. }
  split; [apply descending_firstn; exact Hdesc|].
  split; [apply Forall_firstn_of; exact Hall|].
  split.
  { intros m Hm. apply In_firstn_of in Hm.
    apply (Permutation_in _ Hperm) in Hm.
    unfold Spec.qualifying in Hm. apply filter_In in Hm. apply Hm. }
  rewrite length_firstn, (Permutation_length Hperm). lia.
Qed.

(** Within the data model every match can be computed. *)
Lemma calculate_match_returns (similarity : string -> string -> Q)
    (days_until : string -> option Z) (developer : DeveloperProfile.t)
    (bounty : BountyRequirements.t) :
  Spec.similarity_in_model similarity ->
  Spec.developer_in_model developer ->
  Spec.bounty_in_model bounty ->
  exists m : BountyMatch.t,
    _calculate_match similarity days_until developer bounty = Some m.
Proof.
  intros Hsim (Hrep & Hsr & Hah & Hcb) Heh. unfold _calculate_match.
  pose proof (SkillFacts.skill_run_range similarity
                (DeveloperProfile.skills developer)
                (BountyRequirements.required_skills bounty)
                (fun d r _ _ => Hsim d r)) as Hs.
  pose proof (ExperienceFacts.experience_run_range
                (DeveloperProfile.experience_level developer)
                (BountyRequirements.difficulty_level bounty) _ Hrep) as He.
  destruct (AvailabilityFacts.availability_run_range days_until
              (DeveloperProfile.availability_hours developer)
              (BountyRequirements.estimated_hours bounty)
              (BountyRequirements.deadline bounty)
              (DeveloperProfile.completed_bounties developer))
    as (a & Ea & Ha).
  { intros h E. specialize (Hah h E). lia. }
  { intros h E. specialize (Heh h E). lia. }
  { lia. }
  unfold _calculate_availability_match. rewrite Ea. simpl bind.
  destruct (SuccessProbabilityFacts.estimate_timeline_returns bounty developer
              Heh Hah)
    as [t ->].
  simpl bind.
  unfold _calculate_skill_match, _calculate_experience_match.
  set (s := SkillMatchingTool._run _ _ _) in *.
  set (e := ExperienceMatchingTool._run _ _ _) in *.
  assert (Hc : 0 <= s * 0.4 + e * 0.3 + a * 0.3 <= 1) by lra.
  pose proof (SuccessProbabilityFacts.success_probability_range
                developer bounty _ Hsr Hrep (proj1 Hc)) as Hp.
  unfold BountyMatch.new.
  apply QualityMetricsFacts.in_range_true in Hs, He, Ha, Hc, Hp.
  rewrite Hs, He, Ha, Hc, Hp. simpl. eexists. reflexivity.
Qed.

Lemma all_matches_returns {A : Type} (calc : A -> option BountyMatch.t)
    (pool : list A) :
  (forall c, In c pool -> exists m, calc c = Some m) ->
  exists ms, Spec.all_matches calc pool = Some ms.
Proof.
  induction pool as [|c rest IH]; intro H; [eexists; reflexivity|].
  destruct (H c (or_introl eq_refl)) as [m Hm].
  destruct IH as [ms Hms]; [intros c' Hc'; apply H; right; exact Hc'|].
  simpl. rewrite Hm, Hms. eexists. reflexivity.
Qed.

Lemma request_limits (bounty_id : option Z) (developer_address : option string)
    (limit : option Z) (min_compatibility_score : option Q) :
  (forall req : BountyMatchRequest.t,
     BountyMatchRequest.new bounty_id developer_address limit
       min_compatibility_score = Some req ->
     (1 <= BountyMatchRequest.limit req <= 50)%Z /\
     0 <= BountyMatchRequest.min_compatibility_score req <= 1 /\
     BountyMatchRequest.limit req
     = match limit with Some l => l | None => 10%Z end /\
     BountyMatchRequest.min_compatibility_score req
     = match min_compatibility_score with Some m => m | None => 0.5 end) /\
  (forall l : Z,
     limit = Some l -> (l < 1 \/ 50 < l)%Z ->
     BountyMatchRequest.new bounty_id developer_address limit
       min_compatibility_score = None).
Proof.
  unfold BountyMatchRequest.new, BountyMatchRequest.default_limit,
    BountyMatchRequest.default_min_compatibility_score.
  split.
  - intros req H.
    match type of H with
    | (if ?c then _ else _) = _ => destruct c eqn:E; [|discriminate]
    end.
    injection H as <-. cbn.
    apply andb_true_iff in E. destruct E as [E1 E2].
    apply andb_true_iff in E1. destruct E1 as [Ea Eb].
    apply Z.leb_le in Ea. apply Z.leb_le in Eb.
    apply andb_true_iff in E2. destruct E2 as [Ec Ed].
    apply Qle_bool_iff in Ec. apply Qle_bool_iff in Ed.
    repeat split; assumption.
  - intros l -> Hl.
    destruct ((1 <=? l)%Z && (l <=? 50)%Z) eqn:E; [|reflexivity].
    apply andb_true_iff in E. destruct E as [Ea Eb].
    apply Z.leb_le in Ea. apply Z.leb_le in Eb. lia.
Qed.

(** C1.  For every pool, minimum score and limit within [1,50], and in
    both directions, the ranking operation returns, when the match of every
    candidate can be computed, the matches of score at least the minimum,
    in descending order of score with candidates of equal score in pool
    order, cut to the first [limit]; the list returned is sorted, each of
    its entries has a score that is at least the minimum, its length is at
    most the limit, and [total_matches] counts the qualifying matches.
    Within the data model (similarities in [0,1], reputation not negative,
    success rate in [0,1], hours not negative, hours and the count of
    bounties of a magnitude that a float holds) every match can be
    computed, so that the operation does return.
    A request takes the limit 10 and the minimum 0.5 when the caller gives
    none, and is accepted only with a limit within [1,50]. *)
Theorem ranking_filters_sorts_truncates
    (similarity : string -> string -> Q) (days_until : string -> option Z)
    (_get_bounty_data : Z -> BountyRequirements.t)
    (_get_developer_data : string -> DeveloperProfile.t)
    (developers : list DeveloperProfile.t)
    (bounties : list BountyRequirements.t)
    (bounty_id : Z) (developer_address : string)
    (limit : Z) (min_score : Q) :
  (1 <= limit <= 50)%Z ->
  let for_bounty :=
    _find_developers_for_bounty similarity days_until _get_bounty_data
      developers bounty_id limit min_score in
  let for_developer :=
    _find_bounties_for_developer similarity days_until _get_developer_data
      bounties developer_address limit min_score in
  let match_developer developer :=
    _calculate_match similarity days_until developer
      (_get_bounty_data bounty_id) in
  let match_bounty bounty :=
    _calculate_match similarity days_until
      (_get_developer_data developer_address) bounty in
  let contract (ms : list BountyMatch.t) (result : option MatchList) :=
    Spec.ranked ms min_score limit result /\
    exists r : MatchList,
      result = Some r /\
      Spec.descending (matches r) /\
      Forall (fun m => min_score <= Spec.score m) (matches r) /\
      (forall m, In m (matches r) -> In m ms) /\
      (Z.of_nat (List.length (matches r)) <= limit)%Z /\
      total_matches r
      = Z.of_nat (List.length (Spec.qualifying min_score ms)) /\
      Z.of_nat (List.length (matches r)) = Z.min limit (total_matches r) in
  (forall ms, Spec.all_matches match_developer developers = Some ms ->
              contract ms for_bounty) /\
  (forall ms, Spec.all_matches match_bounty bounties = Some ms ->
              contract ms for_developer) /\
  (Spec.similarity_in_model similarity ->
   Forall Spec.developer_in_model developers ->
   Spec.bounty_in_model (_get_bounty_data bounty_id) ->
   exists ms, Spec.all_matches match_developer developers = Some ms /\
              contract ms for_bounty) /\
  (Spec.similarity_in_model similarity ->
   Spec.developer_in_model (_get_developer_data developer_address) ->
   Forall Spec.bounty_in_model bounties ->
   exists ms, Spec.all_matches match_bounty bounties = Some ms /\
              contract ms for_developer) /\
  (forall b a l m req,
     BountyMatchRequest.new b a l m = Some req ->
     (1 <= BountyMatchRequest.limit req <= 50)%Z /\
     BountyMatchRequest.limit req
     = match l with Some l => l | None => 10%Z end /\
     BountyMatchRequest.min_compatibility_score req
     = match m with Some m => m | None => 0.5 end).
Proof.
  intros Hlimit for_bounty for_developer match_developer match_bounty contract.
  assert (H0 : (0 <= limit)%Z) by lia.
  assert (Hbounty : forall ms,
            Spec.all_matches match_developer developers = Some ms ->
            contract ms for_bounty).
  { intros ms Hms.
    destruct (rank_pool match_developer min_score limit developers H0)
      as [Hr _].
    specialize (Hr ms Hms).
    split; [exact Hr|]. apply ranked_properties; [exact H0 | exact Hr]. }
  assert (Hdeveloper : forall ms,
            Spec.all_matches match_bounty bounties = Some ms ->
            contract ms for_developer).
  { intros ms Hms.
    destruct (rank_pool match_bounty min_score limit bounties H0) as [Hr _].
    specialize (Hr ms Hms).
    split; [exact Hr|]. apply ranked_properties; [exact H0 | exact Hr]. }
  split; [exact Hbounty|]. split; [exact Hdeveloper|]. split; [|split].
  - intros Hsim Hdevs Hb.
    destruct (all_matches_returns match_developer developers) as [ms Hms].
    { intros d Hd. apply calculate_match_returns; [exact Hsim | | exact Hb].
      rewrite Forall_forall in Hdevs. apply Hdevs. exact Hd. }
    exists ms. split; [exact Hms | apply Hbounty; exact Hms].
  - intros Hsim Hd Hbs.
    destruct (all_matches_returns match_bounty bounties) as [ms Hms].
    { intros b Hb. apply calculate_match_returns; [exact Hsim | exact Hd |].
      rewrite Forall_forall in Hbs. apply Hbs. exact Hb. }
    exists ms. split; [exact Hms | apply Hdeveloper; exact Hms].
  - intros b a l m req Hreq.
    destruct (request_limits b a l m) as [H _].
    destruct (H req Hreq) as (H1 & _ & H3 & H4).
    repeat split; try assumption; apply H1.
Qed.

(** The two mock developers have the same score against the mock bounty
    (deadline 29 days away): both qualify at a minimum of 0.4, they are
    returned in pool order, and a limit of 1 keeps the first. *)
Example ranking_of_the_mock_pool :
  option_map
    (fun r => (map BountyMatch.developer_address (matches r), total_matches r))
    (_find_developers_for_bounty Examples.exact_match (fun _ => Some 29%Z)
       (fun id => mock_bounty id "2030-01-01T00:00:00") mock_developers
       1 10 0.4)
  = Some (["0x1234567890123456789012345678901234567890";
           "0xabcdefabcdefabcdefabcdefabcdefabcdefabcd"], 2%Z) /\
  option_map
    (fun r => (map BountyMatch.developer_address (matches r), total_matches r))
    (_find_developers_for_bounty Examples.exact_match (fun _ => Some 29%Z)
       (fun id => mock_bounty id "2030-01-01T00:00:00") mock_developers
       1 1 0.4)
  = Some (["0x1234567890123456789012345678901234567890"], 2%Z) /\
  option_map
    (fun r => (map BountyMatch.developer_address (matches r), total_matches r))
    (_find_developers_for_bounty Examples.exact_match (fun _ => Some 29%Z)
       (fun id => mock_bounty id "2030-01-01T00:00:00") mock_developers
       1 10 0.5)
  = Some ([], 0%Z).
Proof. repeat split; vm_compute; reflexivity. Qed.

Lemma ranking_witness :
  exists r : MatchList,
    _find_developers_for_bounty Examples.exact_match (fun _ => Some 29%Z)
      (fun id => mock_bounty id "2030-01-01T00:00:00") mock_developers
      1 1 0.4 = Some r /\
    (Z.of_nat (List.length (matches r)) <= 1)%Z /\
    Forall (fun m => 0.4 <= Spec.score m) (matches r).
Proof.
  destruct (Spec.all_matches
              (fun developer =>
                 _calculate_match Examples.exact_match (fun _ => Some 29%Z)
                   developer (mock_bounty 1 "2030-01-01T00:00:00"))
              mock_developers) as [ms|] eqn:E;
    [|vm_compute in E; discriminate E].
  destruct (ranking_filters_sorts_truncates
              Examples.exact_match (fun _ => Some 29%Z)
              (fun id => mock_bounty id "2030-01-01T00:00:00")
              (fun a => mock_developer a) mock_developers []
              1 "0x01" 1 0.4) as (H & _); [lia|].
  destruct (H ms E) as (_ & r & Hr & _ & Hmin & _ & Hlen & _).
  exists r. split; [exact Hr|]. split; [exact Hlen | exact Hmin].
Defined.

End RankingFacts.

(** * Further properties of the matching engine *)

Module MatchingExtras.
Import PyNum Schemas BountyMatchingAgent.
Local Open Scope string_scope.

(** ** Timeline *)

(** A timeline that is computed is absent exactly when an hours value is
    falsy, and is otherwise at least a week.  It is computed whenever an
    hours value is falsy and whenever both lie between 1 and [2 ^ 1000];
    it is not computed when the hours of the developer are too large for
    a float, an [OverflowError]. *)
Theorem estimate_timeline_absent_or_a_week (bounty : BountyRequirements.t)
    (developer : DeveloperProfile.t) :
  let estimated := BountyRequirements.estimated_hours bounty in
  let available := DeveloperProfile.availability_hours developer in
  (forall t : option Z,
     _estimate_timeline bounty developer = Some t ->
     (t = None <->
      AvailabilityMatchingTool.falsy estimated
      || AvailabilityMatchingTool.falsy available = true) /\
     (forall days : Z, t = Some days -> (7 <= days)%Z)) /\
  (AvailabilityMatchingTool.falsy estimated
   || AvailabilityMatchingTool.falsy available = true ->
   _estimate_timeline bounty developer = Some None) /\
  ((forall h, estimated = Some h -> (0 <= h <= 2 ^ 1000)%Z) ->
   (forall h, available = Some h -> (0 <= h <= 2 ^ 1000)%Z) ->
   exists t : option Z, _estimate_timeline bounty developer = Some t) /\
  (forall eh ah : Z,
     estimated = Some eh -> available = Some ah -> eh <> 0%Z ->
     (2 ^ 1024 - 2 ^ 970 <= Z.abs ah)%Z ->
     _estimate_timeline bounty developer = None).
Proof.
  intros estimated available. subst estimated available.
  split; [|split; [|split]].
  - intros t H.
    exact (SuccessProbabilityFacts.estimate_timeline_value bounty developer t H).
  - unfold _estimate_timeline.
    destruct (BountyRequirements.estimated_hours bounty) as [eh|];
      [|reflexivity].
    destruct (DeveloperProfile.availability_hours developer) as [ah|];
      [|reflexivity].
    cbn [AvailabilityMatchingTool.falsy]. intros ->. reflexivity.
  - apply SuccessProbabilityFacts.estimate_timeline_returns.
  - intros eh ah Ee Ea Hne Hbig. unfold _estimate_timeline.
    rewrite Ee, Ea.
    assert (E0 : (eh =? 0)%Z || (ah =? 0)%Z = false).
    { apply orb_false_iff. split; apply Z.eqb_neq; lia. }
    rewrite E0. unfold Float64.of_int.
    destruct (Float64.fits (inject_Z ah)) eqn:F; [|reflexivity].
    apply Float64Facts.fits_int_iff in F. lia.
Qed.

(** The days are those of binary64 arithmetic: 7 hours a week make
    5.6000000000000005 hours of work, 56 hours take 9.999999999999998
    weeks, and the 69.99999999999999 days are cut to 69.  A quotient that
    is an infinity stops at [int()]. *)
Example timeline_of_56_hours_at_7_a_week :
  _estimate_timeline
    (BountyRequirements.Build 1 "Dashboard" "Charts" "analytics" [] "medium"
       (Some 56%Z) 100 "2030-01-01T00:00:00")
    (DeveloperProfile.Build "0x01" [] "mid" 5 0 0.5 [] (Some 7%Z))
  = Some (Some 69%Z) /\
  _estimate_timeline
    (BountyRequirements.Build 1 "Dashboard" "Charts" "analytics" [] "medium"
       (Some (10 ^ 308)%Z) 100 "2030-01-01T00:00:00")
    (DeveloperProfile.Build "0x01" [] "mid" 5 0 0.5 [] (Some 1%Z))
  = None.
Proof. split; vm_compute; reflexivity. Qed.

(** ** Skills *)

Lemma best_matches_dominate (similarity : string -> string -> Q)
    (dev dev' req : list string) (b b' : list Q) :
  incl dev dev' ->
  Forall2 (Spec.is_best_match similarity dev) req b ->
  Forall2 (Spec.is_best_match similarity dev') req b' ->
  Forall2 Qle b b'.
Proof.
  intros Hincl H. revert b'.
  induction H as [|r x req b Hx _ IH]; intros b' H'; inversion H'; subst.
  - constructor.
  - constructor; [|apply IH; assumption].
    destruct Hx as [[d [Hd <-]] _].
    match goal with
    | Hy : Spec.is_best_match _ _ _ _ |- _ => destruct Hy as [_ Hup]
    end.
    apply Hup. apply Hincl. exact Hd.
Qed.

Lemma total_monotone (b b' : list Q) :
  Forall2 Qle b b' -> Spec.total b <= Spec.total b'.
Proof.
  induction 1 as [|x y b b' Hxy _ IH]; simpl; lra.
Qed.

Lemma mean_monotone (b b' : list Q) :
  Forall2 Qle b b' -> Spec.mean b <= Spec.mean b'.
Proof.
  intro H. unfold Spec.mean. rewrite <- (Forall2_length H).
  unfold Qdiv. apply Qmult_le_compat_r; [apply total_monotone; exact H|].
  apply Qinv_le_0_compat. unfold Qle. simpl. lia.
Qed.

Lemma incl_nonempty {A : Type} (l l' : list A) :
  l <> [] -> incl l l' -> l' <> [].
Proof.
  intros Hl Hincl ->. destruct l as [|x l]; [contradiction|].
  apply (Hincl x). left. reflexivity.
Qed.

Lemma skill_score_incl (similarity : string -> string -> Q)
    (dev dev' req : list string) :
  dev <> [] -> incl dev dev' ->
  SkillMatchingTool._run similarity dev req
  <= SkillMatchingTool._run similarity dev' req.
Proof.
  intros Hdev Hincl.
  destruct req as [|r0 rs].
  { rewrite !SkillFacts.skill_run_empty by (right; reflexivity). lra. }
  pose proof (incl_nonempty _ _ Hdev Hincl) as Hdev'.
  destruct (SkillFacts.skill_run_is_mean similarity dev (r0 :: rs))
    as (b & _ & Hb & ->); [exact Hdev | discriminate|].
  destruct (SkillFacts.skill_run_is_mean similarity dev' (r0 :: rs))
    as (b' & _ & Hb' & ->); [exact Hdev' | discriminate|].
  apply mean_monotone.
  exact (best_matches_dominate similarity dev dev' _ b b' Hincl Hb Hb').
Qed.

(** More developer skills never lower the skill score: a list of developer
    skills that is not empty scores at most what any list containing its
    labels scores, and two lists with the same labels, in any order and
    with any repetition, score the same. *)
Theorem skill_score_monotone_in_developer_skills
    (similarity : string -> string -> Q) (dev dev' req : list string) :
  dev <> [] -> incl dev dev' ->
  SkillMatchingTool._run similarity dev req
  <= SkillMatchingTool._run similarity dev' req /\
  (incl dev' dev ->
   SkillMatchingTool._run similarity dev req
   == SkillMatchingTool._run similarity dev' req).
Proof.
  intros Hdev Hincl. split; [apply skill_score_incl; assumption|].
  intro Hback.
  pose proof (skill_score_incl similarity dev dev' req Hdev Hincl).
  pose proof (skill_score_incl similarity dev' dev req
                (incl_nonempty _ _ Hdev Hincl) Hback).
  lra.
Qed.

Lemma skill_score_monotone_witness :
  SkillMatchingTool._run Examples.exact_match ["Python"] ["Rust"; "Python"]
  <= SkillMatchingTool._run Examples.exact_match ["Rust"; "Python"]
       ["Rust"; "Python"].
Proof.
  apply (skill_score_monotone_in_developer_skills Examples.exact_match
           ["Python"] ["Rust"; "Python"] ["Rust"; "Python"]).
  - discriminate.
  - intros x [<- | []]. right. left. reflexivity.
Defined.

Lemma total_of_ones (b : list Q) :
  Forall (fun x => x == 1) b ->
  Spec.total b == inject_Z (Z.of_nat (List.length b)).
Proof.
  induction 1 as [|x b Hx _ IH]; [reflexivity|].
  cbn [Spec.total List.length]. rewrite Nat2Z.inj_succ. unfold Z.succ.
  rewrite inject_Z_plus, IH, Hx. change (inject_Z 1) with 1. ring.
Qed.

(** A developer who has every required skill scores 1, when a label is
    fully similar to itself and no similarity exceeds 1. *)
Theorem skill_score_full_coverage (similarity : string -> string -> Q)
    (dev req : list string) :
  req <> [] -> incl req dev ->
  (forall d r, In d dev -> In r req -> similarity d r <= 1) ->
  (forall r, In r req -> similarity r r == 1) ->
  SkillMatchingTool._run similarity dev req == 1.
Proof.
  intros Hreq Hincl Hle Hself.
  pose proof (incl_nonempty _ _ Hreq Hincl) as Hdev.
  destruct (SkillFacts.skill_run_is_mean similarity dev req Hdev Hreq)
    as (b & Hne & Hb & ->).
  assert (Hones : Forall (fun x => x == 1) b).
  { clear Hne Hreq. induction Hb as [|r x req b Hx Hrest IH]; [constructor|].
    constructor.
    - destruct Hx as [[d [Hd E]] Hup].
      assert (H1 : x <= 1).
      { rewrite <- E. apply Hle; [exact Hd | left; reflexivity]. }
      assert (H2 : similarity r r <= x).
      { apply Hup. apply Hincl. left. reflexivity. }
      rewrite (Hself r (or_introl eq_refl)) in H2. lra.
    - apply IH.
      + intros r' Hr'. apply Hincl. right. exact Hr'.
      + intros d r' Hd Hr'. apply Hle; [exact Hd | right; exact Hr'].
      + intros r' Hr'. apply Hself. right. exact Hr'. }
  unfold Spec.mean. rewrite (total_of_ones b Hones).
  destruct b as [|b0 b]; [contradiction|].
  pose proof (SkillFacts.length_positive b0 b) as Hn.
  field. lra.
Qed.

Lemma skill_score_full_coverage_witness :
  SkillMatchingTool._run Examples.exact_match ["Go"; "Rust"; "Python"]
    ["Rust"; "Python"] == 1.
Proof.
  apply (skill_score_full_coverage Examples.exact_match).
  - discriminate.
  - intros x [<- | [<- | []]]; simpl; tauto.
  - intros d r _ _. unfold Examples.exact_match.
    destruct (String.eqb d r); vm_compute; discriminate.
  - intros r _. unfold Examples.exact_match. rewrite String.eqb_refl.
    reflexivity.
Defined.

(** ** Experience labels *)

Lemma lower_char_idempotent (c : ascii) :
  PyStr.lower_char (PyStr.lower_char c) = PyStr.lower_char c.
Proof.
  destruct c as [[] [] [] [] [] [] [] []]; vm_compute; reflexivity.
Qed.

Lemma lower_idempotent (s : string) : PyStr.lower (PyStr.lower s) = PyStr.lower s.
Proof.
  induction s as [|c s IH]; [reflexivity|].
  simpl. rewrite lower_char_idempotent, IH. reflexivity.
Qed.

(** The experience score does not depend on the letter case of the two
    labels, and a label that is none of the four known ones counts as the
    middle level: an unknown experience level as "mid", an unknown
    difficulty as "medium". *)
Theorem experience_labels_case_and_default
    (dev diff : string) (rep : Q) :
  ExperienceMatchingTool._run (PyStr.lower dev) (PyStr.lower diff) rep
  = ExperienceMatchingTool._run dev diff rep /\
  (~ In (PyStr.lower dev) ["junior"; "mid"; "senior"; "expert"] ->
   ExperienceMatchingTool._run dev diff rep
   = ExperienceMatchingTool._run "mid" diff rep) /\
  (~ In (PyStr.lower diff) ["easy"; "medium"; "hard"; "expert"] ->
   ExperienceMatchingTool._run dev diff rep
   = ExperienceMatchingTool._run dev "medium" rep).
Proof.
  unfold ExperienceMatchingTool._run, ExperienceMatchingTool.level_diff_of,
    ExperienceMatchingTool.dev_level_of, ExperienceMatchingTool.bounty_level_of.
  split; [rewrite !lower_idempotent; reflexivity|]. split.
  - intro H.
    assert (E : ExperienceMatchingTool.get
                  ExperienceMatchingTool.experience_levels (PyStr.lower dev) 2
                = 2%Z).
    { unfold ExperienceMatchingTool.experience_levels,
        ExperienceMatchingTool.get.
      repeat match goal with
             | |- context [String.eqb ?a ?b] =>
                 destruct (String.eqb_spec a b) as [Heq | _];
                 [exfalso; apply H; rewrite <- Heq; simpl; tauto|]
             end.
      reflexivity. }
    rewrite E. reflexivity.
  - intro H.
    assert (E : ExperienceMatchingTool.get
                  ExperienceMatchingTool.difficulty_levels (PyStr.lower diff) 2
                = 2%Z).
    { unfold ExperienceMatchingTool.difficulty_levels,
        ExperienceMatchingTool.get.
      repeat match goal with
             | |- context [String.eqb ?a ?b] =>
                 destruct (String.eqb_spec a b) as [Heq | _];
                 [exfalso; apply H; rewrite <- Heq; simpl; tauto|]
             end.
      reflexivity. }
    rewrite E. reflexivity.
Qed.

Lemma experience_labels_witness :
  ExperienceMatchingTool._run "wizard" "hard" 5
  = ExperienceMatchingTool._run "mid" "hard" 5.
Proof.
  apply (experience_labels_case_and_default "wizard" "hard" 5).
  simpl. intros [H | [H | [H | [H | []]]]]; discriminate H.
Defined.

(** ** Availability *)

(** Past the guard a score that is returned is the ratio of the available
    to the required hours per week, capped at 1, and it is returned when
    the three numbers are not too large for a float. *)
Lemma availability_closed_form (days_until : string -> option Z)
    (dh eh : Z) (deadline : string) (active_bounties : Z) :
  (0 < dh)%Z -> (0 < eh)%Z ->
  let weeks :=
    py_max 1 (inject_Z (AvailabilityMatchingTool.days_until_deadline
                          days_until deadline) / 7) in
  let required := inject_Z eh / weeks in
  let available :=
    inject_Z dh * py_max 0.1 (1 - inject_Z active_bounties * 0.2) in
  0 < required /\
  (forall q : Q,
     AvailabilityMatchingTool._run days_until (Some dh) (Some eh) deadline
       active_bounties = Some q ->
     q == Qmin 1 (available / required)) /\
  ((dh < 2 ^ 1024 - 2 ^ 970)%Z -> (eh < 2 ^ 1024 - 2 ^ 970)%Z ->
   (Z.abs active_bounties < 2 ^ 1024 - 2 ^ 970)%Z ->
   exists q : Q,
     AvailabilityMatchingTool._run days_until (Some dh) (Some eh) deadline
       active_bounties = Some q).
Proof.
  intros Hdh Heh weeks required available.
  destruct (AvailabilityFacts.availability_run_body days_until dh eh deadline
              active_bounties) as (Hw & Hr0 & _ & _ & Hrun & _); [lia | lia |].
  fold weeks in Hw, Hrun. fold required in Hr0, Hrun. fold available in Hrun.
  assert (Hieh : 0 < inject_Z eh) by (unfold Qlt; simpl; lia).
  assert (Hidh : 0 < inject_Z dh) by (unfold Qlt; simpl; lia).
  assert (Hreq : 0 < required).
  { unfold required. apply Qlt_shift_div_l; lra. }
  split; [exact Hreq|]. split.
  - intros q Hq.
    destruct (AvailabilityFacts.availability_run_value days_until dh eh
                deadline active_bounties q) as (Fd & Fe & Fa);
      [lia | lia | exact Hq |].
    rewrite (Hrun Fd Fe Fa) in Hq. injection Hq as <-.
    assert (Hwf : 0.1 <= py_max 0.1 (1 - inject_Z active_bounties * 0.2)).
    { minmax_cases; lra. }
    assert (Hav : 0 <= available).
    { unfold available. apply Qmult_le_0_compat; lra. }
    destruct (Qle_bool required available) eqn:E.
    + apply Qle_bool_iff in E.
      assert (H1 : 1 <= available / required).
      { apply Qle_shift_div_l; [exact Hreq | lra]. }
      rewrite PyNumFacts.py_min_Qmin. reflexivity.
    + apply PyNumFacts.Qle_bool_false in E.
      assert (H0 : 0 <= available / required).
      { apply Qle_shift_div_l; [exact Hreq | lra]. }
      assert (H1 : available / required < 1).
      { apply Qlt_shift_div_r; [exact Hreq | lra]. }
      rewrite PyNumFacts.py_max_Qmax, Q.max_r by exact H0.
      rewrite Q.min_r by lra. reflexivity.
  - intros Fd Fe Fa. eexists. apply Hrun; lia.
Qed.

(** With hours that are not negative an availability score that is
    returned lies in [0,1], whatever the deadline and the workload; and a
    score is returned when the hours and the number of active bounties
    are of a magnitude below [2 ^ 1024 - 2 ^ 970], the one a float can
    take. *)
Theorem availability_score_in_unit_interval
    (days_until : string -> option Z)
    (developer_hours estimated_hours : option Z) (deadline : string)
    (active_bounties : Z) :
  (forall h, developer_hours = Some h -> (0 <= h)%Z) ->
  (forall h, estimated_hours = Some h -> (0 <= h)%Z) ->
  (forall q : Q,
     AvailabilityMatchingTool._run days_until developer_hours estimated_hours
       deadline active_bounties = Some q ->
     0 <= q <= 1) /\
  ((forall h, developer_hours = Some h -> (h < 2 ^ 1024 - 2 ^ 970)%Z) ->
   (forall h, estimated_hours = Some h -> (h < 2 ^ 1024 - 2 ^ 970)%Z) ->
   (Z.abs active_bounties < 2 ^ 1024 - 2 ^ 970)%Z ->
   exists q : Q,
     AvailabilityMatchingTool._run days_until developer_hours estimated_hours
       deadline active_bounties = Some q /\ 0 <= q <= 1).
Proof.
  intros Hd He. split.
  - intros q Hq.
    destruct (AvailabilityMatchingTool.falsy developer_hours
              || AvailabilityMatchingTool.falsy estimated_hours) eqn:E.
    { rewrite (AvailabilityFacts.availability_run_default _ _ _ _ _ E) in Hq.
      injection Hq as <-. lra. }
    apply orb_false_iff in E. destruct E as [Ed Ee].
    destruct developer_hours as [dh|]; [|discriminate].
    destruct estimated_hours as [eh|]; [|discriminate].
    simpl in Ed, Ee. apply Z.eqb_neq in Ed. apply Z.eqb_neq in Ee.
    specialize (Hd dh eq_refl). specialize (He eh eq_refl).
    destruct (AvailabilityFacts.availability_run_value days_until dh eh
                deadline active_bounties q Ed Ee Hq) as (Fd & Fe & Fa).
    destruct (AvailabilityFacts.availability_run_range days_until
                (Some dh) (Some eh) deadline active_bounties)
      as (q' & Hq' & Hr).
    { intros h H. injection H as <-. lia. }
    { intros h H. injection H as <-. lia. }
    { exact Fa. }
    rewrite Hq in Hq'. injection Hq' as <-. exact Hr.
  - intros Fd Fe Fa.
    apply AvailabilityFacts.availability_run_range.
    + intros h H. specialize (Hd h H). specialize (Fd h H). lia.
    + intros h H. specialize (He h H). specialize (Fe h H). lia.
    + exact Fa.
Qed.

Lemma availability_score_in_unit_interval_witness :
  exists q : Q,
    AvailabilityMatchingTool._run (fun _ => None) (Some 10%Z) (Some 400%Z)
      "not a date" 3 = Some q /\ 0 <= q <= 1.
Proof.
  apply (availability_score_in_unit_interval (fun _ => None)
           (Some 10%Z) (Some 400%Z) "not a date" 3).
  - intros h H. injection H as <-. lia.
  - intros h H. injection H as <-. lia.
  - intros h H. injection H as <-. lia.
  - intros h H. injection H as <-. lia.
  - simpl. lia.
Defined.

Lemma workload_factor_antitone (a a' : Z) :
  (a <= a')%Z ->
  py_max 0.1 (1 - inject_Z a' * 0.2) <= py_max 0.1 (1 - inject_Z a * 0.2).
Proof.
  intro H. assert (Hq : inject_Z a <= inject_Z a') by (rewrite <- Zle_Qle; exact H).
  minmax_cases; lra.
Qed.

Lemma workload_factor_floor (a : Z) :
  (5 <= a)%Z -> py_max 0.1 (1 - inject_Z a * 0.2) = 0.1.
Proof.
  intro H. assert (Hq : inject_Z 5 <= inject_Z a) by (rewrite <- Zle_Qle; exact H).
  change (inject_Z 5) with 5 in Hq.
  destruct (PyNumFacts.py_max_cases 0.1 (1 - inject_Z a * 0.2))
    as [[Hlt _] | [_ ->]]; [exfalso; lra | reflexivity].
Qed.

(** A heavier workload never raises the availability score, and from five
    active bounties on the score no longer changes: the capacity has reached
    its floor of a tenth.  This holds of every two scores that are
    returned, and they are returned when the numbers are not too large for
    a float. *)
Theorem availability_score_antitone_in_workload
    (days_until : string -> option Z) (dh eh : Z) (deadline : string)
    (active active' : Z) :
  (0 < dh)%Z -> (0 < eh)%Z -> (active <= active')%Z ->
  (forall q q' : Q,
     AvailabilityMatchingTool._run days_until (Some dh) (Some eh) deadline
       active = Some q ->
     AvailabilityMatchingTool._run days_until (Some dh) (Some eh) deadline
       active' = Some q' ->
     q' <= q /\ ((5 <= active)%Z -> q' == q)) /\
  ((dh < 2 ^ 1024 - 2 ^ 970)%Z -> (eh < 2 ^ 1024 - 2 ^ 970)%Z ->
   (Z.abs active < 2 ^ 1024 - 2 ^ 970)%Z ->
   (Z.abs active' < 2 ^ 1024 - 2 ^ 970)%Z ->
   exists q q' : Q,
     AvailabilityMatchingTool._run days_until (Some dh) (Some eh) deadline
       active = Some q /\
     AvailabilityMatchingTool._run days_until (Some dh) (Some eh) deadline
       active' = Some q' /\
     q' <= q /\
     ((5 <= active)%Z -> q' == q)).
Proof.
  intros Hdh Heh Hle.
  destruct (availability_closed_form days_until dh eh deadline active Hdh Heh)
    as (Hreq & Hval & Hret).
  destruct (availability_closed_form days_until dh eh deadline active' Hdh Heh)
    as (_ & Hval' & Hret').
  set (required :=
         inject_Z eh
         / py_max 1 (inject_Z (AvailabilityMatchingTool.days_until_deadline
                                 days_until deadline) / 7)) in *.
  assert (Hidh : 0 <= inject_Z dh) by (unfold Qle; simpl; lia).
  assert (Horder : forall q q' : Q,
             AvailabilityMatchingTool._run days_until (Some dh) (Some eh)
               deadline active = Some q ->
             AvailabilityMatchingTool._run days_until (Some dh) (Some eh)
               deadline active' = Some q' ->
             q' <= q /\ ((5 <= active)%Z -> q' == q)).
  { intros q q' Hq Hq'.
    pose proof (Hval q Hq) as Eq. pose proof (Hval' q' Hq') as Eq'.
    split.
    - rewrite Eq, Eq'. apply Q.min_le_compat_l.
      unfold Qdiv. apply Qmult_le_compat_r;
        [|apply Qinv_le_0_compat; lra].
      rewrite !(Qmult_comm (inject_Z dh)).
      apply Qmult_le_compat_r; [apply workload_factor_antitone; exact Hle|].
      exact Hidh.
    - intro H5. rewrite Eq, Eq'.
      rewrite (workload_factor_floor active H5).
      rewrite (workload_factor_floor active') by lia. reflexivity. }
  split; [exact Horder|].
  intros Fd Fe Fa Fa'.
  destruct (Hret Fd Fe Fa) as (q & Hq).
  destruct (Hret' Fd Fe Fa') as (q' & Hq').
  exists q, q'. split; [exact Hq|]. split; [exact Hq'|].
  exact (Horder q q' Hq Hq').
Qed.

Lemma availability_score_antitone_witness :
  exists q q' : Q,
    AvailabilityMatchingTool._run (fun _ => Some 30%Z) (Some 30%Z)
      (Some 120%Z) "2030-01-01T00:00:00" 5 = Some q /\
    AvailabilityMatchingTool._run (fun _ => Some 30%Z) (Some 30%Z)
      (Some 120%Z) "2030-01-01T00:00:00" 12 = Some q' /\
    q' == q.
Proof.
  destruct (availability_score_antitone_in_workload (fun _ => Some 30%Z)
              30 120 "2030-01-01T00:00:00" 5 12)
    as (_ & H); [lia | lia | lia |].
  destruct H as (q & q' & Hq & Hq' & _ & Heq); [lia | lia | lia | lia |].
  exists q, q'. split; [exact Hq|]. split; [exact Hq'|]. apply Heq. lia.
Defined.

(** ** The match of one pair *)



(** ** Request dispatch *)

Lemma calculate_match_fields_id (similarity : string -> string -> Q)
    (days_until : string -> option Z) (developer : DeveloperProfile.t)
    (bounty : BountyRequirements.t) (m : BountyMatch.t) :
  _calculate_match similarity days_until developer bounty = Some m ->
  BountyMatch.bounty_id m = BountyRequirements.id bounty.
Proof.
  unfold _calculate_match.
  destruct (_calculate_availability_match days_until developer bounty)
    as [a|]; [|discriminate].
  simpl bind.
  destruct (_estimate_timeline bounty developer) as [t|]; [|discriminate].
  simpl bind. unfold BountyMatch.new.
  match goal with
  | |- (if ?c then _ else _) = _ -> _ => destruct c; [|discriminate]
  end.
  intro H. injection H as <-. reflexivity.
Qed.

Section Dispatch.

Variable similarity : string -> string -> Q.
Variable days_until : string -> option Z.
Variable get_bounty : Z -> BountyRequirements.t.
Variable get_developer : string -> DeveloperProfile.t.
Variable developers : list DeveloperProfile.t.
Variable bounties : list BountyRequirements.t.

(** A request is served by its identifiers: with both a bounty and a
    developer it is the single match of the pair, with total 1; with
    one of them it is the ranking in that direction; with neither it is
    an error.  The bounty with identifier 0 and the empty address count as
    not given. *)
Theorem bounty_request_dispatch (request : BountyMatchRequest.t) :
  let run :=
    _process_request_internal similarity days_until get_bounty get_developer
      developers bounties request in
  let given_bounty := truthy_id (BountyMatchRequest.bounty_id request) in
  let given_developer :=
    truthy_str (BountyMatchRequest.developer_address request) in
  (given_bounty = false -> given_developer = false -> run = None) /\
  (forall b a,
     BountyMatchRequest.bounty_id request = Some b ->
     BountyMatchRequest.developer_address request = Some a ->
     given_bounty = true -> given_developer = true ->
     run = _match_bounty_developer similarity days_until get_bounty
             get_developer b a /\
     forall r, run = Some r ->
       exists m, matches r = [m] /\ total_matches r = 1%Z /\
                 BountyMatch.bounty_id m = BountyRequirements.id (get_bounty b)) /\
  (forall b,
     BountyMatchRequest.bounty_id request = Some b ->
     given_bounty = true -> given_developer = false ->
     run = _find_developers_for_bounty similarity days_until get_bounty
             developers b (BountyMatchRequest.limit request)
             (BountyMatchRequest.min_compatibility_score request)) /\
  (forall a,
     BountyMatchRequest.developer_address request = Some a ->
     given_bounty = false -> given_developer = true ->
     run = _find_bounties_for_developer similarity days_until get_developer
             bounties a (BountyMatchRequest.limit request)
             (BountyMatchRequest.min_compatibility_score request)).
Proof.
  intros run given_bounty given_developer.
  subst run given_bounty given_developer.
  unfold _process_request_internal.
  destruct request as [bid addr limit min_score]. cbn.
  split; [|split; [|split]].
  - intros Hb Ha.
    destruct bid as [b|], addr as [a|]; cbn in *; rewrite ?Hb, ?Ha;
      reflexivity.
  - intros b a -> -> Hb Ha. cbn in *. rewrite Hb, Ha. cbn.
    split; [reflexivity|].
    intros r Hr. unfold _match_bounty_developer in Hr.
    destruct (_calculate_match similarity days_until (get_developer a)
                (get_bounty b)) as [m|] eqn:Em; [|discriminate].
    simpl in Hr. injection Hr as <-.
    exists m. split; [reflexivity|]. split; [reflexivity|].
    apply (calculate_match_fields_id _ _ _ _ _ Em).
  - intros b -> Hb Ha. cbn in *. rewrite Hb.
    destruct addr as [a|]; cbn in *; [rewrite Ha|]; reflexivity.
  - intros a -> Hb Ha. cbn in *.
    destruct bid as [b|]; cbn in *; [rewrite Hb|]; rewrite Ha; reflexivity.
Qed.

End Dispatch.

Lemma bounty_request_dispatch_witness :
  _process_request_internal Examples.exact_match (fun _ => Some 29%Z)
    (fun id => mock_bounty id "2030-01-01T00:00:00") mock_developer
    mock_developers []
    (BountyMatchRequest.Build (Some 0%Z) (Some EmptyString) 10 0.5) = None.
Proof.
  destruct (bounty_request_dispatch Examples.exact_match (fun _ => Some 29%Z)
              (fun id => mock_bounty id "2030-01-01T00:00:00") mock_developer
              mock_developers []
              (BountyMatchRequest.Build (Some 0%Z) (Some EmptyString) 10 0.5))
    as (H & _).
  apply H; reflexivity.
Defined.

(** ** Limits *)

(** The ranking steps on a pool, as both operations run them. *)
Lemma rank_steps {A : Type} (calc : A -> option BountyMatch.t)
    (min_score : Q) (limit : Z) (pool : list A) :
  (matches <- collect calc min_score pool [] ;;
   Some (Build_MatchList (slice_to (sort_by_score_desc matches) limit)
           (Z.of_nat (List.length (sort_by_score_desc matches)))))
  = match Spec.all_matches calc pool with
    | Some ms =>
        Some (Build_MatchList
                (slice_to (sort_by_score_desc (Spec.qualifying min_score ms))
                          limit)
                (Z.of_nat (List.length
                             (sort_by_score_desc
                                (Spec.qualifying min_score ms)))))
    | None => None
    end.
Proof.
  rewrite RankingFacts.collect_all_matches.
  destruct (Spec.all_matches calc pool); reflexivity.
Qed.

Lemma firstn_firstn_le {A : Type} (k k' : nat) (l : list A) :
  (k <= k')%nat -> firstn k (firstn k' l) = firstn k l.
Proof.
  intro H. rewrite firstn_firstn. f_equal. lia.
Qed.

Lemma rank_steps_prefix {A : Type} (calc : A -> option BountyMatch.t)
    (min_score : Q) (k k' : Z) (pool : list A) (r' : MatchList) :
  (0 <= k <= k')%Z ->
  (matches <- collect calc min_score pool [] ;;
   Some (Build_MatchList (slice_to (sort_by_score_desc matches) k')
           (Z.of_nat (List.length (sort_by_score_desc matches))))) = Some r' ->
  exists r : MatchList,
    (matches <- collect calc min_score pool [] ;;
     Some (Build_MatchList (slice_to (sort_by_score_desc matches) k)
             (Z.of_nat (List.length (sort_by_score_desc matches))))) = Some r /\
    matches r = firstn (Z.to_nat k) (matches r') /\
    total_matches r = total_matches r' /\
    ((total_matches r' <= k')%Z ->
     Z.of_nat (List.length (matches r')) = total_matches r').
Proof.
  intros Hk. rewrite !rank_steps.
  destruct (Spec.all_matches calc pool) as [ms|]; [|discriminate].
  intro H. injection H as <-. eexists. split; [reflexivity|].
  cbn [matches total_matches].
  rewrite !RankingFacts.slice_to_firstn by lia.
  split; [|split; [reflexivity|]].
  - symmetry. apply firstn_firstn_le. lia.
  - intro Hall. rewrite length_firstn. lia.
Qed.

(** Results for different limits agree: the list for a limit is the
    beginning of the list for any larger limit, [total_matches] does not
    depend on the limit, and a limit of at least [total_matches] returns
    every qualifying candidate. *)
Theorem ranking_limits_are_prefixes
    (similarity : string -> string -> Q) (days_until : string -> option Z)
    (get_bounty : Z -> BountyRequirements.t)
    (get_developer : string -> DeveloperProfile.t)
    (developers : list DeveloperProfile.t)
    (bounties : list BountyRequirements.t)
    (bounty_id : Z) (developer_address : string)
    (k k' : Z) (min_score : Q) :
  (0 <= k <= k')%Z ->
  (forall r',
     _find_developers_for_bounty similarity days_until get_bounty developers
       bounty_id k' min_score = Some r' ->
     exists r,
       _find_developers_for_bounty similarity days_until get_bounty developers
         bounty_id k min_score = Some r /\
       matches r = firstn (Z.to_nat k) (matches r') /\
       total_matches r = total_matches r' /\
       ((total_matches r' <= k')%Z ->
        Z.of_nat (List.length (matches r')) = total_matches r')) /\
  (forall r',
     _find_bounties_for_developer similarity days_until get_developer bounties
       developer_address k' min_score = Some r' ->
     exists r,
       _find_bounties_for_developer similarity days_until get_developer
         bounties developer_address k min_score = Some r /\
       matches r = firstn (Z.to_nat k) (matches r') /\
       total_matches r = total_matches r' /\
       ((total_matches r' <= k')%Z ->
        Z.of_nat (List.length (matches r')) = total_matches r')).
Proof.
  intro Hk. split; intros r' Hr'.
  - exact (rank_steps_prefix _ min_score k k' developers r' Hk Hr').
  - exact (rank_steps_prefix _ min_score k k' bounties r' Hk Hr').
Qed.

Lemma ranking_limits_witness :
  exists r r' : MatchList,
    _find_developers_for_bounty Examples.exact_match (fun _ => Some 29%Z)
      (fun id => mock_bounty id "2030-01-01T00:00:00") mock_developers
      1 10 0.4 = Some r' /\
    _find_developers_for_bounty Examples.exact_match (fun _ => Some 29%Z)
      (fun id => mock_bounty id "2030-01-01T00:00:00") mock_developers
      1 1 0.4 = Some r /\
    matches r = firstn 1 (matches r').
Proof.
  destruct (_find_developers_for_bounty Examples.exact_match
              (fun _ => Some 29%Z)
              (fun id => mock_bounty id "2030-01-01T00:00:00") mock_developers
              1 10 0.4) as [r'|] eqn:E; [|vm_compute in E; discriminate E].
  destruct (ranking_limits_are_prefixes Examples.exact_match
              (fun _ => Some 29%Z)
              (fun id => mock_bounty id "2030-01-01T00:00:00") mock_developer
              mock_developers [] 1 "0x01" 1 10 0.4) as [H _]; [lia|].
  destruct (H r' E) as (r & Hr & Hm & _).
  exists r, r'. split; [reflexivity|]. split; [exact Hr | exact Hm].
Defined.






End MatchingExtras.

(** * Further properties of the code analysis *)

Module AnalysisExtras.
Import PyNum PyStr PyAst CodeAnalysisTool.
Local Open Scope string_scope.

(** ** Complexity *)

Lemma complexity_count (nodes : list node_class) (start : Z) :
  fold_left
    (fun complexity node =>
       match node with
       | If | While | For | AsyncFor => complexity + 1
       | ExceptHandler => complexity + 1
       | And | Or => complexity + 1
       | Other => complexity
       end)%Z
    nodes start
  = (start + Z.of_nat (List.length (filter Derived.is_branching nodes)))%Z.
Proof.
  revert start. induction nodes as [|n nodes IH]; intro start.
  - simpl. lia.
  - cbn [fold_left filter]. rewrite IH.
    destruct n; cbn [Derived.is_branching List.length]; lia.
Qed.

Lemma complexity_value (tree : ast) :
  _calculate_complexity tree
  = py_min 10 (inject_Z (1 + Derived.branching_nodes tree) / 5).
Proof.
  unfold _calculate_complexity, Derived.branching_nodes.
  rewrite complexity_count. reflexivity.
Qed.

Lemma complexity_range (tree : ast) :
  1 # 5 <= _calculate_complexity tree <= 10.
Proof.
  rewrite complexity_value.
  assert (H : 1 <= inject_Z (1 + Derived.branching_nodes tree)).
  { change 1 with (inject_Z 1) at 1. rewrite <- Zle_Qle.
    unfold Derived.branching_nodes. lia. }
  set (n := inject_Z (1 + Derived.branching_nodes tree)) in *.
  minmax_cases; qlra.
Qed.

(** The complexity score of a syntax tree is (1 + b) / 5 capped at 10,
    where b counts the nodes that are a conditional, a loop, an exception
    handler or a boolean operator; it lies between 0.2 and 10 and it is 10
    exactly from 49 such nodes on. *)
Theorem complexity_counts_branching_nodes (tree : ast) :
  let b := Derived.branching_nodes tree in
  _calculate_complexity tree == Qmin 10 (inject_Z (1 + b) / 5) /\
  1 # 5 <= _calculate_complexity tree <= 10 /\
  (_calculate_complexity tree == 10 <-> (49 <= b)%Z).
Proof.
  intro b. split; [|split].
  - rewrite complexity_value. apply PyNumFacts.py_min_Qmin.
  - apply complexity_range.
  - rewrite complexity_value. fold b.
    assert (E : inject_Z (1 + b) == 1 + inject_Z b).
    { rewrite inject_Z_plus. reflexivity. }
    split.
    + intro H. rewrite Zle_Qle. change (inject_Z 49) with 49.
      revert H. set (x := inject_Z (1 + b)) in *. minmax_cases; intro; qlra.
    + intro H. rewrite Zle_Qle in H. change (inject_Z 49) with 49 in H.
      set (x := inject_Z (1 + b)) in *. minmax_cases; qlra.
Qed.

(** ** The four analyzers *)

Lemma split_nonempty (sep : ascii) (s : string) :
  (1 <= List.length (split sep s))%nat.
Proof.
  induction s as [|c s IH]; simpl; [lia|].
  destruct (Ascii.eqb c sep); simpl; [lia|].
  destruct (split sep s); simpl in *; lia.
Qed.

Lemma line_count_positive (code : string) : (1 <= line_count code)%Z.
Proof.
  unfold line_count. pose proof (split_nonempty newline code). lia.
Qed.

Lemma capped (x : Q) : 0 <= x -> 0 <= py_min 10 x <= 10.
Proof. intro H. minmax_cases; lra. Qed.

Lemma count_quotient_nonneg (n : nat) (d : Q) :
  0 < d -> 0 <= inject_Z (Z.of_nat n) / d.
Proof.
  intro Hd. apply Qle_shift_div_l; [exact Hd|].
  assert (0 <= inject_Z (Z.of_nat n)) by (unfold Qle; simpl; lia). lra.
Qed.

Lemma python_analysis_shape (ast_parse : string -> parse_outcome)
    (code : string) (r : CodeAnalysis.t) :
  _analyze_python_code ast_parse code = Some r ->
  Derived.analysis_shape code r.
Proof.
  unfold _analyze_python_code, Derived.analysis_shape.
  destruct (ast_parse code) as [tree | e |]; [| |discriminate];
    intro H; injection H as <-; cbn.
  - pose proof (complexity_range tree) as [Hlo Hhi].
    eexists. split; [reflexivity|]. split; [split; lra|].
    unfold security_scans, append_if.
    destruct (contains "eval(" code), (contains "exec(" code),
      (Re.search sql_injection_pattern code),
      (Re.search hardcoded_secret_pattern code);
      (split; [reflexivity | simpl; lia]).
  - eexists. split; [reflexivity|]. split; [split; lra|].
    split; [reflexivity | simpl; lia].
Qed.

Lemma javascript_analysis_shape (code : string) :
  Derived.analysis_shape code (_analyze_javascript_code code).
Proof.
  unfold _analyze_javascript_code, Derived.analysis_shape. cbn.
  eexists. split; [reflexivity|].
  split; [apply capped, count_quotient_nonneg; lra|].
  unfold append_if.
  destruct (contains "eval(" code), (contains "innerHTML" code),
    (contains "console.log" code);
    (split; [reflexivity | simpl; lia]).
Qed.

Lemma solidity_analysis_shape (code : string) :
  Derived.analysis_shape code (_analyze_solidity_code code).
Proof.
  unfold _analyze_solidity_code, Derived.analysis_shape, append_if.
  destruct (contains "tx.origin" code),
    (Re.search low_level_call_pattern code),
    (contains "block.timestamp" code && contains "now" code),
    (Re.search old_pragma_pattern code
     && existsb (fun op => contains op code) ["+"; "-"; "*"; "/"]);
    cbn; (eexists; split; [reflexivity|]);
    (split; [apply capped, count_quotient_nonneg; lra|]);
    (split; [reflexivity | simpl; lia]).
Qed.

Lemma generic_analysis_shape (code : string) :
  Derived.analysis_shape code (_analyze_generic_code code).
Proof.
  unfold _analyze_generic_code, Derived.analysis_shape, append_if, line_count.
  destruct (1000 <? Z.of_nat (List.length (split newline code)))%Z;
    cbn; (eexists; split; [reflexivity|]);
    (split; [apply capped, count_quotient_nonneg; lra|]);
    (split; [reflexivity | simpl; lia]).
Qed.

Lemma run_analysis_shape (ast_parse : string -> parse_outcome)
    (code language : string) (r : CodeAnalysis.t) :
  _run ast_parse code language = Some r -> Derived.analysis_shape code r.
Proof.
  unfold _run.
  destruct (String.eqb (lower language) "python");
    [apply python_analysis_shape|].
  destruct (String.eqb (lower language) "javascript"
            || String.eqb (lower language) "typescript");
    [intro H; injection H as <-; apply javascript_analysis_shape|].
  destruct (String.eqb (lower language) "solidity");
    intro H; injection H as <-.
  - apply solidity_analysis_shape.
  - apply generic_analysis_shape.
Qed.

Lemma filter_disjoint_length {A : Type} (p q : A -> bool) (l : list A) :
  (forall x, p x = true -> q x = false) ->
  (List.length (filter p l) + List.length (filter q l) <= List.length l)%nat.
Proof.
  intro H. induction l as [|x l IH]; [simpl; lia|].
  cbn [filter]. destruct (p x) eqn:Ep.
  - rewrite (H x Ep). cbn [List.length]. lia.
  - destruct (q x); cbn [List.length]; lia.
Qed.

(** Whatever the language, a result of the code analysis tool has a
    complexity score within [0,10], a positive line count, a security
    count and a style count that are the numbers of issues of these types
    in its issue list, no performance issue, and at most four issues. *)
Theorem code_analysis_result_is_consistent
    (ast_parse : string -> parse_outcome) (code language : string)
    (r : CodeAnalysis.t) :
  _run ast_parse code language = Some r ->
  exists (c : Q) (lines : Z),
    CodeAnalysis.complexity_score r = Some c /\ 0 <= c <= 10 /\
    (1 <= lines)%Z /\
    CodeAnalysis.metrics r
    = Some (CodeAnalysis.Build_Metrics (Some lines)
              (Some (count_type "security" (CodeAnalysis.issues r)))
              (Some (count_type "style" (CodeAnalysis.issues r)))
              (Some 0%Z)) /\
    (count_type "security" (CodeAnalysis.issues r)
     + count_type "style" (CodeAnalysis.issues r)
     <= Z.of_nat (List.length (CodeAnalysis.issues r)) <= 4)%Z.
Proof.
  intro H. apply run_analysis_shape in H.
  destruct H as (c & Hc & Hr & Hm & Hl).
  exists c, (line_count code).
  split; [exact Hc|]. split; [exact Hr|].
  split; [apply line_count_positive|]. split; [exact Hm|].
  split; [|lia].
  unfold count_type.
  pose proof (filter_disjoint_length
                (fun i => String.eqb (Issue.type i) "security")
                (fun i => String.eqb (Issue.type i) "style")
                (CodeAnalysis.issues r)) as Hd.
  cbv beta in Hd.
  assert (Hx : forall i : Issue.t,
             String.eqb (Issue.type i) "security" = true ->
             String.eqb (Issue.type i) "style" = false).
  { intros i E. apply String.eqb_eq in E. rewrite E. reflexivity. }
  specialize (Hd Hx). lia.
Qed.

Lemma code_analysis_result_is_consistent_witness :
  exists (c : Q) (lines : Z),
    CodeAnalysis.complexity_score (_analyze_javascript_code "eval(x)")
    = Some c /\ 0 <= c <= 10 /\ (1 <= lines)%Z /\
    CodeAnalysis.metrics (_analyze_javascript_code "eval(x)")
    = Some (CodeAnalysis.Build_Metrics (Some lines)
              (Some (count_type "security"
                 (CodeAnalysis.issues (_analyze_javascript_code "eval(x)"))))
              (Some (count_type "style"
                 (CodeAnalysis.issues (_analyze_javascript_code "eval(x)"))))
              (Some 0%Z)) /\
    (count_type "security"
       (CodeAnalysis.issues (_analyze_javascript_code "eval(x)"))
     + count_type "style"
         (CodeAnalysis.issues (_analyze_javascript_code "eval(x)"))
     <= Z.of_nat (List.length
                    (CodeAnalysis.issues (_analyze_javascript_code "eval(x)")))
     <= 4)%Z.
Proof.
  apply (code_analysis_result_is_consistent Examples.parse_table "eval(x)"
           "TypeScript").
  reflexivity.
Defined.

(** The language is compared without regard to case; javascript and
    typescript share one analyzer; and every language other than python,
    javascript, typescript and solidity gets the generic analyzer, which
    always returns. *)
Theorem code_analysis_dispatch (ast_parse : string -> parse_outcome)
    (code language : string) :
  _run ast_parse code (lower language) = _run ast_parse code language /\
  (lower language = "python" ->
   _run ast_parse code language = _analyze_python_code ast_parse code) /\
  (lower language = "javascript" \/ lower language = "typescript" ->
   _run ast_parse code language = Some (_analyze_javascript_code code)) /\
  (lower language = "solidity" ->
   _run ast_parse code language = Some (_analyze_solidity_code code)) /\
  (~ In (lower language) ["python"; "javascript"; "typescript"; "solidity"] ->
   _run ast_parse code language = Some (_analyze_generic_code code)).
Proof.
  split; [|split; [|split; [|split]]].
  - unfold _run. rewrite MatchingExtras.lower_idempotent. reflexivity.
  - intro E. unfold _run. rewrite E. reflexivity.
  - intros [E | E]; unfold _run; rewrite E; reflexivity.
  - intro E. unfold _run. rewrite E. reflexivity.
  - intro H. unfold _run.
    destruct (String.eqb (lower language) "python") eqn:E1;
      [apply String.eqb_eq in E1; exfalso; apply H; simpl; auto|].
    destruct (String.eqb (lower language) "javascript") eqn:E2;
      [apply String.eqb_eq in E2; exfalso; apply H; simpl; auto|].
    destruct (String.eqb (lower language) "typescript") eqn:E3;
      [apply String.eqb_eq in E3; exfalso; apply H; simpl; auto|].
    destruct (String.eqb (lower language) "solidity") eqn:E4;
      [apply String.eqb_eq in E4; exfalso; apply H; simpl; auto|].
    reflexivity.
Qed.

Lemma code_analysis_dispatch_witness :
  _run Examples.parse_table "eval(x)" "Rust"
  = Some (_analyze_generic_code "eval(x)").
Proof.
  apply (code_analysis_dispatch Examples.parse_table "eval(x)" "Rust").
  vm_compute. intuition discriminate.
Defined.

End AnalysisExtras.

(** * Further properties of the documentation analysis *)

Module DocumentationExtras.
Import PyNum PyStr DocumentationAnalysisTool.
Local Open Scope string_scope.

Lemma lower_empty (s : string) :
  String.eqb (lower s) EmptyString = String.eqb s EmptyString.
Proof. destruct s; reflexivity. Qed.

(** The README score as a whole number of points. *)
Lemma readme_points (readme : string) :
  exists k : Z,
    _analyze_readme readme = inject_Z k /\
    (k = 0 \/ 10 <= k <= 100)%Z /\
    (k mod 5 = 0)%Z /\
    ((String.length readme <= 500)%nat -> (k <= 85)%Z).
Proof.
  unfold _analyze_readme.
  destruct (String.eqb readme EmptyString).
  { exists 0%Z. split; [reflexivity|]. split; [lia|].
    split; [reflexivity | lia]. }
  cbv zeta. unfold add_if.
  destruct (500 <? String.length readme)%nat eqn:El;
    [apply Nat.ltb_lt in El | apply Nat.ltb_ge in El];
    repeat match goal with
           | |- context [if ?b then _ else _] => destruct b
           end;
    eexists; (split; [vm_compute; reflexivity|]);
    (split; [lia|]);
    (split; [vm_compute; reflexivity | lia]).
Qed.

Lemma readme_score_range (readme : string) :
  0 <= _analyze_readme readme <= 100 /\
  (_analyze_readme readme == 0 \/ 10 <= _analyze_readme readme).
Proof.
  destruct (readme_points readme) as (k & -> & Hk & _).
  change 0 with (inject_Z 0). change 100 with (inject_Z 100).
  change 10 with (inject_Z 10). rewrite <- !Zle_Qle, inject_Z_injective. lia.
Qed.

(** The README score is a whole number of points between 0 and 100, a
    multiple of 5 that is 0 or at least 10; a README of at most 500
    characters scores at most 85; an empty README scores 0; and the score
    depends on the text only through its lower-cased form and through
    whether it is longer than 500 characters: two texts that agree on
    both score the same, whatever their letter case. *)
Theorem readme_score_points_and_case (readme : string) :
  (exists k : Z,
     _analyze_readme readme == inject_Z k /\
     (k = 0 \/ 10 <= k <= 100)%Z /\ (k mod 5 = 0)%Z /\
     ((String.length readme <= 500)%nat -> (k <= 85)%Z)) /\
  _analyze_readme EmptyString == 0 /\
  (forall other : string,
     lower other = lower readme ->
     (500 <? String.length other)%nat = (500 <? String.length readme)%nat ->
     _analyze_readme other == _analyze_readme readme).
Proof.
  split; [|split].
  - destruct (readme_points readme) as (k & E & H).
    exists k. rewrite E. split; [reflexivity | exact H].
  - reflexivity.
  - intros other Hlow Hlen. unfold _analyze_readme.
    rewrite <- (lower_empty other), <- (lower_empty readme), Hlow, Hlen.
    reflexivity.
Qed.

(** Two short texts that differ in letter case only. *)
Example readme_score_of_two_cases :
  _analyze_readme "INSTALLATION and Usage" == 40 /\
  _analyze_readme "installation and usage" == 40.
Proof. vm_compute. split; reflexivity. Qed.

(** ** The documentation score *)

Lemma comment_ratio_range (code : string) :
  exists ratio : Q,
    _calculate_comment_ratio code = Some ratio /\ 0 <= ratio < 1.
Proof.
  rewrite DocumentationFacts.comment_ratio_value.
  pose proof (DocumentationFacts.counts_nonneg code) as [Hc Hk].
  destruct (Spec.non_blank_code_lines code =? 0)%Z eqn:E.
  - exists 0. split; [reflexivity | lra].
  - apply Z.eqb_neq in E. eexists. split; [reflexivity|].
    set (c := Spec.comment_lines code) in *.
    set (k := Spec.non_blank_code_lines code) in *.
    assert (Hpos : 0 < inject_Z (c + k)).
    { change 0 with (inject_Z 0). rewrite <- Zlt_Qlt. lia. }
    split.
    + apply Qle_shift_div_l; [exact Hpos|].
      rewrite Qmult_0_l. change 0 with (inject_Z 0). rewrite <- Zle_Qle. lia.
    + apply Qlt_shift_div_r; [exact Hpos|].
      rewrite Qmult_1_l. rewrite <- Zlt_Qlt. lia.
Qed.

Lemma documentation_run_value (code readme : string) :
  exists ratio : Q,
    _calculate_comment_ratio code = Some ratio /\ 0 <= ratio < 1 /\
    _run code readme
    = Some (DocAnalysis.Build
              (Some (py_min 100 (ratio * 50 + _analyze_readme readme * 50)))
              (Some ratio) (Some (_analyze_readme readme))
              (if Qltb ratio 0.1 then [low_comment_issue] else [])).
Proof.
  destruct (comment_ratio_range code) as (ratio & E & H).
  exists ratio. split; [exact E|]. split; [exact H|].
  unfold _run. rewrite E. cbn [bind]. destruct (Qltb ratio 0.1); reflexivity.
Qed.

Lemma documentation_score_value (code readme : string) :
  exists (d : DocAnalysis.t) (ratio score : Q),
    _run code readme = Some d /\
    DocAnalysis.comment_ratio d = Some ratio /\
    DocAnalysis.documentation_score d = Some score /\
    DocAnalysis.readme_score d = Some (_analyze_readme readme) /\
    0 <= ratio < 1 /\
    (_analyze_readme readme == 0 -> score == ratio * 50) /\
    (10 <= _analyze_readme readme -> score == 100).
Proof.
  destruct (documentation_run_value code readme) as (ratio & _ & Hr & E).
  eexists _, ratio, _. split; [exact E|]. cbn.
  split; [reflexivity|]. split; [reflexivity|]. split; [reflexivity|].
  split; [exact Hr|].
  pose proof (readme_score_range readme) as [Hs _].
  set (s := _analyze_readme readme) in *.
  split; intro H; minmax_cases; lra.
Qed.

(** The documentation tool always returns, with a comment ratio in [0,1)
    and a documentation score that is exactly 100 as soon as the README
    earns any point and 50 times the comment ratio, so below 50, otherwise:
    no score lies between 50 and 100. *)
Theorem documentation_score_is_all_or_below_half (code readme : string) :
  exists (d : DocAnalysis.t) (ratio score : Q),
    _run code readme = Some d /\
    DocAnalysis.comment_ratio d = Some ratio /\
    DocAnalysis.documentation_score d = Some score /\
    0 <= ratio < 1 /\
    (_analyze_readme readme == 0 -> score == 50 * ratio /\ score < 50) /\
    (0 < _analyze_readme readme -> score == 100) /\
    (0 <= score < 50 \/ score == 100).
Proof.
  destruct (documentation_score_value code readme)
    as (d & ratio & score & E & Hr & Hs & _ & Hrange & H0 & H10).
  exists d, ratio, score.
  split; [exact E|]. split; [exact Hr|]. split; [exact Hs|].
  split; [exact Hrange|].
  pose proof (readme_score_range readme) as [_ [Hz | Hp]].
  - specialize (H0 Hz). split; [intros _; split; lra|].
    split; [intro; lra | left; lra].
  - specialize (H10 Hp). split; [intro; lra|].
    split; [intros _; exact H10 | right; exact H10].
Qed.

End DocumentationExtras.

(** * Further properties of the quality assessment *)

Module AssessmentExtras.
Import PyNum PyStr Schemas QualityAssessmentAgent.
Local Open Scope string_scope.

(** ** Issues *)

Lemma append_fold {A B : Type} (f : A -> B) (l : list A) (init : list B) :
  fold_left (fun acc x => (acc ++ [f x])%list) l init
  = (init ++ map f l)%list.
Proof.
  revert init. induction l as [|x l IH]; intro init.
  - simpl. rewrite app_nil_r. reflexivity.
  - simpl. rewrite IH, <- app_assoc. reflexivity.
Qed.

Lemma compile_issues_value (code_analysis : CodeAnalysis.t)
    (doc_analysis : DocAnalysis.t) :
  _compile_issues code_analysis doc_analysis
  = (map code_issue (CodeAnalysis.issues code_analysis)
     ++ map documentation_issue (DocAnalysis.issues doc_analysis))%list.
Proof. unfold _compile_issues. rewrite !append_fold. reflexivity. Qed.

(** The compiled issue list holds the code issues in their order followed
    by the documentation issues in theirs, each with its type, severity
    and description unchanged; no compiled issue names a file, every one
    carries a suggestion, and a documentation issue has no line number. *)
Theorem compile_issues_keeps_order_and_fields
    (code_analysis : CodeAnalysis.t) (doc_analysis : DocAnalysis.t) :
  let issues := _compile_issues code_analysis doc_analysis in
  issues
  = (map code_issue (CodeAnalysis.issues code_analysis)
     ++ map documentation_issue (DocAnalysis.issues doc_analysis))%list /\
  map QualityIssue.description issues
  = (map Issue.description (CodeAnalysis.issues code_analysis)
     ++ map Issue.description (DocAnalysis.issues doc_analysis))%list /\
  map QualityIssue.severity issues
  = (map Issue.severity (CodeAnalysis.issues code_analysis)
     ++ map Issue.severity (DocAnalysis.issues doc_analysis))%list /\
  (forall i, In i issues ->
     QualityIssue.file_path i = None /\ QualityIssue.suggestion i <> None) /\
  (forall n i,
     nth_error issues (List.length (CodeAnalysis.issues code_analysis) + n)
     = Some i ->
     QualityIssue.line_number i = None).
Proof.
  intro issues. subst issues. rewrite compile_issues_value.
  split; [reflexivity|].
  split; [rewrite map_app, !map_map; reflexivity|].
  split; [rewrite map_app, !map_map; reflexivity|].
  split.
  - intros i Hi. apply in_app_or in Hi.
    destruct Hi as [Hi | Hi]; apply in_map_iff in Hi;
      destruct Hi as (x & <- & _); (split; [reflexivity | discriminate]).
  - intros n i Hn.
    rewrite nth_error_app2 in Hn by (rewrite length_map; lia).
    rewrite length_map in Hn.
    replace (List.length (CodeAnalysis.issues code_analysis) + n
             - List.length (CodeAnalysis.issues code_analysis))%nat
      with n in Hn by lia.
    apply nth_error_In, in_map_iff in Hn.
    destruct Hn as (x & <- & _). reflexivity.
Qed.

(** ** Suggestions *)

Lemma in_append_when (x : string) (c : bool) (text : string)
    (l : list string) :
  In x (append_when c text l) <-> In x l \/ (c = true /\ x = text).
Proof.
  unfold append_when. destruct c.
  - rewrite in_app_iff. simpl. intuition congruence.
  - intuition congruence.
Qed.

Lemma append_when_length (c : bool) (text : string) (l : list string) :
  (List.length l <= List.length (append_when c text l)
   <= S (List.length l))%nat.
Proof.
  unfold append_when. destruct c; [rewrite length_app; simpl|]; lia.
Qed.

(** Bounds on the length of every list built by [append_when]. *)
Ltac bound_appends :=
  repeat match goal with
  | |- context [append_when ?c ?t ?l] =>
      pose proof (append_when_length c t l);
      let x := fresh "l" in
      set (x := append_when c t l) in *; clearbody x
  | H : context [append_when ?c ?t ?l] |- _ =>
      pose proof (append_when_length c t l);
      let x := fresh "l" in
      set (x := append_when c t l) in *; clearbody x
  end.

Lemma computed_test_coverage (code_analysis : CodeAnalysis.t)
    (doc_analysis : DocAnalysis.t) (m : CodeQualityMetrics.t) :
  _calculate_quality_metrics code_analysis doc_analysis = Some m ->
  CodeQualityMetrics.test_coverage_score m = 70 /\
  CodeQualityMetrics.documentation_score m
  = get (DocAnalysis.documentation_score doc_analysis) 50.
Proof.
  unfold _calculate_quality_metrics, CodeQualityMetrics.new.
  match goal with |- context [if ?b then _ else _] => destruct b end;
    [|discriminate].
  intro H. injection H as <-. split; reflexivity.
Qed.

Lemma has_critical (issues : list QualityIssue.t) :
  negb (SkillMatchingTool.is_empty (with_severity "critical" issues)) = true
  <-> exists i, In i issues /\ QualityIssue.severity i = "critical".
Proof.
  unfold with_severity. split.
  - destruct (filter _ issues) as [|i l] eqn:E; [discriminate|].
    intros _. assert (Hi : In i (i :: l)) by (left; reflexivity).
    rewrite <- E in Hi. apply filter_In in Hi. destruct Hi as [Hi Hs].
    exists i. split; [exact Hi | apply String.eqb_eq; exact Hs].
  - intros (i & Hi & Hs).
    assert (Hf : In i (filter
                         (fun i => String.eqb (QualityIssue.severity i)
                                     "critical") issues)).
    { apply filter_In. split; [exact Hi | apply String.eqb_eq; exact Hs]. }
    destruct (filter _ issues); [destruct Hf | reflexivity].
Qed.

(** For metrics the aggregator has computed, the suggestions always ask
    for more test coverage, since the test coverage score is the constant
    70; they ask to address the critical issues exactly when some issue is
    critical; and there are between one and five of them. *)
Theorem suggestions_for_computed_metrics (code_analysis : CodeAnalysis.t)
    (doc_analysis : DocAnalysis.t) (m : CodeQualityMetrics.t)
    (issues : list QualityIssue.t) :
  _calculate_quality_metrics code_analysis doc_analysis = Some m ->
  In "Increase test coverage with unit tests, integration tests, and edge cases"
     (_generate_suggestions m issues) /\
  (In "Address all critical issues before deployment"
      (_generate_suggestions m issues)
   <-> exists i, In i issues /\ QualityIssue.severity i = "critical") /\
  (1 <= List.length (_generate_suggestions m issues) <= 5)%nat.
Proof.
  intro H. apply computed_test_coverage in H. destruct H as [Ht _].
  unfold _generate_suggestions. rewrite Ht.
  change (Qltb 70 80) with true.
  split; [|split].
  - rewrite !in_append_when. left. right. split; reflexivity.
  - rewrite !in_append_when, has_critical. split.
    + intros [[[[[[] | [_ E]] | [_ E]] | [_ E]] | [_ E]] | [E _]];
        [discriminate E .. | exact E].
    + intro E. right. split; [exact E | reflexivity].
  - match goal with
    | |- context [append_when true ?t ?l] =>
        change (append_when true t l) with (l ++ [t])%list
    end.
    bound_appends. rewrite length_app in *. simpl in *. lia.
Qed.

Lemma suggestions_for_computed_metrics_witness :
  exists m : CodeQualityMetrics.t,
    _calculate_quality_metrics (CodeAnalysis.Build (Some 2) [] None)
      (DocAnalysis.Build (Some 100) None None []) = Some m /\
    In "Increase test coverage with unit tests, integration tests, and edge cases"
       (_generate_suggestions m []).
Proof.
  eexists. split; [vm_compute; reflexivity|].
  apply (suggestions_for_computed_metrics
           (CodeAnalysis.Build (Some 2) [] None)
           (DocAnalysis.Build (Some 100) None None []) _ []).
  vm_compute. reflexivity.
Defined.

(** ** The summary *)

Lemma prefix_append (s t : string) : String.prefix s (s ++ t) = true.
Proof.
  induction s as [|c s IH]; [destruct t; reflexivity|].
  simpl. destruct (ascii_dec c c) as [_ | N]; [exact IH | contradiction].
Qed.

Lemma prefix_refl (s : string) : String.prefix s s = true.
Proof.
  induction s as [|c s IH]; [reflexivity|].
  simpl. destruct (ascii_dec c c) as [_ | N]; [exact IH | contradiction].
Qed.

Lemma prefix_join (sep first : string) (rest : list string) :
  String.prefix first (join sep (first :: rest)) = true.
Proof.
  destruct rest as [|second rest]; [apply prefix_refl|].
  cbn [join]. apply prefix_append.
Qed.

Lemma append_when_cons (c : bool) (text first : string) (l : list string) :
  append_when c text (first :: l) = first :: append_when c text l.
Proof. destruct c; reflexivity. Qed.

Lemma summary_parts_head (m : CodeQualityMetrics.t)
    (issues : list QualityIssue.t) (suggestions : list string) :
  exists rest : list string,
    summary_parts m issues suggestions
    = overall_assessment (CodeQualityMetrics.overall_score m) :: rest /\
    (List.length rest <= 4)%nat.
Proof.
  unfold summary_parts. cbv zeta. cbn [app].
  rewrite !append_when_cons. eexists. split; [reflexivity|].
  bound_appends. simpl in *. lia.
Qed.

Lemma Qgeb_full_depth (x t : Q) :
  Float64.representable x ->
  Qgeb (Float64.mul x (Float64.round 1.0)) t = Qgeb x t.
Proof.
  intro Hx. unfold Float64.mul.
  assert (E : Float64.round (x * Float64.round 1.0) == x).
  { assert (H1 : Float64.round 1.0 == 1) by (vm_compute; reflexivity).
    rewrite (Float64Facts.round_comp (x * Float64.round 1.0) x);
      [exact Hx | rewrite H1; ring]. }
  set (r := Float64.round (x * Float64.round 1.0)) in *.
  destruct (Qgeb x t) eqn:G.
  - apply PyNumFacts.Qgeb_true in G. apply PyNumFacts.Qgeb_true. lra.
  - apply PyNumFacts.Qgeb_false in G. apply PyNumFacts.Qgeb_false. lra.
Qed.

(** The summary opens with the verdict on the overall score and has at
    most four further parts; from ten files on, where the depth factor is
    1, the verdict is the one of the confidence tier: excellent for
    very_high, good for high, acceptable for medium, and the call for
    significant improvement for low.  The overall score is a float, as
    every score of the program is: the product with 1.0 is then the score
    itself. *)
Theorem summary_verdict_matches_tier (m : CodeQualityMetrics.t)
    (issues : list QualityIssue.t) (suggestions : list string) (n : Z) :
  Float64.representable (CodeQualityMetrics.overall_score m) ->
  (10 <= n)%Z ->
  overall_assessment (CodeQualityMetrics.overall_score m)
  = Derived.verdict (_determine_confidence_level m n) /\
  String.prefix (Derived.verdict (_determine_confidence_level m n))
    (_generate_analysis_summary m issues suggestions) = true /\
  (1 <= List.length (summary_parts m issues suggestions) <= 5)%nat.
Proof.
  intros Hm Hn.
  assert (E : overall_assessment (CodeQualityMetrics.overall_score m)
              = Derived.verdict (_determine_confidence_level m n)).
  { unfold overall_assessment, _determine_confidence_level, depth_factor.
    apply Z.leb_le in Hn. rewrite Hn. cbv zeta.
    rewrite !(Qgeb_full_depth _ _ Hm).
    destruct (Qgeb (CodeQualityMetrics.overall_score m) 85); [reflexivity|].
    destruct (Qgeb (CodeQualityMetrics.overall_score m) 70); [reflexivity|].
    destruct (Qgeb (CodeQualityMetrics.overall_score m) 55); reflexivity. }
  destruct (summary_parts_head m issues suggestions) as (rest & Hp & Hl).
  split; [exact E|]. split.
  - unfold _generate_analysis_summary. rewrite Hp, <- E. apply prefix_join.
  - rewrite Hp. simpl. lia.
Qed.

Lemma summary_verdict_matches_tier_witness :
  overall_assessment
    (CodeQualityMetrics.overall_score
       (CodeQualityMetrics.Build 72 100 80 84 20 70))
  = Derived.verdict
      (_determine_confidence_level
         (CodeQualityMetrics.Build 72 100 80 84 20 70) 12).
Proof.
  apply (summary_verdict_matches_tier
           (CodeQualityMetrics.Build 72 100 80 84 20 70) [] [] 12).
  - vm_compute. reflexivity.
  - lia.
Defined.

(** ** Code files *)

Lemma substring_all (s : string) : substring 0 (String.length s) s = s.
Proof. induction s as [|c s IH]; [reflexivity|]. simpl. rewrite IH. reflexivity. Qed.

Lemma substring_suffix (s t : string) :
  substring (String.length s) (String.length t) (s ++ t) = t.
Proof. induction s as [|c s IH]; [apply substring_all | exact IH]. Qed.

Lemma append_length (s t : string) :
  String.length (s ++ t) = (String.length s + String.length t)%nat.
Proof. induction s as [|c s IH]; [reflexivity|]. simpl. rewrite IH. reflexivity. Qed.

Lemma substring_split (n : nat) (s : string) :
  (n <= String.length s)%nat ->
  s = substring 0 n s ++ substring n (String.length s - n) s.
Proof.
  revert s. induction n as [|n IH]; intros s H.
  - rewrite Nat.sub_0_r, substring_all. destruct s; reflexivity.
  - destruct s as [|c s]; [simpl in H; lia|].
    simpl in H. cbn [substring String.length Nat.sub append].
    f_equal. apply IH. lia.
Qed.

Lemma endswith_iff (s suffix : string) :
  endswith s suffix = true <-> exists stem, s = stem ++ suffix.
Proof.
  unfold endswith. split.
  - intro H. apply andb_true_iff in H. destruct H as [Hl He].
    apply Nat.leb_le in Hl. apply String.eqb_eq in He.
    exists (substring 0 (String.length s - String.length suffix) s).
    assert (Hs : (String.length s - String.length suffix
                  <= String.length s)%nat) by lia.
    apply substring_split in Hs.
    replace (String.length s - (String.length s - String.length suffix))%nat
      with (String.length suffix) in Hs by lia.
    rewrite He in Hs. exact Hs.
  - intros (stem & ->). rewrite append_length. apply andb_true_iff. split.
    + apply Nat.leb_le. lia.
    + replace (String.length stem + String.length suffix
               - String.length suffix)%nat
        with (String.length stem) by lia.
      rewrite substring_suffix. apply String.eqb_refl.
Qed.

(** A file counts as a code file exactly when its name is some text
    followed by one of the nine extensions, in lower case as listed; the
    comparison respects case, and the stem may be empty. *)
Theorem code_file_iff_listed_extension (filename : string) :
  _is_code_file filename = true
  <-> exists stem ext,
        In ext [".py"; ".js"; ".ts"; ".sol"; ".go"; ".rs"; ".java"; ".cpp";
                ".c"] /\
        filename = stem ++ ext.
Proof.
  unfold _is_code_file. rewrite existsb_exists. split.
  - intros (ext & Hin & He). apply endswith_iff in He.
    destruct He as (stem & ->). exists stem, ext. split; [exact Hin | reflexivity].
  - intros (stem & ext & Hin & ->). exists ext.
    split; [exact Hin | apply endswith_iff; exists stem; reflexivity].
Qed.

Lemma count_type_app (ty : string) (a b : list Issue.t) :
  CodeAnalysisTool.count_type ty (a ++ b)
  = (CodeAnalysisTool.count_type ty a + CodeAnalysisTool.count_type ty b)%Z.
Proof.
  unfold CodeAnalysisTool.count_type. rewrite filter_app, length_app. lia.
Qed.

Lemma count_type_nonneg (ty : string) (l : list Issue.t) :
  (0 <= CodeAnalysisTool.count_type ty l)%Z.
Proof. unfold CodeAnalysisTool.count_type. lia. Qed.

Lemma add_analysis_ok (n : nat) (totals : Totals) (code : string)
    (analysis : CodeAnalysis.t) :
  Derived.totals_ok n totals -> Derived.analysis_shape code analysis ->
  Derived.totals_ok (S n) (add_analysis totals analysis).
Proof.
  intros (Hc & Hs & Ht & Hp) (c & Ec & Hr & Em & _).
  unfold add_analysis, Derived.totals_ok. rewrite Ec, Em. cbn.
  rewrite !count_type_app, Hs, Ht, Hp.
  split; [|split; [|split]]; try reflexivity.
  rewrite Zpos_P_of_succ_nat, <- Z.add_1_r, inject_Z_plus.
  change (inject_Z 1) with 1. lra.
Qed.

Section WithServices.

Variable ast_parse : string -> PyAst.parse_outcome.

Lemma analyze_items_ok (items : list (string * string)) :
  forall (language : option string) (totals totals' : Totals) (n : nat),
    analyze_items ast_parse items language totals = Some totals' ->
    Derived.totals_ok n totals ->
    exists k : nat,
      (k <= List.length items)%nat /\ Derived.totals_ok (n + k) totals'.
Proof.
  induction items as [|[filename content] items IH];
    intros language totals totals' n H Hok.
  - injection H as <-. exists 0%nat. rewrite Nat.add_0_r.
    split; [simpl; lia | exact Hok].
  - cbn [analyze_items] in H. destruct (_is_code_file filename).
    + destruct (code_tool_run ast_parse content language) as [a|] eqn:E;
        cbn [bind] in H; [|discriminate].
      unfold code_tool_run in E. destruct language as [l|]; [|discriminate].
      apply AnalysisExtras.run_analysis_shape in E.
      destruct (IH _ _ _ (S n) H (add_analysis_ok n totals content a Hok E))
        as (k & Hk & Hok').
      exists (S k). split; [simpl; lia|].
      replace (n + S k)%nat with (S n + k)%nat by lia. exact Hok'.
    + destruct (IH _ _ _ n H Hok) as (k & Hk & Hok').
      exists k. split; [simpl; lia | exact Hok'].
Qed.

Lemma file_count_positive (files : list (string * string)) :
  0 < inject_Z (Z.max 1 (Z.of_nat (List.length files))).
Proof. change 0 with (inject_Z 0). rewrite <- Zlt_Qlt. lia. Qed.

Lemma code_files_value (files : list (string * string))
    (language : option string) (r : CodeAnalysis.t) :
  _analyze_code_files ast_parse files language = Some r ->
  exists c : Q,
    CodeAnalysis.complexity_score r = Some c /\ 0 <= c <= 10 /\
    CodeAnalysis.metrics r
    = Some (CodeAnalysis.Build_Metrics None
              (Some (CodeAnalysisTool.count_type "security"
                       (CodeAnalysis.issues r)))
              (Some (CodeAnalysisTool.count_type "style"
                       (CodeAnalysis.issues r)))
              (Some 0%Z)).
Proof.
  unfold _analyze_code_files.
  destruct (analyze_items ast_parse files language (Build_Totals [] 0 0 0 0))
    as [totals|] eqn:E; cbn [bind]; [|discriminate].
  pose proof (file_count_positive files) as Hd.
  rewrite PyNumFacts.py_div_some by lra. cbn [bind].
  intro H. injection H as <-. cbn.
  apply (analyze_items_ok _ _ _ _ 0%nat) in E.
  2:{ unfold Derived.totals_ok.
      split; [vm_compute; split; discriminate|]. repeat split. }
  destruct E as (k & Hk & (Hc & Hs & Ht & Hp)). cbn [Nat.add] in Hc.
  eexists. split; [reflexivity|]. split.
  - assert (Hkd : inject_Z (Z.of_nat k)
                  <= inject_Z (Z.max 1 (Z.of_nat (List.length files)))).
    { rewrite <- Zle_Qle. lia. }
    split.
    + apply Qle_shift_div_l; [exact Hd | lra].
    + apply Qle_shift_div_r; [exact Hd | lra].
  - rewrite Hs, Ht, Hp. reflexivity.
Qed.

Lemma analysis_of_other_languages (content language : string) :
  lower language <> "python" ->
  exists a, code_tool_run ast_parse content (Some language) = Some a.
Proof.
  intro H. unfold code_tool_run, CodeAnalysisTool._run.
  destruct (String.eqb_spec (lower language) "python") as [E | _];
    [contradiction|].
  destruct (String.eqb (lower language) "javascript"
            || String.eqb (lower language) "typescript");
    [eexists; reflexivity|].
  destruct (String.eqb (lower language) "solidity"); eexists; reflexivity.
Qed.

Lemma analyze_items_other_languages (language : string)
    (items : list (string * string)) :
  lower language <> "python" ->
  forall totals,
    exists totals',
      analyze_items ast_parse items (Some language) totals = Some totals'.
Proof.
  intro H. induction items as [|[filename content] items IH]; intro totals.
  - eexists. reflexivity.
  - cbn [analyze_items]. destruct (_is_code_file filename); [|apply IH].
    destruct (analysis_of_other_languages content language H) as (a & ->).
    cbn [bind]. apply IH.
Qed.

Lemma analyze_items_without_code (items : list (string * string))
    (language : option string) (totals : Totals) :
  forallb (fun f => negb (_is_code_file (fst f))) items = true ->
  analyze_items ast_parse items language totals = Some totals.
Proof.
  induction items as [|[filename content] items IH]; [reflexivity|].
  cbn [forallb fst analyze_items]. intro H.
  apply andb_true_iff in H. destruct H as [Hf Hr].
  apply negb_true_iff in Hf. rewrite Hf. apply IH, Hr.
Qed.

(** The analysis of the files of a repository, when it returns, has a
    complexity score within [0,10] (the complexities of the code files
    summed and divided by the number of all files, at least 1) and counts
    of security and style issues that are the numbers of such issues in
    the list it returns; for a language other than python it always
    returns; and when no file is a code file it returns the empty
    analysis, complexity 0 and no issue, whatever the language, even an
    absent one. *)
Theorem code_files_analysis_totals (files : list (string * string))
    (language : option string) :
  (forall r,
     _analyze_code_files ast_parse files language = Some r ->
     exists c : Q,
       CodeAnalysis.complexity_score r = Some c /\ 0 <= c <= 10 /\
       CodeAnalysis.metrics r
       = Some (CodeAnalysis.Build_Metrics None
                 (Some (CodeAnalysisTool.count_type "security"
                          (CodeAnalysis.issues r)))
                 (Some (CodeAnalysisTool.count_type "style"
                          (CodeAnalysis.issues r)))
                 (Some 0%Z))) /\
  (forall l,
     language = Some l -> lower l <> "python" ->
     exists r, _analyze_code_files ast_parse files language = Some r) /\
  (forallb (fun f => negb (_is_code_file (fst f))) files = true ->
   exists c : Q,
     c == 0 /\
     _analyze_code_files ast_parse files language
     = Some (CodeAnalysis.Build (Some c) []
               (Some (CodeAnalysis.Build_Metrics None (Some 0%Z) (Some 0%Z)
                        (Some 0%Z))))).
Proof.
  split; [|split].
  - apply code_files_value.
  - intros l -> Hl. unfold _analyze_code_files.
    destruct (analyze_items_other_languages l files Hl (Build_Totals [] 0 0 0 0))
      as (totals & ->).
    cbn [bind]. pose proof (file_count_positive files) as Hd.
    rewrite PyNumFacts.py_div_some by lra. cbn [bind]. eexists. reflexivity.
  - intro H. unfold _analyze_code_files.
    rewrite analyze_items_without_code by exact H.
    cbn [bind]. pose proof (file_count_positive files) as Hd.
    rewrite PyNumFacts.py_div_some by lra. cbn.
    eexists. split; [|reflexivity].
    unfold Qdiv. apply Qmult_0_l.
Qed.

End WithServices.

(** ** The assessments *)

Lemma quality_metrics_returns (code_analysis : CodeAnalysis.t)
    (doc_analysis : DocAnalysis.t) :
  let metrics := get (CodeAnalysis.metrics code_analysis) empty_metrics in
  let security_issues := get (CodeAnalysis.security_issues metrics) 0%Z in
  let style_issues := get (CodeAnalysis.style_issues metrics) 0%Z in
  let complexity := get (CodeAnalysis.complexity_score code_analysis) 5 in
  let documentation := get (DocAnalysis.documentation_score doc_analysis) 50 in
  (0 <= security_issues)%Z -> (0 <= style_issues)%Z -> 0 <= complexity ->
  0 <= documentation <= 100 ->
  exists m : CodeQualityMetrics.t,
    _calculate_quality_metrics code_analysis doc_analysis = Some m /\
    CodeQualityMetrics.documentation_score m = documentation /\
    CodeQualityMetrics.test_coverage_score m = 70 /\
    CodeQualityMetrics.security_score m <= 100 /\
    CodeQualityMetrics.performance_score m <= 100 /\
    CodeQualityMetrics.maintainability_score m <= 100 /\
    CodeQualityMetrics.overall_score m
    == CodeQualityMetrics.security_score m * 0.25
       + CodeQualityMetrics.performance_score m * 0.20
       + CodeQualityMetrics.maintainability_score m * 0.20
       + documentation * 0.20 + 70 * 0.15.
Proof.
  intros metrics security_issues style_issues complexity documentation
    Hsec Hsty Hc Hdoc.
  pose proof (QualityMetricsFacts.scores_in_range
                (inject_Z security_issues) complexity (inject_Z style_issues)
                documentation
                (QualityMetricsFacts.inject_Z_nonneg _ Hsec) Hc
                (QualityMetricsFacts.inject_Z_nonneg _ Hsty) Hdoc)
    as (H1 & H2 & H3 & H4).
  cbv zeta in H1, H2, H3, H4.
  unfold _calculate_quality_metrics, CodeQualityMetrics.new.
  repeat match goal with
         | |- context [in_range ?lo ?hi ?x] =>
             replace (in_range lo hi x) with true
               by (symmetry; apply QualityMetricsFacts.in_range_true;
                   first [exact H1 | exact H2 | exact H3 | exact H4
                         | exact Hdoc | lra])
         end.
  cbn [andb]. eexists. split; [reflexivity|]. cbn.
  split; [reflexivity|]. split; [reflexivity|].
  split; [apply H1|]. split; [apply H2|]. split; [apply H3|]. reflexivity.
Qed.

(** With a single file the score is multiplied by the float 0.8: a score
    below 86 gives a product of at most 69, and so does its rounding. *)
Lemma shallow_assessment_confidence (m : CodeQualityMetrics.t) :
  CodeQualityMetrics.overall_score m < 86 ->
  _determine_confidence_level m 1 = LOW \/
  _determine_confidence_level m 1 = MEDIUM.
Proof.
  intro H. unfold _determine_confidence_level.
  change (depth_factor 1) with (Float64.round 0.8).
  cbv zeta. unfold Float64.mul.
  assert (Hr : 0 <= Float64.round 0.8 /\ Float64.round 0.8 <= 0.801)
    by (vm_compute; split; discriminate).
  assert (H69 : Float64.round 69 == 69) by (vm_compute; reflexivity).
  assert (Hx : CodeQualityMetrics.overall_score m * Float64.round 0.8 <= 69).
  { set (r := Float64.round 0.8) in *. clearbody r.
    set (x := CodeQualityMetrics.overall_score m) in *. clearbody x.
    destruct Hr as [Hr0 Hr1].
    destruct (Qlt_le_dec x 0) as [Hneg | Hpos]; nra. }
  pose proof (Float64Facts.round_mono _ _ Hx) as Hm. rewrite H69 in Hm.
  set (a := Float64.round (CodeQualityMetrics.overall_score m
                           * Float64.round 0.8)) in *.
  threshold_cases; auto; exfalso; lra.
Qed.

Lemma empty_code_ratio :
  DocumentationAnalysisTool._calculate_comment_ratio EmptyString = Some 0.
Proof. reflexivity. Qed.

Section Pipeline.

Variable ast_parse : string -> PyAst.parse_outcome.
Variable _fetch_repository_data : string -> RepositoryData.
Variable _get_solution_data : Z -> SolutionData.

(** An assessment of code given in the request returns whenever the code
    analysis does, and fails with it, as it does for a request without a
    language.  Since the documentation tool sees no README, the
    documentation score is below 50, the overall score below 85.5 and,
    with the depth factor 0.8 of a single file, the confidence level is
    low or medium, never high; when suggestions are wanted they include
    the ones on documentation and on test coverage. *)
Theorem code_assessment_is_never_confident (code_content : string)
    (language : option string) (include_suggestions : bool) :
  (forall code_analysis,
     code_tool_run ast_parse code_content language = Some code_analysis ->
     exists m issues suggestions level summary,
       _assess_code_quality ast_parse code_content language
         include_suggestions
       = Some (assessment m issues suggestions level summary) /\
       (level = LOW \/ level = MEDIUM) /\
       0 <= CodeQualityMetrics.documentation_score m < 50 /\
       CodeQualityMetrics.overall_score m < 85.5 /\
       (include_suggestions = true ->
        In "Improve documentation with better README, API docs, and inline comments"
           suggestions /\
        In "Increase test coverage with unit tests, integration tests, and edge cases"
           suggestions) /\
       (include_suggestions = false -> suggestions = [])) /\
  (code_tool_run ast_parse code_content language = None ->
   _assess_code_quality ast_parse code_content language include_suggestions
   = None) /\
  _assess_code_quality ast_parse code_content None include_suggestions = None.
Proof.
  split; [|split].
  - intros ca Hrun.
    assert (Hshape : Derived.analysis_shape code_content ca).
    { unfold code_tool_run in Hrun. destruct language; [|discriminate].
      apply AnalysisExtras.run_analysis_shape in Hrun. exact Hrun. }
    destruct Hshape as (c & Ec & Hc & Em & _).
    destruct (DocumentationExtras.documentation_score_value code_content
                EmptyString)
      as (d & ratio & score & Ed & _ & Es & _ & Hr & H0 & _).
    specialize (H0 ltac:(reflexivity)).
    destruct (quality_metrics_returns ca d)
      as (m & Em' & Hdoc & Htest & Hs & Hp & Hm & Ho).
    { rewrite Em. apply count_type_nonneg. }
    { rewrite Em. apply count_type_nonneg. }
    { rewrite Ec. apply Hc. }
    { rewrite Es. cbn [get]. lra. }
    rewrite Es in Hdoc, Ho. cbn [get] in Hdoc, Ho.
    unfold _assess_code_quality. rewrite Hrun, Ed. cbn [bind].
    rewrite Em'. cbn [bind].
    eexists m, _, _, _, _. split; [reflexivity|].
    assert (Hall : CodeQualityMetrics.overall_score m < 85.5) by lra.
    split; [apply shallow_assessment_confidence; lra|].
    split; [rewrite Hdoc; lra|]. split; [exact Hall|].
    split.
    + intros ->. unfold _generate_suggestions. rewrite Htest, Hdoc.
      change (Qltb 70 80) with true.
      assert (Hlt : Qltb score 60 = true)
        by (apply PyNumFacts.Qltb_true; lra).
      rewrite Hlt. rewrite !in_append_when. split.
      * left. left. right. split; reflexivity.
      * left. right. split; reflexivity.
    + intros ->. reflexivity.
  - intro H. unfold _assess_code_quality. rewrite H. reflexivity.
  - reflexivity.
Qed.

Lemma repository_documentation (readme_content : string) :
  exists score : Q,
    _analyze_documentation readme_content
    = Some (DocAnalysis.Build (Some score) (Some 0)
              (Some (DocumentationAnalysisTool._analyze_readme readme_content))
              [DocumentationAnalysisTool.low_comment_issue]) /\
    (DocumentationAnalysisTool._analyze_readme readme_content == 0 ->
     score == 0) /\
    (10 <= DocumentationAnalysisTool._analyze_readme readme_content ->
     score == 100).
Proof.
  unfold _analyze_documentation, DocumentationAnalysisTool._run.
  rewrite empty_code_ratio. cbn [bind].
  change (Qltb 0 0.1) with true. cbv iota. cbn [app].
  eexists. split; [reflexivity|].
  pose proof (DocumentationExtras.readme_score_range readme_content)
    as [Hs _].
  set (s := DocumentationAnalysisTool._analyze_readme readme_content) in *.
  split; intro H; minmax_cases; lra.
Qed.

(** An assessment of a repository returns whenever the analysis of its
    files does.  The documentation tool is then run on empty code, so the
    comment ratio is 0: the last issue is always the low comment ratio,
    and the documentation score is 0 when the README earns no point and
    100 otherwise, nothing in between. *)
Theorem repository_assessment_documentation (repository_url : string)
    (language : option string) (include_suggestions : bool) :
  let repo_data := _fetch_repository_data repository_url in
  let readme_score :=
    DocumentationAnalysisTool._analyze_readme
      (get (readme repo_data) EmptyString) in
  (forall code_analysis,
     _analyze_code_files ast_parse (files repo_data) language
     = Some code_analysis ->
     exists m suggestions level summary,
       _assess_repository_quality ast_parse _fetch_repository_data
         repository_url language include_suggestions
       = Some (assessment m
                 (map code_issue (CodeAnalysis.issues code_analysis)
                  ++ [documentation_issue
                        DocumentationAnalysisTool.low_comment_issue])
                 suggestions level summary) /\
       (readme_score == 0 -> CodeQualityMetrics.documentation_score m == 0) /\
       (0 < readme_score -> CodeQualityMetrics.documentation_score m == 100)) /\
  (_analyze_code_files ast_parse (files repo_data) language = None ->
   _assess_repository_quality ast_parse _fetch_repository_data
     repository_url language include_suggestions = None).
Proof.
  intros repo_data readme_score. split.
  - intros ca Hca.
    destruct (code_files_value ast_parse _ _ _ Hca) as (c & Ec & Hc & Em).
    destruct (repository_documentation (get (readme repo_data) EmptyString))
      as (score & Ed & H0 & H10).
    fold readme_score in Ed, H0, H10.
    assert (Hscore : 0 <= score <= 100).
    { pose proof (DocumentationExtras.readme_score_range
                    (get (readme repo_data) EmptyString)) as [_ [Hz | Hp]].
      - specialize (H0 Hz). lra.
      - specialize (H10 Hp). lra. }
    set (d := DocAnalysis.Build (Some score) (Some 0) (Some readme_score)
                [DocumentationAnalysisTool.low_comment_issue]) in *.
    destruct (quality_metrics_returns ca d)
      as (m & Em' & Hdoc & _).
    { rewrite Em. apply count_type_nonneg. }
    { rewrite Em. apply count_type_nonneg. }
    { rewrite Ec. apply Hc. }
    { exact Hscore. }
    cbn [d DocAnalysis.documentation_score get] in Hdoc.
    unfold _assess_repository_quality. fold repo_data.
    rewrite Hca. cbn [bind]. rewrite Ed. cbn [bind]. rewrite Em'. cbn [bind].
    rewrite compile_issues_value. cbn [d DocAnalysis.issues map].
    eexists m, _, _, _. split; [reflexivity|].
    rewrite Hdoc. split; [exact H0|].
    intro Hpos.
    pose proof (DocumentationExtras.readme_score_range
                  (get (readme repo_data) EmptyString)) as [_ [Hz | Hp]].
    + fold readme_score in Hz. lra.
    + apply H10. exact Hp.
  - intro H. unfold _assess_repository_quality. fold repo_data.
    rewrite H. reflexivity.
Qed.

(** A solution is assessed through its repository, with the language of
    the solution or python when it names none, so that the language is
    never absent; a solution whose repository URL is missing or empty
    fails. *)
Theorem solution_assessment_uses_repository (solution_id : Z)
    (include_suggestions : bool) :
  let solution_data := _get_solution_data solution_id in
  (forall url,
     solution_repository_url solution_data = Some url -> url <> EmptyString ->
     exists language : string,
       _assess_solution_quality ast_parse _fetch_repository_data
         _get_solution_data solution_id include_suggestions
       = _assess_repository_quality ast_parse _fetch_repository_data url
           (Some language) include_suggestions /\
       (solution_language solution_data = None -> language = "python") /\
       (forall l, solution_language solution_data = Some l -> language = l)) /\
  (solution_repository_url solution_data = None \/
   solution_repository_url solution_data = Some EmptyString ->
   _assess_solution_quality ast_parse _fetch_repository_data
     _get_solution_data solution_id include_suggestions = None).
Proof.
  intro solution_data. split.
  - intros url E Hurl. unfold _assess_solution_quality. fold solution_data.
    rewrite E. cbn [truthy_text].
    destruct (String.eqb_spec url EmptyString) as [-> | _]; [contradiction|].
    cbn [negb]. eexists. split; [reflexivity|].
    split; [intros ->; reflexivity | intros l ->; reflexivity].
  - intros [E | E]; unfold _assess_solution_quality; fold solution_data;
      rewrite E; reflexivity.
Qed.

(** The request is served by the first of solution, repository and code
    that it names: a solution id other than 0 wins over a repository URL,
    a non-empty repository URL over code, and an id of 0 or an empty text
    counts as absent.  A request that names none of them fails, and so
    does a request for code that names no language. *)
Theorem quality_request_dispatch (request : QualityAssessmentRequest.t) :
  let solution_id := QualityAssessmentRequest.solution_id request in
  let repository_url := QualityAssessmentRequest.repository_url request in
  let code_content := QualityAssessmentRequest.code_content request in
  let language := QualityAssessmentRequest.language request in
  let include_suggestions :=
    QualityAssessmentRequest.include_suggestions request in
  let absent_id := solution_id = None \/ solution_id = Some 0%Z in
  let absent_url :=
    repository_url = None \/ repository_url = Some EmptyString in
  let absent_code := code_content = None \/ code_content = Some EmptyString in
  let run :=
    _process_request_internal ast_parse _fetch_repository_data
      _get_solution_data request in
  (forall id,
     solution_id = Some id -> id <> 0%Z ->
     run = _assess_solution_quality ast_parse _fetch_repository_data
             _get_solution_data id include_suggestions) /\
  (absent_id ->
   forall url,
     repository_url = Some url -> url <> EmptyString ->
     run = _assess_repository_quality ast_parse _fetch_repository_data url
             language include_suggestions) /\
  (absent_id -> absent_url ->
   forall code,
     code_content = Some code -> code <> EmptyString ->
     run = _assess_code_quality ast_parse code language include_suggestions) /\
  (absent_id -> absent_url -> absent_code -> run = None) /\
  (absent_id -> absent_url -> language = None -> run = None).
Proof.
  intros solution_id repository_url code_content language include_suggestions
    absent_id absent_url absent_code run.
  subst run absent_id absent_url absent_code.
  unfold _process_request_internal.
  fold solution_id repository_url code_content language include_suggestions.
  assert (Hid : forall id, solution_id = Some id -> id <> 0%Z ->
                           truthy_int solution_id = true).
  { intros id -> H. cbn. apply negb_true_iff, Z.eqb_neq, H. }
  assert (Hnid : solution_id = None \/ solution_id = Some 0%Z ->
                 truthy_int solution_id = false).
  { intros [-> | ->]; reflexivity. }
  assert (Hurl : forall url, repository_url = Some url -> url <> EmptyString ->
                             truthy_text repository_url = true).
  { intros url -> H. cbn. apply negb_true_iff, String.eqb_neq, H. }
  assert (Hnurl : repository_url = None \/ repository_url = Some EmptyString ->
                  truthy_text repository_url = false).
  { intros [-> | ->]; reflexivity. }
  split; [|split; [|split; [|split]]].
  - intros id E H. rewrite (Hid id E H), E. reflexivity.
  - intros Ha url E H. rewrite (Hnid Ha), (Hurl url E H), E. reflexivity.
  - intros Ha Hu code E H. rewrite (Hnid Ha), (Hnurl Hu), E. cbn.
    destruct (String.eqb_spec code EmptyString) as [-> | _]; [contradiction|].
    reflexivity.
  - intros Ha Hu [E | E]; rewrite (Hnid Ha), (Hnurl Hu), E; reflexivity.
  - intros Ha Hu ->. rewrite (Hnid Ha), (Hnurl Hu).
    destruct (truthy_text code_content); [|reflexivity].
    destruct code_content; reflexivity.
Qed.

End Pipeline.

End AssessmentExtras.

(** * Further properties of the agents and of the upload *)

Module AgentExtras.
Import PyNum Schemas.
Local Open Scope string_scope.

(** ** Request metrics *)

Lemma record_request_value (m : AgentMetrics.t) (processing_time : Q)
    (success : bool) (now : string) :
  (0 <= AgentMetrics.total_requests m)%Z ->
  exists m' : AgentMetrics.t,
    AgentMetrics.record_request m processing_time success now = Some m' /\
    AgentMetrics.total_requests m' = (AgentMetrics.total_requests m + 1)%Z /\
    AgentMetrics.successful_requests m'
    = (AgentMetrics.successful_requests m + if success then 1 else 0)%Z /\
    AgentMetrics.failed_requests m'
    = (AgentMetrics.failed_requests m + if success then 0 else 1)%Z /\
    AgentMetrics.total_processing_time m'
    = AgentMetrics.total_processing_time m + processing_time /\
    AgentMetrics.average_processing_time m'
    = AgentMetrics.total_processing_time m'
      / inject_Z (AgentMetrics.total_requests m') /\
    AgentMetrics.last_request_time m' = Some now.
Proof.
  intro H. unfold AgentMetrics.record_request.
  rewrite PyNumFacts.py_div_some.
  2:{ intro E. unfold Qeq in E. simpl in E. lia. }
  cbn [bind]. destruct success; eexists; (split; [reflexivity|]); cbn;
    repeat split; lia.
Qed.

Lemma replay_cons (e : Derived.entry) (log : list Derived.entry)
    (m : AgentMetrics.t) :
  Derived.replay (e :: log) m
  = match AgentMetrics.record_request m (fst (fst e)) (snd (fst e)) (snd e)
    with
    | Some m' => Derived.replay log m'
    | None => None
    end.
Proof.
  unfold Derived.replay. cbn [fold_left bind].
  destruct (AgentMetrics.record_request m (fst (fst e)) (snd (fst e)) (snd e));
    [reflexivity|].
  induction log as [|x log IH]; [reflexivity | exact IH].
Qed.

Lemma successes_bounds (log : list Derived.entry) :
  (0 <= Derived.successes log <= Z.of_nat (List.length log))%Z.
Proof.
  unfold Derived.successes.
  pose proof (filter_length_le (fun e : Derived.entry => snd (fst e)) log).
  lia.
Qed.

Lemma successes_cons (e : Derived.entry) (log : list Derived.entry) :
  Derived.successes (e :: log)
  = (Derived.successes log + if snd (fst e) then 1 else 0)%Z.
Proof.
  unfold Derived.successes. cbn [filter].
  destruct (snd (fst e)); cbn [List.length]; lia.
Qed.

Lemma replay_value (log : list Derived.entry) :
  forall m : AgentMetrics.t,
    (0 <= AgentMetrics.total_requests m)%Z ->
    exists m' : AgentMetrics.t,
      Derived.replay log m = Some m' /\
      AgentMetrics.total_requests m'
      = (AgentMetrics.total_requests m + Z.of_nat (List.length log))%Z /\
      AgentMetrics.successful_requests m'
      = (AgentMetrics.successful_requests m + Derived.successes log)%Z /\
      AgentMetrics.failed_requests m'
      = (AgentMetrics.failed_requests m
         + (Z.of_nat (List.length log) - Derived.successes log))%Z /\
      AgentMetrics.total_processing_time m'
      == AgentMetrics.total_processing_time m + Derived.time_spent log /\
      (log <> [] ->
       AgentMetrics.average_processing_time m'
       = AgentMetrics.total_processing_time m'
         / inject_Z (AgentMetrics.total_requests m') /\
       forall d,
         AgentMetrics.last_request_time m' = Some (snd (last log d))).
Proof.
  induction log as [|e log IH]; intros m Hm.
  - exists m. split; [reflexivity|]. cbn.
    split; [lia|]. split; [unfold Derived.successes; simpl; lia|].
    split; [unfold Derived.successes; simpl; lia|].
    split; [ring | intro H; contradiction].
  - rewrite replay_cons.
    destruct (record_request_value m (fst (fst e)) (snd (fst e)) (snd e) Hm)
      as (m1 & -> & Ht & Hs & Hf & Hp & Ha & Hl).
    destruct (IH m1 ltac:(lia)) as (m' & E & Ht' & Hs' & Hf' & Hp' & Hlast).
    exists m'. split; [exact E|].
    rewrite successes_cons. cbn [List.length]. rewrite Nat2Z.inj_succ.
    split; [lia|]. split; [lia|].
    split; [destruct (snd (fst e)); lia|].
    split; [rewrite Hp', Hp; cbn [Derived.time_spent]; ring|].
    intros _. destruct log as [|e' log].
    + cbn in E. injection E as <-. split; [exact Ha | intro d; exact Hl].
    + destruct Hlast as [Ha' Hl']; [discriminate|].
      split; [exact Ha' | intro d; apply (Hl' d)].
Qed.

(** Starting from fresh metrics, recording any log of requests never
    fails: no division by zero occurs.  Afterwards the total is the number
    of requests and splits into the successful and the failed ones, the
    total time is the sum of the processing times and the average is that
    sum over the number of requests; the success rate exists, lies within
    [0,1], is 0 for the empty log and otherwise the share of successes. *)
Theorem metrics_after_any_log (log : list Derived.entry) :
  exists (m : AgentMetrics.t) (rate : Q),
    Derived.replay log AgentMetrics.init = Some m /\
    AgentMetrics.total_requests m = Z.of_nat (List.length log) /\
    AgentMetrics.successful_requests m = Derived.successes log /\
    (AgentMetrics.successful_requests m + AgentMetrics.failed_requests m
     = AgentMetrics.total_requests m)%Z /\
    (0 <= AgentMetrics.successful_requests m)%Z /\
    (0 <= AgentMetrics.failed_requests m)%Z /\
    AgentMetrics.total_processing_time m == Derived.time_spent log /\
    (log <> [] ->
     AgentMetrics.average_processing_time m
     == Derived.time_spent log / inject_Z (Z.of_nat (List.length log))) /\
    AgentMetrics.success_rate m = Some rate /\ 0 <= rate <= 1 /\
    (log = [] -> rate == 0) /\
    (log <> [] ->
     rate == inject_Z (Derived.successes log)
             / inject_Z (Z.of_nat (List.length log))).
Proof.
  destruct (replay_value log AgentMetrics.init ltac:(simpl; lia))
    as (m & E & Ht & Hs & Hf & Hp & Hlast).
  cbn [AgentMetrics.init AgentMetrics.total_requests
       AgentMetrics.successful_requests AgentMetrics.failed_requests
       AgentMetrics.total_processing_time] in Ht, Hs, Hf, Hp.
  rewrite Z.add_0_l in Ht, Hs, Hf. rewrite Qplus_0_l in Hp.
  pose proof (successes_bounds log) as Hb.
  assert (Hrate : exists rate,
             AgentMetrics.success_rate m = Some rate /\
             (log = [] -> rate == 0) /\
             (log <> [] ->
              rate == inject_Z (Derived.successes log)
                      / inject_Z (Z.of_nat (List.length log)))).
  { unfold AgentMetrics.success_rate. rewrite Ht, Hs.
    destruct log as [|e log].
    - exists 0. split; [reflexivity|].
      split; [reflexivity | intro H; contradiction].
    - destruct (Z.eqb_spec (Z.of_nat (List.length (e :: log))) 0) as [H0 | _];
        [simpl in H0; lia|].
      rewrite PyNumFacts.py_div_some.
      2:{ intro H. unfold Qeq in H. simpl in H. lia. }
      eexists. split; [reflexivity|].
      split; [discriminate | reflexivity]. }
  destruct Hrate as (rate & Er & Hr0 & Hr1).
  exists m, rate.
  split; [exact E|]. split; [exact Ht|]. split; [exact Hs|].
  split; [lia|]. split; [lia|]. split; [lia|]. split; [exact Hp|].
  split.
  { intro Hne. destruct (Hlast Hne) as [Ha _]. rewrite Ha, Ht, Hp.
    reflexivity. }
  split; [exact Er|]. split; [|split; [exact Hr0 | exact Hr1]].
  destruct log as [|e log].
  - rewrite (Hr0 eq_refl). lra.
  - rewrite (Hr1 ltac:(discriminate)).
    set (n := Z.of_nat (List.length (e :: log))) in *.
    assert (Hn : 0 < inject_Z n).
    { change 0 with (inject_Z 0). rewrite <- Zlt_Qlt. subst n. simpl. lia. }
    split.
    + apply Qle_shift_div_l; [exact Hn|]. rewrite Qmult_0_l.
      change 0 with (inject_Z 0). rewrite <- Zle_Qle. lia.
    + apply Qle_shift_div_r; [exact Hn|]. rewrite Qmult_1_l.
      rewrite <- Zle_Qle. lia.
Qed.

(** ** The request wrapper *)

Lemma get_set_same (d : PyDict.t) (key : string) (v : PyDict.value) :
  PyDict.get (PyDict.set d key v) key = Some v.
Proof.
  induction d as [|[k x] d IH]; cbn [PyDict.set PyDict.get].
  - rewrite String.eqb_refl. reflexivity.
  - destruct (String.eqb k key) eqn:E; cbn [PyDict.get]; rewrite E;
      [reflexivity | exact IH].
Qed.

Lemma get_set_other (d : PyDict.t) (key key' : string) (v : PyDict.value) :
  key <> key' ->
  PyDict.get (PyDict.set d key v) key' = PyDict.get d key'.
Proof.
  intro H. induction d as [|[k x] d IH]; cbn [PyDict.set PyDict.get].
  - destruct (String.eqb_spec key key'); [contradiction | reflexivity].
  - destruct (String.eqb_spec k key) as [-> | Hk]; cbn [PyDict.get].
    + destruct (String.eqb_spec key key'); [contradiction | reflexivity].
    + destruct (String.eqb k key'); [reflexivity | exact IH].
Qed.

Section Wrapper.

Variable Request : Type.
Variable name : string.
Variable _process_request_internal : Request -> option PyDict.t.
Variable setup : bool.

(** One request through the wrapper of the base agent, on metrics whose
    total is not negative.  When the agent is not initialized and its
    set-up raises, the call raises before anything is recorded: there is no
    result and the agent is as it was.  Otherwise the agent is initialized
    afterwards and the call is recorded exactly once, as a success when
    the handler returned and as a failure when it raised, in which case
    there is no result.  A result carries the name of the agent, the
    elapsed time and the time stamp, and its confidence level is medium
    whatever level the handler had put there; every other key of the
    handler's result is unchanged. *)
Theorem process_request_accounting (self : BaseAgent.state)
    (request : Request) (elapsed_result elapsed_total : Q)
    (timestamp now : string) :
  let metrics := BaseAgent.metrics self in
  (0 <= AgentMetrics.total_requests metrics)%Z ->
  exists (outcome : option PyDict.t) (self' : BaseAgent.state),
    BaseAgent.process_request Request name _process_request_internal setup
      self request elapsed_result elapsed_total timestamp now
    = Some (outcome, self') /\
    (BaseAgent.is_initialized self = false -> setup = false ->
     BaseAgent.initialize setup self = None /\
     outcome = None /\ self' = self) /\
    (BaseAgent.is_initialized self = true \/ setup = true ->
     let metrics' := BaseAgent.metrics self' in
     BaseAgent.is_initialized self' = true /\
     AgentMetrics.total_requests metrics'
     = (AgentMetrics.total_requests metrics + 1)%Z /\
     AgentMetrics.last_request_time metrics' = Some now /\
     (_process_request_internal request = None ->
      outcome = None /\
      AgentMetrics.failed_requests metrics'
      = (AgentMetrics.failed_requests metrics + 1)%Z /\
      AgentMetrics.successful_requests metrics'
      = AgentMetrics.successful_requests metrics) /\
     (forall result,
        _process_request_internal request = Some result ->
        AgentMetrics.successful_requests metrics'
        = (AgentMetrics.successful_requests metrics + 1)%Z /\
        AgentMetrics.failed_requests metrics'
        = AgentMetrics.failed_requests metrics /\
        exists d : PyDict.t,
          outcome = Some d /\
          PyDict.get d "confidence_level"
          = Some (PyDict.VConfidence MEDIUM) /\
          PyDict.get d "agent" = Some (PyDict.VStr name) /\
          PyDict.get d "processing_time"
          = Some (PyDict.VFloat elapsed_result) /\
          PyDict.get d "timestamp" = Some (PyDict.VStr timestamp) /\
          (forall key,
             ~ In key ["agent"; "processing_time"; "timestamp";
                       "confidence_level"] ->
             PyDict.get d key = PyDict.get result key))).
Proof.
  intros metrics Hm. subst metrics. destruct self as [flag metrics].
  cbn [BaseAgent.metrics BaseAgent.is_initialized] in *.
  unfold BaseAgent.process_request, BaseAgent.initialize.
  cbn [BaseAgent.metrics BaseAgent.is_initialized].
  assert (Hinit :
            (if negb flag
             then if flag then Some (BaseAgent.State flag metrics)
                  else if setup then Some (BaseAgent.State true metrics)
                       else None
             else Some (BaseAgent.State flag metrics))
            = if flag || setup then Some (BaseAgent.State true metrics)
              else None).
  { destruct flag, setup; reflexivity. }
  rewrite Hinit. clear Hinit.
  destruct (flag || setup) eqn:Eready.
  - cbn [BaseAgent.metrics BaseAgent.is_initialized].
    destruct (_process_request_internal request) as [result|].
    + destruct (record_request_value metrics elapsed_total true now Hm)
        as (m' & -> & Ht & Hs & Hf & _ & _ & Hl).
      cbn [bind]. eexists _, _. split; [reflexivity|].
      split.
      { intros -> ->. discriminate Eready. }
      intros _. cbn [BaseAgent.metrics BaseAgent.is_initialized].
      split; [reflexivity|].
      split; [exact Ht|]. split; [exact Hl|].
      split; [discriminate|].
      intros r Hr. injection Hr as <-.
      split; [exact Hs|]. split; [lia|].
      eexists. split; [reflexivity|].
      unfold PyDict.update. cbn [fold_left fst snd].
      split; [apply get_set_same|].
      split; [rewrite !get_set_other by discriminate; apply get_set_same|].
      split; [rewrite !get_set_other by discriminate; apply get_set_same|].
      split; [rewrite !get_set_other by discriminate; apply get_set_same|].
      intros key Hkey.
      rewrite !get_set_other; [reflexivity | | | |];
        intro E; apply Hkey; rewrite <- E; simpl; tauto.
    + destruct (record_request_value metrics elapsed_total false now Hm)
        as (m' & -> & Ht & Hs & Hf & _ & _ & Hl).
      cbn [bind]. eexists _, _. split; [reflexivity|].
      split.
      { intros -> ->. discriminate Eready. }
      intros _. cbn [BaseAgent.metrics BaseAgent.is_initialized].
      split; [reflexivity|].
      split; [exact Ht|]. split; [exact Hl|].
      split; [intros _; split; [reflexivity | split; [exact Hf | lia]]|].
      discriminate.
  - apply orb_false_iff in Eready. destruct Eready as [-> ->].
    eexists _, _. split; [reflexivity|].
    split.
    + intros _ _. split; [reflexivity|]. split; reflexivity.
    + intros [H | H]; discriminate H.
Qed.

End Wrapper.

Lemma process_request_accounting_witness :
  exists (outcome : option PyDict.t) (self' : BaseAgent.state),
    QualityAssessmentAgent.process_request Examples.parse_table
      (fun _ => PipelineExamples.small_repository)
      PipelineExamples.mock_solution true
      (BaseAgent.State false AgentMetrics.init)
      PipelineExamples.code_request 0.25 0.5 "2024-01-01T00:00:00"
      "2024-01-01 00:00:00"
    = Some (outcome, self') /\
    BaseAgent.is_initialized self' = true /\
    AgentMetrics.total_requests (BaseAgent.metrics self') = 1%Z.
Proof.
  destruct (process_request_accounting QualityAssessmentRequest.t
              "quality_assessment"
              (QualityAssessmentAgent._process_request_internal
                 Examples.parse_table
                 (fun _ => PipelineExamples.small_repository)
                 PipelineExamples.mock_solution)
              true (BaseAgent.State false AgentMetrics.init)
              PipelineExamples.code_request 0.25 0.5
              "2024-01-01T00:00:00" "2024-01-01 00:00:00")
    as (outcome & self' & E & _ & H).
  - simpl. lia.
  - destruct H as (Hi & Ht & _); [right; reflexivity|].
    exists outcome, self'. split; [exact E|]. split; [exact Hi | exact Ht].
Defined.

(** A request to an agent whose set-up raises is not recorded. *)
Example process_request_of_failed_setup :
  QualityAssessmentAgent.process_request Examples.parse_table
    (fun _ => PipelineExamples.small_repository)
    PipelineExamples.mock_solution false
    (BaseAgent.State false AgentMetrics.init)
    PipelineExamples.code_request 0.25 0.5 "2024-01-01T00:00:00"
    "2024-01-01 00:00:00"
  = Some (None, BaseAgent.State false AgentMetrics.init).
Proof. reflexivity. Qed.

End AgentExtras.

Module UploadExtras.
Import PyStr QualityAssessmentAgent QualityAssessmentEndpoint.
Local Open Scope string_scope.

Lemma append_split (y : string) :
  forall x a b : string,
    x ++ a = y ++ b -> (String.length a <= String.length b)%nat ->
    exists z, b = z ++ a.
Proof.
  induction y as [|c y IH]; intros x a b E Hl.
  - exists x. simpl in E. symmetry. exact E.
  - destruct x as [|c' x].
    + simpl in E. rewrite E in Hl. simpl in Hl.
      rewrite AssessmentExtras.append_length in Hl. lia.
    + simpl in E. injection E as _ E. apply (IH x a b E Hl).
Qed.

Lemma endswith_both (s a b : string) :
  endswith s a = true -> endswith s b = true ->
  (String.length a <= String.length b)%nat -> endswith b a = true.
Proof.
  intros Ha Hb Hl.
  apply AssessmentExtras.endswith_iff in Ha, Hb.
  destruct Ha as (x & Ea). destruct Hb as (y & Eb).
  apply AssessmentExtras.endswith_iff.
  apply (append_split y x a b); [congruence | exact Hl].
Qed.

Lemma endswith_exclusive (a b s : string) :
  endswith a b = false -> endswith b a = false ->
  endswith s a = true -> endswith s b = false.
Proof.
  intros Hab Hba Ha. destruct (endswith s b) eqn:Hb; [|reflexivity].
  destruct (Nat.le_ge_cases (String.length a) (String.length b)) as [H | H].
  - rewrite (endswith_both s a b Ha Hb H) in Hba. discriminate.
  - rewrite (endswith_both s b a Hb Ha H) in Hab. discriminate.
Qed.

(** Rules out, for a name with a known ending, each other ending the
    chain tests. *)
Ltac other_endings H :=
  match type of H with
  | endswith _ ?a = true =>
      repeat match goal with
      | |- context [endswith ?f ?b] =>
          rewrite (endswith_exclusive a b f eq_refl eq_refl H)
      end
  end.

(** The language of an upload is the one the caller gave unless that is
    absent or empty; otherwise it follows the file name and is one of
    python, javascript, typescript, solidity and go.  A name ending in .go
    gives go, which the analysis tool treats with its generic analyzer; a
    name ending in .rs, .java, .cpp or .c, though a code file for the
    repository scan, gives python.  The request built from the upload
    always names a language and is served as an assessment of its code,
    and fails when the content is empty. *)
Theorem upload_language_routes (filename code_content : string)
    (language : option string) (include_suggestions : bool) :
  let detected := detected_language filename language in
  (forall l, language = Some l -> l <> EmptyString -> detected = l) /\
  (language = None \/ language = Some EmptyString ->
   detected = language_of_extension filename) /\
  In (language_of_extension filename)
     ["python"; "javascript"; "typescript"; "solidity"; "go"] /\
  (endswith filename ".go" = true ->
   language_of_extension filename = "go" /\
   forall ast_parse,
     code_tool_run ast_parse code_content
       (Some (language_of_extension filename))
     = Some (CodeAnalysisTool._analyze_generic_code code_content)) /\
  (forall ext,
     In ext [".rs"; ".java"; ".cpp"; ".c"] -> endswith filename ext = true ->
     _is_code_file filename = true /\
     language_of_extension filename = "python") /\
  (forall ast_parse fetch solution,
     code_content <> EmptyString ->
     _process_request_internal ast_parse fetch solution
       (upload_request filename code_content language include_suggestions)
     = _assess_code_quality ast_parse code_content (Some detected)
         include_suggestions) /\
  (forall ast_parse fetch solution,
     _process_request_internal ast_parse fetch solution
       (upload_request filename EmptyString language include_suggestions)
     = None).
Proof.
  intro detected. subst detected.
  split; [|split; [|split; [|split; [|split; [|split]]]]].
  - intros l -> Hl. unfold detected_language. cbn [truthy_text].
    destruct (String.eqb_spec l EmptyString); [contradiction | reflexivity].
  - intros [-> | ->]; reflexivity.
  - unfold language_of_extension.
    repeat match goal with
           | |- context [if ?b then _ else _] => destruct b
           end; simpl; tauto.
  - intro H.
    assert (E : language_of_extension filename = "go").
    { unfold language_of_extension. rewrite H. other_endings H. reflexivity. }
    split; [exact E|]. intro ast_parse. rewrite E. reflexivity.
  - intros ext Hin H. split.
    + unfold _is_code_file. apply existsb_exists. exists ext.
      split; [|exact H]. simpl in Hin. simpl. tauto.
    + unfold language_of_extension.
      destruct Hin as [<- | [<- | [<- | [<- | []]]]];
        destruct (endswith filename ".py"); try reflexivity;
        other_endings H; reflexivity.
  - intros ast_parse fetch solution Hc.
    unfold _process_request_internal, upload_request. cbn.
    destruct (String.eqb_spec code_content EmptyString);
      [contradiction | reflexivity].
  - intros. reflexivity.
Qed.

End UploadExtras.
